(** * ApiKeyManager: a shallow embedding of [ApiKeyManager.py]

    The Python class keeps a pool of API keys in an insertion-ordered dict,
    counts daily usage per key, tracks a 60-second window of monotonic
    timestamps per key, rolls the daily counters over on a schedule and
    persists its data dict as JSON.

    Modelling conventions.
    - Wall-clock instants are integers counting microseconds (the resolution
      of [datetime]); [timedelta(days=n)] is [n * 86400000000].  The bounded
      year range of [datetime] is not modelled.
    - [time.monotonic()] readings are integers counting nanoseconds; the
      source uses float seconds and subtracts [60], written here as
      [sixty_seconds].  Rounding of floats is not modelled.
    - The value stored under ['last_reset_time'] is classified by what
      [datetime.fromisoformat(v.replace('Z', '+00:00'))] does with it
      ([json_time]); [isoformat] output is always accepted by that parser.
    - Key records and config entries follow the JSON schema the class itself
      writes: a key record is a dict with an optional integer
      ['usage_today'], a config entry is an integer or [None].
    - Writing the file succeeds; logging is not modelled. *)

From Stdlib Require Import ZArith List String Bool Lia.
From stdpp Require Import gmap strings.
Import ListNotations.

Local Open Scope string_scope.
Local Open Scope list_scope.
Local Open Scope Z_scope.

(** ** Wall-clock time: the fragment of [datetime] the class uses *)

Module Clock.

Definition us_per_hour : Z := 3600000000.
Definition us_per_day : Z := 24 * us_per_hour.

(** A [datetime]: its naive calendar fields as microseconds since the
    epoch, and its [utcoffset] when it is timezone-aware. *)
Record datetime := { wall : Z; utcoffset : option Z }.

(** [datetime.now(timezone.utc)] read at instant [t]. *)
Definition utc (t : Z) : datetime := {| wall := t; utcoffset := Some 0 |}.

(** [d.replace(tzinfo=timezone.utc)] when [d.tzinfo is None]. *)
Definition assume_utc (d : datetime) : datetime :=
  match utcoffset d with
  | None => {| wall := wall d; utcoffset := Some 0 |}
  | Some _ => d
  end.

(** The point on the UTC time line an aware datetime denotes. *)
Definition instant (d : datetime) : Z :=
  wall d - match utcoffset d with Some o => o | None => 0 end.

(** [d + timedelta(days=n)]. *)
Definition timedelta_days (d : datetime) (n : Z) : datetime :=
  {| wall := wall d + n * us_per_day; utcoffset := utcoffset d |}.

(** [d.date()], as a day number: the calendar date of the naive fields. *)
Definition date (d : datetime) : Z := wall d / us_per_day.

(** [datetime.combine(day, dt_time(h, tzinfo=timezone.utc))]. *)
Definition combine (day h : Z) : datetime :=
  utc (day * us_per_day + h * us_per_hour).

(** [a <= b] on aware datetimes. *)
Definition dt_le (a b : datetime) : bool := instant a <=? instant b.

End Clock.
Import Clock.

(** ** JSON values and the data dict *)

(** What can sit under ['last_reset_time']. *)
Inductive json_time :=
| JFalsy              (* null, 0, false, [], {}: falsy and without [.replace] *)
| JOther              (* any other non-string value: truthy, without [.replace] *)
| JEmpty              (* the empty string *)
| JGarbage            (* a non-empty string that [fromisoformat] rejects *)
| JIso (d : datetime) (* a string that [fromisoformat] reads as [d] *).

(** [now_utc.isoformat()]. *)
Definition isoformat (now : Z) : json_time := JIso (utc now).

(** Python truthiness of the stored value. *)
Definition truthy (v : json_time) : bool :=
  match v with
  | JFalsy | JEmpty => false
  | JOther | JGarbage | JIso _ => true
  end.

Inductive parsed :=
| PAttributeError
| PValueError
| PTime (d : datetime).

(** [datetime.fromisoformat(v.replace('Z', '+00:00'))]. *)
Definition fromisoformat (v : json_time) : parsed :=
  match v with
  | JFalsy | JOther => PAttributeError
  | JEmpty | JGarbage => PValueError
  | JIso d => PTime d
  end.

Record config := {
  daily_limit : option Z;
  requests_per_minute : option Z;
  reset_hour_utc : option Z;
  reset_interval_days : option Z
}.

Definition no_config : config :=
  {| daily_limit := None; requests_per_minute := None;
     reset_hour_utc := None; reset_interval_days := None |}.

(** One entry of [data['keys']]: a dict that may lack ['usage_today']. *)
Record key_data := { usage_today : option Z }.

(** [key_data.get('usage_today', 0)]. *)
Definition usage (kd : key_data) : Z :=
  match usage_today kd with Some n => n | None => 0 end.

(** ** The insertion-ordered dict [data['keys']] *)

Definition keys_dict := list (string * key_data).

Fixpoint dict_get (k : string) (d : keys_dict) : option key_data :=
  match d with
  | [] => None
  | (k', v) :: r => if String.eqb k k' then Some v else dict_get k r
  end.

(** [k in d]. *)
Definition dict_mem (k : string) (d : keys_dict) : bool :=
  match dict_get k d with Some _ => true | None => false end.

(** [d[k] = v]: in place when [k] is present, at the end otherwise. *)
Fixpoint dict_set (k : string) (v : key_data) (d : keys_dict) : keys_dict :=
  match d with
  | [] => [(k, v)]
  | (k', v') :: r =>
      if String.eqb k k' then (k', v) :: r else (k', v') :: dict_set k v r
  end.

(** [del d[k]]. *)
Fixpoint dict_del (k : string) (d : keys_dict) : keys_dict :=
  match d with
  | [] => []
  | (k', v') :: r =>
      if String.eqb k k' then r else (k', v') :: dict_del k r
  end.

(** [list(d.keys())]. *)
Definition dict_keys (d : keys_dict) : list string := map fst d.

(** The in-memory [self.data]. *)
Record pool_data := {
  keys : keys_dict;
  saved_config : config;
  last_reset_time : option json_time
}.

(** ** The file behind [self.json_file] *)

(** A JSON object as [json.load] returns it; each entry may be missing. *)
Record json_object := {
  j_keys : option keys_dict;
  j_config : option config;
  j_last_reset_time : option json_time
}.

Inductive file_content :=
| NotJson                       (* [json.load] raises JSONDecodeError *)
| JsonNonObject                 (* the root is not a dict *)
| JsonObject (o : json_object).

(** [json.dump(self.data, f)]. *)
Definition dump (d : pool_data) (t : json_time) : file_content :=
  JsonObject {| j_keys := Some (keys d);
                j_config := Some (saved_config d);
                j_last_reset_time := Some t |}.

(** ** The manager *)

(** The instance together with the file it owns.  [attrs] holds the four
    attributes [self.daily_limit], [self.requests_per_minute],
    [self.reset_hour_utc] and [self.reset_interval_days]; [save_calls]
    counts the calls of [_save_data_internal]. *)
Record manager := {
  attrs : config;
  key_timestamps : gmap string (list Z);
  data : pool_data;
  api_keys : list string;
  disk : option file_content;
  save_calls : nat
}.

Definition with_data (d : pool_data) (m : manager) : manager :=
  {| attrs := attrs m; key_timestamps := key_timestamps m; data := d;
     api_keys := api_keys m; disk := disk m; save_calls := save_calls m |}.

Definition with_timestamps (t : gmap string (list Z)) (m : manager) : manager :=
  {| attrs := attrs m; key_timestamps := t; data := data m;
     api_keys := api_keys m; disk := disk m; save_calls := save_calls m |}.

Definition with_keys (ks : keys_dict) (m : manager) : manager :=
  with_data {| keys := ks; saved_config := saved_config (data m);
               last_reset_time := last_reset_time (data m) |} m.

Definition with_last_reset_time (t : json_time) (m : manager) : manager :=
  with_data {| keys := keys (data m); saved_config := saved_config (data m);
               last_reset_time := Some t |} m.

(** ** Exceptions and the result of a method call *)

Inductive exn :=
| ValueError (msg : string)
| AttributeError
| ApiKeyManagerError (msg : string)
| NoAvailableKeyError (msg : string).

(** A call returns a value or raises; either way the instance keeps the
    mutations made so far. *)
Inductive result (A : Type) :=
| Ok (a : A) (m : manager)
| Raise (e : exn) (m : manager).
Arguments Ok {A} a m.
Arguments Raise {A} e m.

Definition bind {A B} (c : result A) (k : A -> manager -> result B) : result B :=
  match c with
  | Ok a m => k a m
  | Raise e m => Raise e m
  end.

Notation "c >>= k" := (bind c k) (at level 50, left associativity).

(** The instance after the call, whether it returned or raised. *)
Definition final {A} (r : result A) : manager :=
  match r with Ok _ m => m | Raise _ m => m end.

Definition raised {A} (r : result A) : option exn :=
  match r with Ok _ _ => None | Raise e _ => Some e end.

(** ** Persistence: [_save_data_internal] *)

(** [self.data['config'] = self._get_current_config()]. *)
Definition sync_config (m : manager) : manager :=
  with_data {| keys := keys (data m); saved_config := attrs m;
               last_reset_time := last_reset_time (data m) |} m.

Definition count_save (m : manager) : manager :=
  {| attrs := attrs m; key_timestamps := key_timestamps m; data := data m;
     api_keys := api_keys m; disk := disk m; save_calls := S (save_calls m) |}.

(** Write the temporary file and [os.replace] it over [self.json_file]. *)
Definition write_file (m : manager) (t : json_time) : manager :=
  {| attrs := attrs m; key_timestamps := key_timestamps m; data := data m;
     api_keys := api_keys m; disk := Some (dump (data m) t);
     save_calls := save_calls m |}.

(** [_save_data_internal], with [now] the reading of the clock should the
    stored time need repair.  [self.data] always holds its three entries or
    at least ['keys'], so the guard [if not self.data] never fires.  A
    missing ['last_reset_time'] raises [KeyError] inside the outer [try]:
    the config entry is already refreshed, nothing is repaired and nothing
    is written. *)
Definition save_data_internal (now : Z) (m : manager) : manager :=
  let m1 := sync_config (count_save m) in
  match last_reset_time (data m1) with
  | None => m1
  | Some v =>
      match fromisoformat v with
      | PTime _ => write_file m1 v
      | PValueError | PAttributeError =>
          let m2 := with_last_reset_time (isoformat now) m1 in
          write_file m2 (isoformat now)
      end
  end.

(** ** The reset scheduler: [_check_and_reset_internal] *)

Inductive reason :=
| IntervalDays (n : Z)
| DailyHour (h : Z).

(** [dt_time(h, tzinfo=timezone.utc)] raises [ValueError] outside 0..23. *)
Definition hour_in_range (h : Z) : bool := (0 <=? h) && (h <=? 23).

(** The first test: [now_utc >= last_reset_time + timedelta(days=n)] when
    the interval is set. *)
Definition interval_reason (c : config) (last : datetime) (now : Z)
  : option reason :=
  match reset_interval_days c with
  | Some n =>
      if dt_le (timedelta_days last n) (utc now)
      then Some (IntervalDays n) else None
  | None => None
  end.

(** [potential + timedelta(days=1) if potential <= last_reset_time else
    potential]. *)
Definition next_reset (h : Z) (last : datetime) : datetime :=
  let potential := combine (date last) h in
  if dt_le potential last then timedelta_days potential 1 else potential.

(** The second test, run under [not reset_needed]. *)
Definition hour_reason (c : config) (last : datetime) (now : Z)
  : exn + option reason :=
  match reset_hour_utc c with
  | Some h =>
      if hour_in_range h then
        if dt_le (next_reset h last) (utc now)
        then inr (Some (DailyHour h)) else inr None
      else inl (ValueError "hour must be in 0..23")
  | None => inr None
  end.

(** The pair [(reset_needed, reason)] after both tests, or the exception
    of [dt_time]. *)
Definition reset_decision (c : config) (last : datetime) (now : Z)
  : exn + option reason :=
  match interval_reason c last now with
  | Some r => inr (Some r)
  | None => hour_reason c last now
  end.

(** The body of the loop over [data['keys'].values()]. *)
Definition zero_usage (kd : key_data) : key_data :=
  if usage kd =? 0 then kd else {| usage_today := Some 0 |}.

Definition reset_keys (d : keys_dict) : keys_dict :=
  map (fun e => (fst e, zero_usage (snd e))) d.

(** [keys_updated], the number the log line reports. *)
Definition keys_updated (d : keys_dict) : nat :=
  length (List.filter (fun e => negb (usage (snd e) =? 0)) d).

(** The [if reset_needed:] block. *)
Definition do_reset (now : Z) (m : manager) : manager :=
  let m1 := with_keys (reset_keys (keys (data m))) m in
  let m2 := with_last_reset_time (isoformat now) m1 in
  save_data_internal now m2.

(** The entry read back after the [if not last_reset_str:] repair: a
    missing or falsy entry is set to now. *)
Definition repair_missing (now : Z) (m : manager) : manager * json_time :=
  match last_reset_time (data m) with
  | Some v =>
      if truthy v then (m, v)
      else (with_last_reset_time (isoformat now) m, isoformat now)
  | None => (with_last_reset_time (isoformat now) m, isoformat now)
  end.

Definition check_and_reset_internal (now : Z) (m : manager) : result unit :=
  let (m1, last_reset_str) := repair_missing now m in
  match fromisoformat last_reset_str with
  | PAttributeError => Raise AttributeError m1
  | PValueError => Ok tt (with_last_reset_time (isoformat now) m1)
  | PTime d =>
      match reset_decision (attrs m1) (assume_utc d) now with
      | inl e => Raise e m1
      | inr None => Ok tt m1
      | inr (Some _) => Ok tt (do_reset now m1)
      end
  end.

(** ** The rate window tracker: [_cleanup_timestamps_internal] *)

Definition sixty_seconds : Z := 60000000000.

(** [[ts for ts in window if ts >= cutoff]], the entry dropped when the
    list comes out empty. *)
Definition evict (cutoff : Z) (window : list Z) : option (list Z) :=
  match List.filter (fun ts => cutoff <=? ts) window with
  | [] => None
  | valid => Some valid
  end.

(** [if not self.requests_per_minute: return] is taken for [None] and
    for [0]. *)
Definition rpm_falsy (c : config) : bool :=
  match requests_per_minute c with
  | None => true
  | Some r => r =? 0
  end.

Definition cleanup_timestamps_internal (mono : Z) (m : manager) : manager :=
  if rpm_falsy (attrs m) then m
  else with_timestamps (omap (evict (mono - sixty_seconds)) (key_timestamps m)) m.

(** [len(self._key_timestamps.get(key, []))]. *)
Definition count_in_window (m : manager) (k : string) : Z :=
  Z.of_nat (length (default [] (key_timestamps m !! k))).

(** ** The public methods *)

(** A Python argument: a string, or some other object with its
    truthiness. *)
Inductive pyarg :=
| PyStr (s : string)
| PyOther (truthy : bool).

(** The string behind an argument that passes
    [not api_key or not isinstance(api_key, str)]. *)
Definition nonempty_str (a : pyarg) : option string :=
  match a with
  | PyStr s => if String.eqb s "" then None else Some s
  | PyOther _ => None
  end.

Definition add_key (api_key : pyarg) (now : Z) (m : manager) : result unit :=
  match nonempty_str api_key with
  | None => Raise (ValueError "API key must be a non-empty string.") m
  | Some k =>
      check_and_reset_internal now m >>= fun _ m1 =>
      if dict_mem k (keys (data m1))
      then Raise (ApiKeyManagerError ("API key '" ++ k ++ "' already exists.")%string) m1
      else
        let m2 := with_keys (dict_set k {| usage_today := Some 0 |}
                               (keys (data m1))) m1 in
        Ok tt (save_data_internal now m2)
  end.

Definition remove_key (api_key : string) (now : Z) (m : manager) : result unit :=
  check_and_reset_internal now m >>= fun _ m1 =>
  if dict_mem api_key (keys (data m1)) then
    let m2 := with_keys (dict_del api_key (keys (data m1))) m1 in
    let m3 := with_timestamps (delete api_key (key_timestamps m2)) m2 in
    Ok tt (save_data_internal now m3)
  else Raise (ApiKeyManagerError ("API key '" ++ api_key ++ "' not found.")%string) m1.

(** The two [continue] tests of the selection loop. *)
Definition daily_exhausted (m : manager) (kd : key_data) : bool :=
  match daily_limit (attrs m) with
  | Some limit => limit <=? usage kd
  | None => false
  end.

Definition rate_exhausted (m : manager) (k : string) : bool :=
  match requests_per_minute (attrs m) with
  | Some rpm => rpm <=? count_in_window m k
  | None => false
  end.

(** [for key, key_data in self.data['keys'].items(): ...]. *)
Fixpoint first_available (m : manager) (d : keys_dict) : option string :=
  match d with
  | [] => None
  | (k, kd) :: r =>
      if daily_exhausted m kd then first_available m r
      else if rate_exhausted m k then first_available m r
      else Some k
  end.

Definition get_key (now mono : Z) (m : manager) : result string :=
  check_and_reset_internal now m >>= fun _ m1 =>
  let m2 := cleanup_timestamps_internal mono m1 in
  match keys (data m2) with
  | [] => Raise (NoAvailableKeyError "No API keys configured.") m2
  | _ :: _ =>
      match first_available m2 (keys (data m2)) with
      | Some k => Ok k m2
      | None =>
          Raise (NoAvailableKeyError
                   "All API keys have reached their usage limits.") m2
      end
  end.

(** [self._key_timestamps[api_key].append(t)] on the [defaultdict]. *)
Definition append_timestamp (k : string) (t : Z) (ts : gmap string (list Z))
  : gmap string (list Z) :=
  <[k := (default [] (ts !! k) ++ [t])]> ts.

Definition record_usage (api_key : pyarg) (now mono : Z) (m : manager)
  : result unit :=
  match nonempty_str api_key with
  | None => Ok tt m
  | Some k =>
      check_and_reset_internal now m >>= fun _ m1 =>
      match dict_get k (keys (data m1)) with
      | None =>
          Raise (ApiKeyManagerError
                   ("Attempted to record usage for unknown key: " ++ k)%string) m1
      | Some kd =>
          let m2 := with_keys (dict_set k {| usage_today := Some (usage kd + 1) |}
                                 (keys (data m1))) m1 in
          let m3 :=
            match requests_per_minute (attrs m2) with
            | Some _ =>
                with_timestamps (append_timestamp k mono (key_timestamps m2)) m2
            | None => m2
            end in
          Ok tt (save_data_internal now m3)
      end
  end.

Definition get_usage_stats (now : Z) (m : manager) : result keys_dict :=
  check_and_reset_internal now m >>= fun _ m1 => Ok (keys (data m1)) m1.

(** ** Construction: [__init__] and [_load_or_initialize_data] *)

(** One round of the loop over [config_params]: the constructor argument
    when it is not [None], else the saved value when it is not [None],
    else [None]. *)
Definition merge_param (init_val saved_val : option Z) : option Z :=
  match init_val with
  | Some v => Some v
  | None =>
      match saved_val with
      | Some v => Some v
      | None => None
      end
  end.

Definition merge_config (init_args saved : config) : config :=
  {| daily_limit := merge_param (daily_limit init_args) (daily_limit saved);
     requests_per_minute :=
       merge_param (requests_per_minute init_args) (requests_per_minute saved);
     reset_hour_utc :=
       merge_param (reset_hour_utc init_args) (reset_hour_utc saved);
     reset_interval_days :=
       merge_param (reset_interval_days init_args) (reset_interval_days saved) |}.

(** [if 'usage_today' not in key_data: key_data['usage_today'] = 0]. *)
Definition ensure_usage (kd : key_data) : key_data :=
  match usage_today kd with
  | Some _ => kd
  | None => {| usage_today := Some 0 |}
  end.

Definition ensure_usage_all (d : keys_dict) : keys_dict :=
  map (fun e => (fst e, ensure_usage (snd e))) d.

(** The outcome of a constructor call: an instance, or an exception and
    the file as the failed call leaves it. *)
Inductive constructed :=
| Built (m : manager)
| Failed (e : exn) (file : option file_content).

(** The instance right after [__init__] has stored its arguments, once
    [self.data] is assigned. *)
Definition fresh (file : option file_content) (c : config) (d : pool_data)
  : manager :=
  {| attrs := c; key_timestamps := ∅; data := d; api_keys := [];
     disk := file; save_calls := 0 |}.

(** The two branches of [if os.path.exists(self.json_file)], up to the
    assignment of [self.data]. *)
Definition load_data (file : option file_content) (init_args : config)
    (now : Z) : exn + manager :=
  match file with
  | Some NotJson =>
      inl (ApiKeyManagerError "Error decoding JSON from {json_file}: {e}")
  | Some JsonNonObject =>
      inl (ApiKeyManagerError "Error loading data from {json_file}: {e}")
  | Some (JsonObject o) =>
      let loaded_keys := default [] (j_keys o) in
      let loaded_time := default (isoformat now) (j_last_reset_time o) in
      let merged := merge_config init_args (default no_config (j_config o)) in
      match fromisoformat loaded_time with
      | PAttributeError =>
          inl (ApiKeyManagerError "Error loading data from {json_file}: {e}")
      | PValueError =>
          inr (fresh file merged
                 {| keys := ensure_usage_all loaded_keys;
                    saved_config := merged;
                    last_reset_time := Some (isoformat now) |})
      | PTime _ =>
          inr (fresh file merged
                 {| keys := ensure_usage_all loaded_keys;
                    saved_config := merged;
                    last_reset_time := Some loaded_time |})
      end
  | None =>
      inr (save_data_internal now
             (fresh file init_args
                {| keys := []; saved_config := init_args;
                   last_reset_time := Some (isoformat now) |}))
  end.

Definition load_or_initialize_data (file : option file_content)
    (init_args : config) (now mono : Z) : constructed :=
  match load_data file init_args now with
  | inl e => Failed e file
  | inr m =>
      match check_and_reset_internal now m with
      | Raise e m1 => Failed e (disk m1)
      | Ok _ m1 => Built (cleanup_timestamps_internal mono m1)
      end
  end.

Definition hour_invalid (c : config) : bool :=
  match reset_hour_utc c with
  | Some h => negb (hour_in_range h)
  | None => false
  end.

Definition interval_invalid (c : config) : bool :=
  match reset_interval_days c with
  | Some n => n <=? 0
  | None => false
  end.

Definition init (file : option file_content) (init_args : config)
    (now mono : Z) : constructed :=
  match load_or_initialize_data file init_args now mono with
  | Failed e f => Failed e f
  | Built m =>
      if hour_invalid (attrs m) then
        Failed (ValueError "reset_hour_utc must be between 0 and 23.") (disk m)
      else if interval_invalid (attrs m) then
        Failed (ValueError "reset_interval_days must be a positive integer.")
               (disk m)
      else
        Built {| attrs := attrs m; key_timestamps := key_timestamps m;
                 data := data m; api_keys := dict_keys (keys (data m));
                 disk := disk m; save_calls := save_calls m |}
  end.

(** ** Reading the reset time: [get_last_reset_time] *)

(** The method reads [self.data] as it is, without reconciling: [None]
    for a missing or falsy entry and for a string the parser rejects, the
    parsed time with UTC assumed when it is naive otherwise.  A truthy
    value without [.replace] raises [AttributeError], which the method
    does not catch. *)
Definition get_last_reset_time (m : manager) : exn + option datetime :=
  match last_reset_time (data m) with
  | None => inr None
  | Some v =>
      if truthy v then
        match fromisoformat v with
        | PTime d => inr (Some (assume_utc d))
        | PValueError => inr None
        | PAttributeError => inl AttributeError
        end
      else inr None
  end.

(** ** The context manager: [__enter__] and [__exit__] *)

(** The instance with its [_active_key] attribute, which only the two
    context-manager methods read and write. *)
Record session := { instance : manager; active_key : option string }.

Inductive outcome (A : Type) :=
| Returned (a : A) (s : session)
| Raised (e : exn) (s : session).
Arguments Returned {A} a s.
Arguments Raised {A} e s.

(** [self._active_key = self.get_key()]: the assignment does not happen
    when [get_key] raises. *)
Definition __enter__ (now mono : Z) (s : session) : outcome string :=
  match get_key now mono (instance s) with
  | Ok k m => Returned k {| instance := m; active_key := Some k |}
  | Raise e m => Raised e {| instance := m; active_key := active_key s |}
  end.

(** [except ApiKeyManagerError] also catches its subclass
    [NoAvailableKeyError]. *)
Definition is_ApiKeyManagerError (e : exn) : bool :=
  match e with
  | ApiKeyManagerError _ | NoAvailableKeyError _ => true
  | ValueError _ | AttributeError => false
  end.

(** [__exit__] clears [_active_key], records the usage when the key is
    truthy, logs an [ApiKeyManagerError] of the recording and lets any
    other exception through; it returns [False]. *)
Definition __exit__ (now mono : Z) (s : session) : outcome bool :=
  match active_key s with
  | Some k =>
      if String.eqb k "" then
        Returned false {| instance := instance s; active_key := None |}
      else
        match record_usage (PyStr k) now mono (instance s) with
        | Ok _ m => Returned false {| instance := m; active_key := None |}
        | Raise e m =>
            if is_ApiKeyManagerError e
            then Returned false {| instance := m; active_key := None |}
            else Raised e {| instance := m; active_key := None |}
        end
  | None => Returned false {| instance := instance s; active_key := None |}
  end.

(** [with manager as key: body], for a body that works on the instance
    through its methods and does not enter the same manager again.  The
    statement calls [__exit__] when the body has run, returned or raised;
    an exception of the body is raised again unless [__exit__] returns a
    true value, and an exception of [__exit__] replaces it. *)
Definition with_block {A} (enter_now enter_mono exit_now exit_mono : Z)
    (body : string -> manager -> result A) (s : session)
  : outcome (option A) :=
  match __enter__ enter_now enter_mono s with
  | Raised e s1 => Raised e s1
  | Returned k s1 =>
      match body k (instance s1) with
      | Ok a m2 =>
          match __exit__ exit_now exit_mono
                  {| instance := m2; active_key := active_key s1 |} with
          | Returned _ s3 => Returned (Some a) s3
          | Raised e s3 => Raised e s3
          end
      | Raise e m2 =>
          match __exit__ exit_now exit_mono
                  {| instance := m2; active_key := active_key s1 |} with
          | Returned suppress s3 =>
              if suppress then Returned None s3 else Raised e s3
          | Raised e' s3 => Raised e' s3
          end
      end
  end.

(** * The vocabulary of the statements *)

(** What reconciliation can do to an instance: nothing, a repair of the
    stored time, or a reset. *)
Inductive reconciled (now : Z) (m : manager) : manager -> Prop :=
| rec_same : reconciled now m m
| rec_repaired : reconciled now m (with_last_reset_time (isoformat now) m)
| rec_reset :
    reconciled now m (do_reset now m)
| rec_repaired_reset :
    reconciled now m (do_reset now (with_last_reset_time (isoformat now) m)).

(** Eligibility as the specification words it: the daily limit is absent or
    the usage is below it, and the rate limit is absent or the window count
    is below it. *)
Definition eligible (m : manager) (k : string) (kd : key_data) : Prop :=
  match daily_limit (attrs m) with
  | None => True
  | Some limit => usage kd < limit
  end /\
  match requests_per_minute (attrs m) with
  | None => True
  | Some rpm => count_in_window m k < rpm
  end.

Definition ineligible (m : manager) (e : string * key_data) : Prop :=
  ~ eligible m (fst e) (snd e).

(** No tracked window is empty and none holds a reading older than sixty
    seconds before [mono]. *)
Definition stale_free (mono : Z) (m : manager) : Prop :=
  forall k w, key_timestamps m !! k = Some w ->
    w <> [] /\ Forall (fun ts => mono - sixty_seconds <= ts) w.

(** The interval test of the specification: the interval is set and [now]
    is at least that many days after the last reset. *)
Definition interval_elapsed (m : manager) (last : datetime) (now : Z) : Prop :=
  exists n, reset_interval_days (attrs m) = Some n /\
            instant (assume_utc last) + n * us_per_day <= now.

(** The next reset instant in the specification's words: the hour on the
    date of the last reset when that lies strictly after it, the same hour
    one day later otherwise. *)
Definition next_reset_instant (h : Z) (last : datetime) : Z :=
  let same_day := date last * us_per_day + h * us_per_hour in
  if instant last <? same_day then same_day else same_day + us_per_day.

(** The entry is present and [fromisoformat] reads it. *)
Definition time_ok (m : manager) : Prop :=
  exists d, last_reset_time (data m) = Some (JIso d).

(** A stored time that the load accepts: missing, or a string. *)
Definition loadable (t : option json_time) : Prop :=
  t <> Some JFalsy /\ t <> Some JOther.

(** The effective value of one field in the specification's words. *)
Definition effective (caller persisted : option Z) : option Z :=
  match caller with
  | Some v => Some v
  | None => persisted
  end.

Definition effective_config (caller persisted : config) : config :=
  {| daily_limit := effective (daily_limit caller) (daily_limit persisted);
     requests_per_minute :=
       effective (requests_per_minute caller) (requests_per_minute persisted);
     reset_hour_utc := effective (reset_hour_utc caller) (reset_hour_utc persisted);
     reset_interval_days :=
       effective (reset_interval_days caller) (reset_interval_days persisted) |}.

(** The schedule as the constructor validates it. *)
Definition schedule_valid (c : config) : Prop :=
  hour_invalid c = false /\ interval_invalid c = false.

(** The instances a program can hold: built by the constructor, then
    driven through the public methods, whether they return or raise. *)
Inductive reachable : manager -> Prop :=
| reach_init file init_args now mono m :
    init file init_args now mono = Built m -> reachable m
| reach_add_key a now m :
    reachable m -> reachable (final (add_key a now m))
| reach_remove_key k now m :
    reachable m -> reachable (final (remove_key k now m))
| reach_get_key now mono m :
    reachable m -> reachable (final (get_key now mono m))
| reach_record_usage a now mono m :
    reachable m -> reachable (final (record_usage a now mono m))
| reach_get_usage_stats now m :
    reachable m -> reachable (final (get_usage_stats now m)).

(** Nothing is due and nothing needs repair: reconciliation at [now]
    returns the instance as it is. *)
Definition quiet (now : Z) (m : manager) : Prop :=
  check_and_reset_internal now m = Ok tt m.

(** The keys of the dict are pairwise different, as in any Python dict. *)
Definition unique_keys (m : manager) : Prop :=
  List.NoDup (dict_keys (keys (data m))).

(** The usage of a key, when it is in the pool. *)
Definition usage_of (m : manager) (k : string) : option Z :=
  option_map usage (dict_get k (keys (data m))).

(** The file holds exactly the data of the instance. *)
Definition mirrored (m : manager) : Prop :=
  disk m = Some (JsonObject {| j_keys := Some (keys (data m));
                               j_config := Some (attrs m);
                               j_last_reset_time := last_reset_time (data m) |}) /\
  saved_config (data m) = attrs m.

(** [record_usage(k)] called once at each of the given pairs of a wall
    clock and a monotonic reading, in order. *)
Fixpoint record_all (k : string) (times : list (Z * Z)) (m : manager)
  : manager :=
  match times with
  | [] => m
  | (now, mono) :: rest =>
      record_all k rest (final (record_usage (PyStr k) now mono m))
  end.

(** The outcome of the block when [__exit__] returns: the value of the
    body, or its exception again. *)
Definition body_outcome {A} (r : result A) (s : session) : outcome (option A) :=
  match r with
  | Ok a _ => Returned (Some a) s
  | Raise e _ => Raised e s
  end.

(** A reset happened between [m] and [m1] at [now], in the words of the
    specification: the keys are the same in the same order, every counter
    is zero, the stored time is [now], limits and rate windows are
    untouched, and the data has been saved once more, the file holding the
    zeroed records. *)
Definition reset_happened (now : Z) (m m1 : manager) : Prop :=
  dict_keys (keys (data m1)) = dict_keys (keys (data m)) /\
  Forall (fun e => usage (snd e) = 0) (keys (data m1)) /\
  last_reset_time (data m1) = Some (isoformat now) /\
  attrs m1 = attrs m /\
  key_timestamps m1 = key_timestamps m /\
  save_calls m1 = S (save_calls m) /\
  disk m1 = Some (JsonObject {| j_keys := Some (keys (data m1));
                                j_config := Some (attrs m);
                                j_last_reset_time := Some (isoformat now) |}).

(** The readings of a key that are not older than sixty seconds before
    [mono], counted on the tracker as a call finds it. *)
Definition fresh_count (mono : Z) (m : manager) (k : string) : Z :=
  Z.of_nat (length (List.filter (fun ts => mono - sixty_seconds <=? ts)
                      (default [] (key_timestamps m !! k)))).

(** Eligibility when the rate test counts fresh readings only. *)
Definition eligible_on_fresh (mono : Z) (m : manager) (k : string)
    (kd : key_data) : Prop :=
  match daily_limit (attrs m) with
  | None => True
  | Some limit => usage kd < limit
  end /\
  match requests_per_minute (attrs m) with
  | None => True
  | Some rpm => fresh_count mono m k < rpm
  end.

(** ** Sample instances *)

Module Sample.

Definition hour : Z := us_per_hour.
Definition second : Z := 1000000000.

Definition limits : config :=
  {| daily_limit := Some 2; requests_per_minute := Some 5;
     reset_hour_utc := Some 3; reset_interval_days := None |}.

(** Two keys, the first at its daily limit, last reset at midnight of day
    zero, one reading taken at monotonic time zero for the first key. *)
Definition pool : manager :=
  {| attrs := limits;
     key_timestamps := {[ "a" := [0] ]};
     data := {| keys := [("a", {| usage_today := Some 2 |});
                         ("b", {| usage_today := Some 0 |})];
                saved_config := limits;
                last_reset_time := Some (isoformat 0) |};
     api_keys := ["a"; "b"];
     disk := None;
     save_calls := 0 |}.

End Sample.

(** Further instances the theorems are run on. *)

Module Run.

Import Sample.

(** The sample pool with its last reset at 04:00 UTC of day zero. *)
Definition pool_at_four : manager :=
  with_last_reset_time (isoformat (4 * hour)) pool.

(** A pool reset every day, last reset at midnight of day zero. *)
Definition daily : config :=
  {| daily_limit := Some 2; requests_per_minute := None;
     reset_hour_utc := None; reset_interval_days := Some 1 |}.

Definition pool_daily : manager :=
  {| attrs := daily; key_timestamps := ∅;
     data := {| keys := [("a", {| usage_today := Some 2 |})];
                saved_config := daily;
                last_reset_time := Some (isoformat 0) |};
     api_keys := ["a"]; disk := None; save_calls := 0 |}.

(** A file whose config carries both limits, and a constructor call that
    overrides the rate limit only. *)
Definition stored : json_object :=
  {| j_keys := Some [("a", {| usage_today := Some 1 |})];
     j_config := Some {| daily_limit := Some 50; requests_per_minute := Some 5;
                         reset_hour_utc := Some 3; reset_interval_days := None |};
     j_last_reset_time := Some (isoformat 0) |}.

Definition override_rpm : config :=
  {| daily_limit := None; requests_per_minute := Some 20;
     reset_hour_utc := None; reset_interval_days := None |}.

(** State files whose ['last_reset_time'] is [null] and a number. *)
Definition null_time_file : json_object :=
  {| j_keys := Some []; j_config := None; j_last_reset_time := Some JFalsy |}.

Definition number_time_file : json_object :=
  {| j_keys := Some []; j_config := None; j_last_reset_time := Some JOther |}.

(** The sample pool with a number stored as its last reset time, and with
    the entry deleted. *)
Definition pool_number_time : manager :=
  with_data {| keys := keys (data pool); saved_config := limits;
               last_reset_time := Some JOther |} pool.

Definition pool_no_time : manager :=
  with_data {| keys := keys (data pool); saved_config := limits;
               last_reset_time := None |} pool.

(** One key, at most one request a minute, one reading at monotonic time
    zero. *)
Definition one_a_minute : config :=
  {| daily_limit := None; requests_per_minute := Some 1;
     reset_hour_utc := None; reset_interval_days := None |}.

Definition pool_rate : manager :=
  {| attrs := one_a_minute; key_timestamps := {[ "a" := [0] ]};
     data := {| keys := [("a", {| usage_today := Some 1 |})];
                saved_config := one_a_minute;
                last_reset_time := Some (isoformat 0) |};
     api_keys := ["a"]; disk := None; save_calls := 0 |}.

(** The instance the constructor builds on no file, with one key added and
    used once. *)
Definition started : manager :=
  match init None limits 0 0 with
  | Built m => m
  | Failed _ _ => pool
  end.

Definition used_once : manager :=
  final (record_usage (PyStr "k") hour second
           (final (add_key (PyStr "k") hour started))).

End Run.

(** * Properties *)

(** ** The dict operations *)

Section Dict.

Implicit Types (k : string) (d : keys_dict) (v : key_data).

Lemma dict_keys_reset_keys d : dict_keys (reset_keys d) = dict_keys d.
Proof.
  unfold dict_keys, reset_keys. rewrite map_map. simpl. reflexivity.
Qed.

Lemma dict_get_reset_keys k d :
  dict_get k (reset_keys d) = option_map zero_usage (dict_get k d).
Proof.
  induction d as [|[k' v'] r IH]; simpl; [reflexivity|].
  destruct (String.eqb k k'); [reflexivity | exact IH].
Qed.

Lemma dict_mem_reset_keys k d : dict_mem k (reset_keys d) = dict_mem k d.
Proof.
  unfold dict_mem. rewrite dict_get_reset_keys.
  destruct (dict_get k d); reflexivity.
Qed.

Lemma usage_zero_usage v : usage (zero_usage v) = 0.
Proof.
  unfold zero_usage. destruct (usage v =? 0) eqn:E; [|reflexivity].
  apply Z.eqb_eq in E. exact E.
Qed.

Lemma dict_get_set_same k v d : dict_get k (dict_set k v d) = Some v.
Proof.
  induction d as [|[k' v'] r IH]; simpl.
  - rewrite String.eqb_refl. reflexivity.
  - destruct (String.eqb k k') eqn:E; simpl; rewrite E; [reflexivity | exact IH].
Qed.

Lemma dict_get_set_other k k' v d :
  k' <> k -> dict_get k' (dict_set k v d) = dict_get k' d.
Proof.
  intros Hne. induction d as [|[k0 v0] r IH]; simpl.
  - destruct (String.eqb k' k) eqn:E; [|reflexivity].
    apply String.eqb_eq in E. contradiction.
  - destruct (String.eqb k k0) eqn:E; simpl.
    + apply String.eqb_eq in E. subst k0.
      destruct (String.eqb k' k) eqn:E'; [|reflexivity].
      apply String.eqb_eq in E'. contradiction.
    + destruct (String.eqb k' k0); [reflexivity | exact IH].
Qed.

Lemma dict_keys_set_present k v d :
  dict_mem k d = true -> dict_keys (dict_set k v d) = dict_keys d.
Proof.
  unfold dict_mem, dict_keys.
  induction d as [|[k' v'] r IH]; simpl; [discriminate|].
  destruct (String.eqb k k') eqn:E; simpl; [reflexivity|].
  intros H. rewrite IH; [reflexivity | exact H].
Qed.

Lemma dict_keys_set_absent k v d :
  dict_mem k d = false -> dict_keys (dict_set k v d) = (dict_keys d ++ [k]).
Proof.
  unfold dict_mem, dict_keys.
  induction d as [|[k' v'] r IH]; simpl; [reflexivity|].
  destruct (String.eqb k k') eqn:E; simpl; [discriminate|].
  intros H. rewrite IH; [reflexivity | exact H].
Qed.

Lemma dict_get_ensure_usage_all k d :
  dict_get k (ensure_usage_all d) = option_map ensure_usage (dict_get k d).
Proof.
  induction d as [|[k' v'] r IH]; simpl; [reflexivity|].
  destruct (String.eqb k k'); [reflexivity | exact IH].
Qed.

Lemma dict_keys_ensure_usage_all d :
  dict_keys (ensure_usage_all d) = dict_keys d.
Proof.
  unfold dict_keys, ensure_usage_all. rewrite map_map. reflexivity.
Qed.

Lemma usage_ensure_usage v : usage (ensure_usage v) = usage v.
Proof. destruct v as [[n|]]; reflexivity. Qed.

End Dict.

(** ** Frame facts of persistence and reconciliation *)

Section Frames.

Implicit Types (m : manager) (now : Z).

Lemma save_keys now m :
  keys (data (save_data_internal now m)) = keys (data m).
Proof.
  unfold save_data_internal. simpl.
  destruct (last_reset_time (data m)) as [v|]; [|reflexivity].
  destruct (fromisoformat v); reflexivity.
Qed.

Lemma save_attrs now m : attrs (save_data_internal now m) = attrs m.
Proof.
  unfold save_data_internal. simpl.
  destruct (last_reset_time (data m)) as [v|]; [|reflexivity].
  destruct (fromisoformat v); reflexivity.
Qed.

Lemma save_timestamps now m :
  key_timestamps (save_data_internal now m) = key_timestamps m.
Proof.
  unfold save_data_internal. simpl.
  destruct (last_reset_time (data m)) as [v|]; [|reflexivity].
  destruct (fromisoformat v); reflexivity.
Qed.

Lemma save_api_keys now m : api_keys (save_data_internal now m) = api_keys m.
Proof.
  unfold save_data_internal. simpl.
  destruct (last_reset_time (data m)) as [v|]; [|reflexivity].
  destruct (fromisoformat v); reflexivity.
Qed.

Lemma save_counts now m :
  save_calls (save_data_internal now m) = S (save_calls m).
Proof.
  unfold save_data_internal. simpl.
  destruct (last_reset_time (data m)) as [v|]; [|reflexivity].
  destruct (fromisoformat v); reflexivity.
Qed.

Lemma check_and_reset_cases now m :
  reconciled now m (final (check_and_reset_internal now m)).
Proof.
  unfold check_and_reset_internal, repair_missing.
  destruct (last_reset_time (data m)) as [[| | | |d]|]; simpl;
    try constructor;
    match goal with
    | |- context [reset_decision ?c ?l ?n] =>
        destruct (reset_decision c l n) as [e|[r|]]
    end; simpl; constructor.
Qed.

Lemma reconciled_dict_keys now m m1 :
  reconciled now m m1 ->
  dict_keys (keys (data m1)) = dict_keys (keys (data m)).
Proof.
  intros []; unfold do_reset; rewrite ?save_keys; simpl;
    rewrite ?dict_keys_reset_keys; reflexivity.
Qed.

Lemma reconciled_attrs now m m1 : reconciled now m m1 -> attrs m1 = attrs m.
Proof.
  intros []; unfold do_reset; rewrite ?save_attrs; reflexivity.
Qed.

Lemma reconciled_timestamps now m m1 :
  reconciled now m m1 -> key_timestamps m1 = key_timestamps m.
Proof.
  intros []; unfold do_reset; rewrite ?save_timestamps; reflexivity.
Qed.

Lemma reconciled_api_keys now m m1 :
  reconciled now m m1 -> api_keys m1 = api_keys m.
Proof.
  intros []; unfold do_reset; rewrite ?save_api_keys; reflexivity.
Qed.

Lemma reconciled_dict_mem now m m1 k :
  reconciled now m m1 ->
  dict_mem k (keys (data m1)) = dict_mem k (keys (data m)).
Proof.
  intros []; unfold do_reset; rewrite ?save_keys; simpl;
    rewrite ?dict_mem_reset_keys; reflexivity.
Qed.

End Frames.

(** ** Selection *)

Section Selection.

Implicit Types (m : manager) (k : string) (kd : key_data).

Lemma eligible_tests m k kd :
  eligible m k kd <->
  daily_exhausted m kd = false /\ rate_exhausted m k = false.
Proof.
  unfold eligible, daily_exhausted, rate_exhausted.
  destruct (daily_limit (attrs m)) as [l|],
           (requests_per_minute (attrs m)) as [r|];
    rewrite ?Z.leb_gt; tauto.
Qed.

Lemma first_available_skips m pre rest :
  Forall (ineligible m) pre ->
  first_available m (pre ++ rest) = first_available m rest.
Proof.
  induction 1 as [|[k kd] pre Hk _ IH]; simpl; [reflexivity|].
  unfold ineligible in Hk. rewrite eligible_tests in Hk. simpl in Hk.
  destruct (daily_exhausted m kd); [exact IH|].
  destruct (rate_exhausted m k); [exact IH|].
  exfalso. apply Hk. split; reflexivity.
Qed.

Lemma first_available_hit m k kd rest :
  eligible m k kd -> first_available m ((k, kd) :: rest) = Some k.
Proof.
  intros [Hd Hr]%eligible_tests. simpl. rewrite Hd, Hr. reflexivity.
Qed.

Lemma first_available_none m d :
  Forall (ineligible m) d -> first_available m d = None.
Proof.
  intros H. rewrite <- (app_nil_r d).
  rewrite (first_available_skips m d [] H). reflexivity.
Qed.

(** C1.  Once reconciliation has returned and the stale window entries are
    evicted, [get_key] walks the keys in insertion order and returns the
    first eligible one; on an empty pool it raises [NoAvailableKeyError]
    with the "No API keys configured." message, and on a non-empty pool
    whose keys are all ineligible it raises the same exception type with
    the different "All API keys have reached their usage limits."
    message. *)
Theorem get_key_first_eligible m now mono m1 :
  check_and_reset_internal now m = Ok tt m1 ->
  let m2 := cleanup_timestamps_internal mono m1 in
  (keys (data m2) = [] ->
   get_key now mono m =
     Raise (NoAvailableKeyError "No API keys configured.") m2) /\
  (forall pre k kd post,
     keys (data m2) = (pre ++ (k, kd) :: post) ->
     Forall (ineligible m2) pre ->
     eligible m2 k kd ->
     get_key now mono m = Ok k m2) /\
  (keys (data m2) <> [] ->
   Forall (ineligible m2) (keys (data m2)) ->
   get_key now mono m =
     Raise (NoAvailableKeyError
              "All API keys have reached their usage limits.") m2) /\
  "No API keys configured." <>
    "All API keys have reached their usage limits.".
Proof.
  intros Hrec m2. unfold get_key. rewrite Hrec. simpl. fold m2.
  repeat split.
  - intros ->. reflexivity.
  - intros pre k kd post Hks Hpre Hk. rewrite Hks.
    rewrite (first_available_skips m2 pre _ Hpre).
    rewrite (first_available_hit m2 k kd post Hk).
    destruct pre; reflexivity.
  - intros Hne Hall. rewrite (first_available_none m2 _ Hall).
    destruct (keys (data m2)); [contradiction | reflexivity].
  - discriminate.
Qed.

End Selection.

(** ** The reset schedule *)

Section Schedule.

Implicit Types (m : manager) (c : config) (now : Z) (last : datetime).

Lemma check_and_reset_iso m now last :
  last_reset_time (data m) = Some (JIso last) ->
  check_and_reset_internal now m =
    match reset_decision (attrs m) (assume_utc last) now with
    | inl e => Raise e m
    | inr None => Ok tt m
    | inr (Some _) => Ok tt (do_reset now m)
    end.
Proof.
  intros H. unfold check_and_reset_internal, repair_missing.
  rewrite H. reflexivity.
Qed.

Lemma instant_utc t : instant (utc t) = t.
Proof. unfold instant, utc. simpl. lia. Qed.

Lemma instant_timedelta_days last n :
  instant (timedelta_days last n) = instant last + n * us_per_day.
Proof. unfold instant, timedelta_days. simpl. lia. Qed.

Lemma instant_combine day h :
  instant (combine day h) = day * us_per_day + h * us_per_hour.
Proof. unfold combine. apply instant_utc. Qed.

Lemma date_assume_utc last : date (assume_utc last) = date last.
Proof. unfold date, assume_utc. destruct (utcoffset last); reflexivity. Qed.

(** The first test fires: the second one is not evaluated at all. *)
Lemma reset_decision_interval c last now n :
  reset_interval_days c = Some n ->
  instant last + n * us_per_day <= now ->
  reset_decision c last now = inr (Some (IntervalDays n)).
Proof.
  intros Hn Hdue. unfold reset_decision, interval_reason, dt_le.
  rewrite Hn, instant_timedelta_days, instant_utc.
  destruct (Z.leb_spec (instant last + n * us_per_day) now); [reflexivity | lia].
Qed.

Lemma interval_reason_not_due c last now :
  (forall n, reset_interval_days c = Some n ->
             now < instant last + n * us_per_day) ->
  interval_reason c last now = None.
Proof.
  intros Hnot. unfold interval_reason, dt_le.
  destruct (reset_interval_days c) as [n|]; [|reflexivity].
  rewrite instant_timedelta_days, instant_utc.
  specialize (Hnot n eq_refl).
  destruct (Z.leb_spec (instant last + n * us_per_day) now); [lia | reflexivity].
Qed.

Lemma instant_next_reset h last :
  instant (next_reset h last) = next_reset_instant h last.
Proof.
  unfold next_reset, next_reset_instant, dt_le. rewrite instant_combine.
  destruct (Z.leb_spec (date last * us_per_day + h * us_per_hour) (instant last)),
           (Z.ltb_spec (instant last) (date last * us_per_day + h * us_per_hour));
    try lia.
  - rewrite instant_timedelta_days, instant_combine. lia.
  - apply instant_combine.
Qed.

Lemma reset_decision_hour c last now h :
  interval_reason c last now = None ->
  reset_hour_utc c = Some h ->
  0 <= h <= 23 ->
  reset_decision c last now =
    inr (if next_reset_instant h last <=? now then Some (DailyHour h) else None).
Proof.
  intros Hi Hh Hrange. unfold reset_decision, hour_reason, hour_in_range, dt_le.
  rewrite Hi, Hh, instant_next_reset, instant_utc.
  destruct (Z.leb_spec 0 h), (Z.leb_spec h 23); try lia. simpl.
  destruct (next_reset_instant h last <=? now); reflexivity.
Qed.

Lemma reset_decision_unset c last now :
  interval_reason c last now = None ->
  reset_hour_utc c = None ->
  reset_decision c last now = inr None.
Proof.
  intros Hi Hh. unfold reset_decision, hour_reason. rewrite Hi, Hh. reflexivity.
Qed.

Lemma date_of_day_plus day off :
  0 <= off < us_per_day -> (day * us_per_day + off) / us_per_day = day.
Proof.
  intros H. rewrite Z.add_comm, Z.div_add by (unfold us_per_day, us_per_hour; lia).
  rewrite Z.div_small by exact H. lia.
Qed.

End Schedule.

Lemma reset_keys_all_zero d :
  Forall (fun e => usage (snd e) = 0) (reset_keys d).
Proof.
  induction d as [|[k kd] r IH]; simpl; constructor; [|exact IH].
  simpl. unfold zero_usage. destruct (usage kd =? 0) eqn:E; [|reflexivity].
  apply Z.eqb_eq. exact E.
Qed.

Lemma do_reset_reset_happened now m : reset_happened now m (do_reset now m).
Proof.
  unfold reset_happened, do_reset, save_data_internal. simpl.
  split; [apply dict_keys_reset_keys|].
  split; [apply reset_keys_all_zero|].
  repeat split.
Qed.

(** C2.  With a readable last reset time, reconciliation tests the interval
    first and resets when it has elapsed, whatever the hour setting.  Only
    when the interval test fails and a reset hour is set does it compute
    the next reset instant (that UTC hour on the date of the last reset, or
    one day later when that instant is not strictly after the last reset)
    and reset exactly when [now] has reached it.  With neither test
    satisfied nothing changes, and one call saves at most once.  With reset
    hour 3 and a last reset at 04:00 UTC the day before, 02:00 UTC triggers
    nothing and 03:01 UTC triggers the reset.  The reset itself is what
    the specification says: the instance [do_reset now m] has the same
    keys with every counter at zero, [now] as its stored time and one more
    save, the file holding the zeroed records; it is never the instance
    the call started from, so the outcomes above tell a reset from no
    reset. *)
Theorem reset_interval_then_hour :
  (forall m now last,
     last_reset_time (data m) = Some (JIso last) ->
     (interval_elapsed m last now ->
      check_and_reset_internal now m = Ok tt (do_reset now m)) /\
     (~ interval_elapsed m last now ->
      forall h, reset_hour_utc (attrs m) = Some h -> 0 <= h <= 23 ->
        check_and_reset_internal now m =
          Ok tt (if next_reset_instant h (assume_utc last) <=? now
                 then do_reset now m else m)) /\
     (~ interval_elapsed m last now ->
      reset_hour_utc (attrs m) = None ->
      check_and_reset_internal now m = Ok tt m) /\
     (save_calls (final (check_and_reset_internal now m))
      <= S (save_calls m))%nat) /\
  (forall m day,
     last_reset_time (data m) =
       Some (JIso (utc ((day - 1) * us_per_day + 4 * us_per_hour))) ->
     reset_hour_utc (attrs m) = Some 3 ->
     reset_interval_days (attrs m) = None ->
     check_and_reset_internal (day * us_per_day + 2 * us_per_hour) m = Ok tt m /\
     check_and_reset_internal (day * us_per_day + 3 * us_per_hour + 60000000) m =
       Ok tt (do_reset (day * us_per_day + 3 * us_per_hour + 60000000) m)) /\
  (forall m now,
     reset_happened now m (do_reset now m) /\
     ~ reset_happened now m m /\
     do_reset now m <> m).
Proof.
  assert (Hnot : forall m now last,
             ~ interval_elapsed m last now ->
             interval_reason (attrs m) (assume_utc last) now = None).
  { intros m now last Hn. apply interval_reason_not_due. intros n Hs.
    destruct (Z.lt_ge_cases now (instant (assume_utc last) + n * us_per_day))
      as [Hlt|Hge]; [exact Hlt|].
    exfalso. apply Hn. exists n. split; [exact Hs | exact Hge]. }
  split; [|split].
  - intros m now last Hlast. rewrite (check_and_reset_iso m now last Hlast).
    repeat split.
    + intros [n [Hn Hdue]].
      rewrite (reset_decision_interval _ _ _ n Hn Hdue). reflexivity.
    + intros Hn h Hh Hrange.
      rewrite (reset_decision_hour _ _ _ h (Hnot m now last Hn) Hh Hrange).
      destruct (next_reset_instant h (assume_utc last) <=? now); reflexivity.
    + intros Hn Hh.
      rewrite (reset_decision_unset _ _ _ (Hnot m now last Hn) Hh). reflexivity.
    + destruct (reset_decision (attrs m) (assume_utc last) now) as [e|[r|]];
        unfold final, do_reset; rewrite ?save_counts; simpl; lia.
  - intros m day Hlast Hh Hi.
    assert (Hnone : forall now,
               interval_reason (attrs m)
                 (assume_utc (utc ((day - 1) * us_per_day + 4 * us_per_hour)))
                 now = None).
    { intros now. unfold interval_reason. rewrite Hi. reflexivity. }
    assert (Hnext :
              next_reset_instant 3
                (assume_utc (utc ((day - 1) * us_per_day + 4 * us_per_hour)))
              = day * us_per_day + 3 * us_per_hour).
    { unfold next_reset_instant, date. simpl.
      rewrite date_of_day_plus by (unfold us_per_day, us_per_hour; lia).
      unfold instant. simpl.
      destruct (Z.ltb_spec ((day - 1) * us_per_day + 4 * us_per_hour - 0)
                  ((day - 1) * us_per_day + 3 * us_per_hour));
        unfold us_per_day, us_per_hour in *; lia. }
    rewrite !(check_and_reset_iso m _ _ Hlast).
    rewrite !(reset_decision_hour _ _ _ 3 (Hnone _) Hh) by lia.
    rewrite Hnext. split.
    + destruct (Z.leb_spec (day * us_per_day + 3 * us_per_hour)
                  (day * us_per_day + 2 * us_per_hour));
        [unfold us_per_hour in *; lia | reflexivity].
    + destruct (Z.leb_spec (day * us_per_day + 3 * us_per_hour)
                  (day * us_per_day + 3 * us_per_hour + 60000000));
        [reflexivity | lia].
  - intros m now. split; [|split].
    + exact (do_reset_reset_happened now m).
    + intros (_ & _ & _ & _ & _ & Hs & _). lia.
    + intros H. apply (f_equal save_calls) in H.
      unfold do_reset in H. rewrite save_counts in H. simpl in H. lia.
Qed.

(** ** The stored reset time *)

Section StoredTime.

Implicit Types (m : manager) (now : Z).

Lemma time_ok_with_isoformat now m :
  time_ok (with_last_reset_time (isoformat now) m).
Proof. exists (utc now). reflexivity. Qed.

Lemma save_iso now m d :
  last_reset_time (data m) = Some (JIso d) ->
  save_data_internal now m = write_file (sync_config (count_save m)) (JIso d).
Proof. intros H. unfold save_data_internal. simpl. rewrite H. reflexivity. Qed.

Lemma save_time_ok now m : time_ok m -> time_ok (save_data_internal now m).
Proof.
  intros [d Hd]. rewrite (save_iso now m d Hd). exists d. simpl. exact Hd.
Qed.

Lemma do_reset_time now m :
  last_reset_time (data (do_reset now m)) = Some (isoformat now).
Proof. unfold do_reset. rewrite (save_iso now _ (utc now)); reflexivity. Qed.

(** A reconciliation that returns leaves a readable time behind, whatever
    it found. *)
Lemma check_ok_time now m m1 :
  check_and_reset_internal now m = Ok tt m1 -> time_ok m1.
Proof.
  unfold check_and_reset_internal, repair_missing.
  destruct (last_reset_time (data m)) as [[| | | |d]|] eqn:Hl; simpl;
    try discriminate;
    try (intros [= <-]; apply time_ok_with_isoformat);
    match goal with
    | |- context [reset_decision ?c ?l ?n] =>
        destruct (reset_decision c l n) as [e|[r|]]
    end; try discriminate; intros [= <-];
    try apply time_ok_with_isoformat;
    try (eexists; apply do_reset_time).
  exists d. exact Hl.
Qed.

(** The clock reading handed to a save is not looked at when the stored
    time is readable, as it is after every reconciliation that returns. *)
Lemma save_clock_unused now now' m :
  time_ok m -> save_data_internal now m = save_data_internal now' m.
Proof.
  intros [d Hd]. rewrite (save_iso now m d Hd), (save_iso now' m d Hd).
  reflexivity.
Qed.

Lemma check_ok_reconciled now m m1 :
  check_and_reset_internal now m = Ok tt m1 -> reconciled now m m1.
Proof.
  intros H. pose proof (check_and_reset_cases now m) as Hc.
  rewrite H in Hc. exact Hc.
Qed.

End StoredTime.

(** ** Recording usage *)

Section Recording.

Implicit Types (m : manager) (k : string) (now mono : Z).

Lemma nonempty_str_some a k :
  nonempty_str a = Some k <-> a = PyStr k /\ k <> "".
Proof.
  destruct a as [s|b]; simpl.
  - destruct (String.eqb_spec s ""); split.
    + discriminate.
    + intros [[= ->] Hne]. contradiction.
    + intros [= ->]. split; [reflexivity | assumption].
    + intros [[= ->] _]. reflexivity.
  - split; [discriminate | intros [[=] _]].
Qed.

Lemma nonempty_str_PyStr k : k <> "" -> nonempty_str (PyStr k) = Some k.
Proof. intros Hk. apply nonempty_str_some. split; [reflexivity | exact Hk]. Qed.

(** C3.  [record_usage] returns at once, leaving the instance as it was,
    for an empty string and for any non-string argument.  After a
    reconciliation that returns, it raises the unknown-key
    [ApiKeyManagerError] exactly when the argument is a non-empty string
    that is not a key of the pool; for a key of the pool it returns, the
    usage of that key is one more than after reconciliation while every
    other record is untouched, the monotonic reading is appended to the
    window of that key exactly when [requests_per_minute] is set, and the
    data is saved once more. *)
Theorem record_usage_contract m now mono :
  record_usage (PyStr "") now mono m = Ok tt m /\
  (forall b, record_usage (PyOther b) now mono m = Ok tt m) /\
  forall m1, check_and_reset_internal now m = Ok tt m1 ->
    (forall k, k <> "" -> dict_mem k (keys (data m)) = false ->
       record_usage (PyStr k) now mono m =
         Raise (ApiKeyManagerError
                  ("Attempted to record usage for unknown key: " ++ k)%string)
               m1) /\
    (forall a, raised (record_usage a now mono m) <> None ->
       exists k, a = PyStr k /\ k <> "" /\
                 dict_mem k (keys (data m)) = false) /\
    (forall k kd, k <> "" -> dict_get k (keys (data m1)) = Some kd ->
       exists m2,
         record_usage (PyStr k) now mono m = Ok tt m2 /\
         dict_get k (keys (data m2)) =
           Some {| usage_today := Some (usage kd + 1) |} /\
         (forall k', k' <> k ->
            dict_get k' (keys (data m2)) = dict_get k' (keys (data m1))) /\
         dict_keys (keys (data m2)) = dict_keys (keys (data m1)) /\
         key_timestamps m2 =
           match requests_per_minute (attrs m) with
           | Some _ =>
               <[k := default [] (key_timestamps m !! k) ++ [mono]]>
                 (key_timestamps m)
           | None => key_timestamps m
           end /\
         save_calls m2 = S (save_calls m1) /\
         disk m2 =
           Some (JsonObject {| j_keys := Some (keys (data m2));
                               j_config := Some (attrs m);
                               j_last_reset_time := last_reset_time (data m1) |})).
Proof.
  split; [reflexivity|]. split; [reflexivity|].
  intros m1 Hrec.
  pose proof (check_ok_reconciled now m m1 Hrec) as Hr.
  pose proof (check_ok_time now m m1 Hrec) as [d Hd].
  repeat split.
  - intros k Hk Hmem. unfold record_usage.
    rewrite (nonempty_str_PyStr k Hk).
    rewrite Hrec. simpl.
    rewrite <- (reconciled_dict_mem now m m1 k Hr) in Hmem.
    unfold dict_mem in Hmem.
    destruct (dict_get k (keys (data m1))); [discriminate | reflexivity].
  - intros a Hraised. unfold record_usage in Hraised.
    destruct (nonempty_str a) as [k|] eqn:Ha; [|simpl in Hraised; congruence].
    apply nonempty_str_some in Ha as [-> Hk].
    exists k. split; [reflexivity|]. split; [exact Hk|].
    rewrite Hrec in Hraised. simpl in Hraised.
    rewrite <- (reconciled_dict_mem now m m1 k Hr). unfold dict_mem.
    destruct (dict_get k (keys (data m1))); [|reflexivity].
    simpl in Hraised. congruence.
  - intros k kd Hk Hget. unfold record_usage.
    rewrite (nonempty_str_PyStr k Hk).
    rewrite Hrec. simpl. rewrite Hget.
    eexists. split; [reflexivity|].
    rewrite save_keys, save_timestamps, save_counts.
    rewrite <- (reconciled_attrs now m m1 Hr).
    rewrite <- (reconciled_timestamps now m m1 Hr).
    assert (Hmem : dict_mem k (keys (data m1)) = true)
      by (unfold dict_mem; rewrite Hget; reflexivity).
    destruct (requests_per_minute (attrs m1)) as [r|]; simpl;
      (repeat split;
       [ apply dict_get_set_same
       | intros k' Hne; apply dict_get_set_other; exact Hne
       | apply dict_keys_set_present; exact Hmem
       | erewrite save_iso by (simpl; exact Hd); simpl; rewrite Hd; reflexivity ]).
Qed.

End Recording.

(** ** Construction and the resolved configuration *)

Section Construction.

Implicit Types (m : manager) (c : config) (now mono : Z).

Lemma cleanup_attrs mono m : attrs (cleanup_timestamps_internal mono m) = attrs m.
Proof. unfold cleanup_timestamps_internal. destruct (rpm_falsy (attrs m)); reflexivity. Qed.

Lemma cleanup_data mono m : data (cleanup_timestamps_internal mono m) = data m.
Proof. unfold cleanup_timestamps_internal. destruct (rpm_falsy (attrs m)); reflexivity. Qed.

Lemma cleanup_disk mono m : disk (cleanup_timestamps_internal mono m) = disk m.
Proof. unfold cleanup_timestamps_internal. destruct (rpm_falsy (attrs m)); reflexivity. Qed.

Lemma cleanup_api_keys mono m :
  api_keys (cleanup_timestamps_internal mono m) = api_keys m.
Proof. unfold cleanup_timestamps_internal. destruct (rpm_falsy (attrs m)); reflexivity. Qed.

Lemma save_saved_config now m :
  saved_config (data (save_data_internal now m)) = attrs m.
Proof.
  unfold save_data_internal. simpl.
  destruct (last_reset_time (data m)) as [v|]; [|reflexivity].
  destruct (fromisoformat v); reflexivity.
Qed.

(** Reconciliation keeps the config entry of the data in step with the
    attributes when it was so before. *)
Lemma reconciled_saved_config now m m1 :
  reconciled now m m1 ->
  saved_config (data m) = attrs m -> saved_config (data m1) = attrs m1.
Proof.
  intros [] H; unfold do_reset; rewrite ?save_saved_config, ?save_attrs;
    simpl; try exact H; reflexivity.
Qed.

Lemma hour_reason_returns c last now :
  hour_invalid c = false -> exists r, hour_reason c last now = inr r.
Proof.
  unfold hour_invalid, hour_reason. destruct (reset_hour_utc c) as [h|].
  - intros Hh. apply negb_false_iff in Hh. rewrite Hh.
    destruct (dt_le (next_reset h last) (utc now)); eexists; reflexivity.
  - intros _. eexists; reflexivity.
Qed.

Lemma reset_decision_returns c last now :
  hour_invalid c = false -> exists r, reset_decision c last now = inr r.
Proof.
  intros Hh. unfold reset_decision.
  destruct (interval_reason c last now); [eexists; reflexivity|].
  apply hour_reason_returns. exact Hh.
Qed.

(** Reconciliation returns unless the stored time is a truthy non-string
    or the hour is out of range. *)
Lemma check_returns now m :
  last_reset_time (data m) <> Some JOther ->
  hour_invalid (attrs m) = false ->
  exists m1, check_and_reset_internal now m = Ok tt m1.
Proof.
  intros Ht Hh. unfold check_and_reset_internal, repair_missing.
  destruct (last_reset_time (data m)) as [[| | | |d]|]; simpl;
    try congruence; try (eexists; reflexivity);
    match goal with
    | |- context [reset_decision ?c ?l ?n] =>
        destruct (reset_decision_returns c l n Hh) as [[r|] ->]
    end; eexists; reflexivity.
Qed.

Lemma merge_param_effective a b : merge_param a b = effective a b.
Proof. destruct a, b; reflexivity. Qed.

Lemma merge_config_effective a b : merge_config a b = effective_config a b.
Proof.
  unfold merge_config, effective_config. rewrite !merge_param_effective.
  reflexivity.
Qed.

Lemma load_data_object o init_args now :
  loadable (j_last_reset_time o) ->
  exists m,
    load_data (Some (JsonObject o)) init_args now = inr m /\
    attrs m = merge_config init_args (default no_config (j_config o)) /\
    saved_config (data m) = attrs m /\
    keys (data m) = ensure_usage_all (default [] (j_keys o)) /\
    last_reset_time (data m) =
      Some (match j_last_reset_time o with
            | Some (JIso d) => JIso d
            | _ => isoformat now
            end) /\
    save_calls m = 0%nat /\ key_timestamps m = ∅.
Proof.
  intros [H1 H2]. unfold load_data.
  destruct (j_last_reset_time o) as [[| | | |d]|]; simpl; try congruence;
    eexists; (split; [reflexivity|]); simpl; repeat split; reflexivity.
Qed.

(** A stored time that is not a string has no [.replace]: the
    [AttributeError] is not the [ValueError] the load repairs, and the
    constructor fails. *)
Lemma load_data_non_string o init_args now :
  j_last_reset_time o = Some JFalsy \/ j_last_reset_time o = Some JOther ->
  load_data (Some (JsonObject o)) init_args now =
    inl (ApiKeyManagerError "Error loading data from {json_file}: {e}").
Proof. unfold load_data. intros [-> | ->]; reflexivity. Qed.

Lemma load_data_attrs o init_args now m :
  load_data (Some (JsonObject o)) init_args now = inr m ->
  attrs m = merge_config init_args (default no_config (j_config o)) /\
  saved_config (data m) = attrs m.
Proof.
  unfold load_data.
  destruct (fromisoformat (default (isoformat now) (j_last_reset_time o)));
    try discriminate; intros [= <-]; split; reflexivity.
Qed.

Lemma init_built file init_args now mono m :
  init file init_args now mono = Built m ->
  exists m0 m1,
    load_data file init_args now = inr m0 /\
    check_and_reset_internal now m0 = Ok tt m1 /\
    hour_invalid (attrs m1) = false /\
    interval_invalid (attrs m1) = false /\
    attrs m = attrs m1 /\ data m = data m1 /\ disk m = disk m1 /\
    save_calls m = save_calls m1 /\
    key_timestamps m = key_timestamps (cleanup_timestamps_internal mono m1) /\
    api_keys m = dict_keys (keys (data m1)).
Proof.
  unfold init, load_or_initialize_data.
  destruct (load_data file init_args now) as [e|m0]; [discriminate|].
  destruct (check_and_reset_internal now m0) as [[] m1|e m1] eqn:Hc;
    [|discriminate].
  rewrite cleanup_attrs.
  destruct (hour_invalid (attrs m1)) eqn:Hh; [discriminate|].
  destruct (interval_invalid (attrs m1)) eqn:Hi; [discriminate|].
  intros [= <-]. exists m0, m1. simpl.
  rewrite cleanup_data, cleanup_disk.
  unfold cleanup_timestamps_internal.
  destruct (rpm_falsy (attrs m1)); repeat split; try reflexivity; assumption.
Qed.

End Construction.

(** C4.  Constructing from an existing JSON object resolves each of the
    four fields on its own: the constructor argument when it is given,
    whatever was persisted; otherwise the persisted value when there is
    one; otherwise nothing.  The resolved config is also what the data
    holds.  Construction does return an instance when the stored time is
    loadable and the resolved schedule is valid.  In particular an explicit
    [requests_per_minute] wins over the persisted one, and a persisted
    [daily_limit] without an argument is kept.  Without a file nothing is
    persisted and the fields are the arguments. *)
Theorem config_resolution o init_args now mono :
  let persisted := default no_config (j_config o) in
  let c := effective_config init_args persisted in
  (forall m, init (Some (JsonObject o)) init_args now mono = Built m ->
     attrs m = c /\ saved_config (data m) = c) /\
  (loadable (j_last_reset_time o) ->
   hour_invalid c = false -> interval_invalid c = false ->
   exists m, init (Some (JsonObject o)) init_args now mono = Built m) /\
  (forall r p, requests_per_minute init_args = Some r ->
     requests_per_minute persisted = Some p -> r <> p ->
     requests_per_minute c = Some r) /\
  (daily_limit init_args = None -> daily_limit c = daily_limit persisted) /\
  (forall m, init None init_args now mono = Built m -> attrs m = init_args).
Proof.
  intros persisted c. repeat split.
  - apply init_built in H as (m0 & m1 & Hl & Hc & _ & _ & Ha & _).
    apply load_data_attrs in Hl as [Hl _].
    rewrite Ha, (reconciled_attrs now m0 m1 (check_ok_reconciled _ _ _ Hc)), Hl.
    apply merge_config_effective.
  - apply init_built in H as (m0 & m1 & Hl & Hc & _ & _ & Ha & Hd & _).
    apply load_data_attrs in Hl as [Hl Hs].
    pose proof (check_ok_reconciled _ _ _ Hc) as Hr.
    rewrite Hd, (reconciled_saved_config now m0 m1 Hr Hs).
    rewrite (reconciled_attrs now m0 m1 Hr), Hl.
    apply merge_config_effective.
  - intros Hload Hh Hi.
    destruct (load_data_object o init_args now Hload)
      as (m0 & Hl & Ha & _ & _ & Ht & _).
    rewrite merge_config_effective in Ha. fold persisted c in Ha.
    destruct (check_returns now m0) as [m1 Hc].
    { rewrite Ht. destruct (j_last_reset_time o) as [[]|]; discriminate. }
    { rewrite Ha. exact Hh. }
    unfold init, load_or_initialize_data. rewrite Hl, Hc, cleanup_attrs.
    rewrite (reconciled_attrs now m0 m1 (check_ok_reconciled _ _ _ Hc)), Ha.
    rewrite Hh, Hi. eexists. reflexivity.
  - intros r p Hr _ _. unfold c. simpl. rewrite Hr. reflexivity.
  - intros Hd. unfold c. simpl. rewrite Hd. reflexivity.
  - intros m (m0 & m1 & Hl & Hc & _ & _ & Ha & _)%init_built.
    injection Hl as <-.
    rewrite Ha, (reconciled_attrs now _ m1 (check_ok_reconciled _ _ _ Hc)).
    apply save_attrs.
Qed.

(** ** Eviction of stale window entries *)

Section Eviction.

Implicit Types (m : manager) (k : string) (now mono : Z).

Lemma evict_some cutoff w v :
  evict cutoff w = Some v ->
  v = List.filter (fun ts => cutoff <=? ts) w /\ v <> [] /\
  Forall (fun ts => cutoff <= ts) v.
Proof.
  unfold evict.
  destruct (List.filter (fun ts => cutoff <=? ts) w) as [|t r] eqn:Hf;
    [discriminate|].
  intros [= <-]. split; [reflexivity|]. split; [discriminate|].
  apply Stdlib.Lists.List.Forall_forall. intros x Hx.
  rewrite <- Hf in Hx. apply filter_In in Hx as [_ Hx].
  apply Z.leb_le. exact Hx.
Qed.

Lemma cleanup_lookup mono m k :
  rpm_falsy (attrs m) = false ->
  key_timestamps (cleanup_timestamps_internal mono m) !! k =
    match key_timestamps m !! k with
    | Some w => evict (mono - sixty_seconds) w
    | None => None
    end.
Proof.
  intros H. unfold cleanup_timestamps_internal. rewrite H. simpl.
  rewrite lookup_omap. destruct (key_timestamps m !! k); reflexivity.
Qed.

Lemma cleanup_stale_free mono m :
  rpm_falsy (attrs m) = false ->
  stale_free mono (cleanup_timestamps_internal mono m).
Proof.
  intros H k w. rewrite (cleanup_lookup mono m k H).
  destruct (key_timestamps m !! k) as [w0|]; [|discriminate].
  intros (_ & Hne & Hall)%evict_some. split; assumption.
Qed.

Lemma get_key_final now mono m m1 :
  check_and_reset_internal now m = Ok tt m1 ->
  final (get_key now mono m) = cleanup_timestamps_internal mono m1.
Proof.
  intros H. unfold get_key. rewrite H. simpl.
  destruct (keys (data (cleanup_timestamps_internal mono m1))); [reflexivity|].
  destruct (first_available _ _); reflexivity.
Qed.

End Eviction.

(** C5, as stated, fails: [record_usage] and [add_key] reconcile but do
    not evict.  Called one hundred seconds after the only reading in the
    window of ["a"], [record_usage] keeps that reading, which eviction at
    that instant would have dropped together with the entry, and after
    [add_key] the tracker still holds the stale reading. *)
Lemma record_usage_keeps_stale_reading :
  requests_per_minute (attrs Sample.pool) = Some 5 /\
  evict (100 * Sample.second - sixty_seconds) [0] = None /\
  key_timestamps
    (final (record_usage (PyStr "a") Sample.hour (100 * Sample.second)
              Sample.pool)) !! "a"
  = Some [0; 100 * Sample.second] /\
  ~ stale_free (100 * Sample.second)
      (final (add_key (PyStr "c") Sample.hour Sample.pool)).
Proof.
  repeat split. intros H.
  destruct (H "a" [0] eq_refl) as [_ Hall].
  inversion Hall as [|t r Ht _]. vm_compute in Ht. apply Ht. reflexivity.
Qed.

Lemma count_after_cleanup mono m k :
  rpm_falsy (attrs m) = false ->
  count_in_window (cleanup_timestamps_internal mono m) k = fresh_count mono m k.
Proof.
  intros H. unfold count_in_window, fresh_count.
  rewrite (cleanup_lookup mono m k H).
  destruct (key_timestamps m !! k) as [w|]; simpl; [|reflexivity].
  unfold evict.
  destruct (List.filter (fun ts => mono - sixty_seconds <=? ts) w);
    reflexivity.
Qed.

(** The tests of the scan, run on the evicted tracker, are the tests on
    the fresh readings of the tracker the call found. *)
Lemma eligible_after_cleanup mono m k kd :
  eligible (cleanup_timestamps_internal mono m) k kd <->
  eligible_on_fresh mono m k kd.
Proof.
  unfold eligible, eligible_on_fresh. rewrite cleanup_attrs.
  destruct (requests_per_minute (attrs m)) as [r|] eqn:Hr; [|tauto].
  destruct (Z.eqb_spec r 0) as [->|Hne].
  - assert (H0 : 0 <= count_in_window (cleanup_timestamps_internal mono m) k)
      by (unfold count_in_window; lia).
    assert (H1 : 0 <= fresh_count mono m k) by (unfold fresh_count; lia).
    split; intros [_ H]; lia.
  - rewrite count_after_cleanup; [tauto|].
    unfold rpm_falsy. rewrite Hr. apply Z.eqb_neq. exact Hne.
Qed.

Lemma eligible_on_fresh_transfer mono m m1 k kd :
  attrs m1 = attrs m -> key_timestamps m1 = key_timestamps m ->
  eligible_on_fresh mono m1 k kd <-> eligible_on_fresh mono m k kd.
Proof.
  intros Ha Ht. unfold eligible_on_fresh, fresh_count. rewrite Ha, Ht. tauto.
Qed.

(** C5, amended.  After a reconciliation that returns, [get_key] evicts
    when [requests_per_minute] is set to a non-zero value: each tracked
    window keeps exactly its readings not older than sixty seconds before
    the monotonic reading of the call, and an entry whose window comes out
    empty is gone.  Eviction comes before the scan: the key returned is
    the first one within its daily limit whose fresh readings, counted on
    the tracker the call found, are fewer than [requests_per_minute], so
    a window full of stale readings does not hold a key back.  With
    [requests_per_minute] absent eviction changes nothing.  The other
    reconciling methods do not evict: [add_key] and [get_usage_stats]
    leave the tracker as it is, [remove_key] deletes the entry of the key
    when it is in the pool and changes nothing otherwise, and
    [record_usage] appends its reading to the window of the key when the
    key is in the pool and [requests_per_minute] is set, and changes
    nothing otherwise; stale readings stay where they are. *)
Theorem get_key_evicts_stale_readings m now mono m1 :
  check_and_reset_internal now m = Ok tt m1 ->
  (forall r, requests_per_minute (attrs m) = Some r -> r <> 0 ->
     (forall k,
        key_timestamps (final (get_key now mono m)) !! k =
          match key_timestamps m !! k with
          | Some w =>
              match List.filter (fun ts => mono - sixty_seconds <=? ts) w with
              | [] => None
              | kept => Some kept
              end
          | None => None
          end) /\
     stale_free mono (final (get_key now mono m))) /\
  (requests_per_minute (attrs m) = None ->
   cleanup_timestamps_internal mono m = m /\
   key_timestamps (final (get_key now mono m)) = key_timestamps m) /\
  (forall pre k kd post,
     keys (data m1) = pre ++ (k, kd) :: post ->
     Forall (fun e => ~ eligible_on_fresh mono m (fst e) (snd e)) pre ->
     eligible_on_fresh mono m k kd ->
     get_key now mono m = Ok k (cleanup_timestamps_internal mono m1)) /\
  (keys (data m1) <> [] ->
   Forall (fun e => ~ eligible_on_fresh mono m (fst e) (snd e)) (keys (data m1)) ->
   get_key now mono m =
     Raise (NoAvailableKeyError
              "All API keys have reached their usage limits.")
           (cleanup_timestamps_internal mono m1)) /\
  (forall a, key_timestamps (final (add_key a now m)) = key_timestamps m) /\
  key_timestamps (final (get_usage_stats now m)) = key_timestamps m /\
  (forall k,
     key_timestamps (final (remove_key k now m)) =
       if dict_mem k (keys (data m))
       then delete k (key_timestamps m) else key_timestamps m) /\
  (forall a,
     key_timestamps (final (record_usage a now mono m)) =
       match nonempty_str a with
       | Some k =>
           if dict_mem k (keys (data m)) then
             match requests_per_minute (attrs m) with
             | Some _ =>
                 <[k := default [] (key_timestamps m !! k) ++ [mono]]>
                   (key_timestamps m)
             | None => key_timestamps m
             end
           else key_timestamps m
       | None => key_timestamps m
       end).
Proof.
  intros Hrec.
  pose proof (check_ok_reconciled now m m1 Hrec) as Hr.
  pose proof (reconciled_timestamps now m m1 Hr) as Hts.
  pose proof (reconciled_attrs now m m1 Hr) as Hat.
  assert (Hel : forall k kd,
             eligible (cleanup_timestamps_internal mono m1) k kd <->
             eligible_on_fresh mono m k kd).
  { intros k kd. rewrite eligible_after_cleanup.
    apply eligible_on_fresh_transfer; assumption. }
  assert (Hall : forall l,
             Forall (fun e => ~ eligible_on_fresh mono m (fst e) (snd e)) l ->
             Forall (ineligible (cleanup_timestamps_internal mono m1)) l).
  { intros l H. eapply Stdlib.Lists.List.Forall_impl; [|exact H].
    intros e He. unfold ineligible. rewrite Hel. exact He. }
  assert (Hscan : get_key now mono m =
                  match keys (data m1) with
                  | [] => Raise (NoAvailableKeyError "No API keys configured.")
                            (cleanup_timestamps_internal mono m1)
                  | _ :: _ =>
                      match first_available (cleanup_timestamps_internal mono m1)
                              (keys (data m1)) with
                      | Some k => Ok k (cleanup_timestamps_internal mono m1)
                      | None =>
                          Raise (NoAvailableKeyError
                                   "All API keys have reached their usage limits.")
                                (cleanup_timestamps_internal mono m1)
                      end
                  end).
  { unfold get_key. rewrite Hrec. unfold bind. rewrite cleanup_data.
    reflexivity. }
  split; [|split; [|split; [|split; [|split; [|split; [|split]]]]]].
  - intros r H Hne.
    assert (Hrpm : rpm_falsy (attrs m1) = false)
      by (unfold rpm_falsy; rewrite Hat, H; apply Z.eqb_neq; exact Hne).
    rewrite (get_key_final now mono m m1 Hrec). split.
    + intros k. rewrite (cleanup_lookup mono m1 k Hrpm), Hts. reflexivity.
    + apply cleanup_stale_free. exact Hrpm.
  - intros H. split.
    + unfold cleanup_timestamps_internal, rpm_falsy. rewrite H. reflexivity.
    + rewrite (get_key_final now mono m m1 Hrec).
      unfold cleanup_timestamps_internal, rpm_falsy. rewrite Hat, H. exact Hts.
  - intros pre k kd post Hk Hpre Hhit. rewrite Hscan, Hk.
    rewrite (first_available_skips _ pre _ (Hall pre Hpre)).
    rewrite (first_available_hit _ k kd post (proj2 (Hel k kd) Hhit)).
    destruct pre; reflexivity.
  - intros Hne Hnone. rewrite Hscan.
    rewrite (first_available_none _ _ (Hall _ Hnone)).
    destruct (keys (data m1)); [contradiction | reflexivity].
  - intros a. unfold add_key. destruct (nonempty_str a) as [k|]; [|reflexivity].
    rewrite Hrec. simpl. destruct (dict_mem k (keys (data m1))); simpl;
      rewrite ?save_timestamps; exact Hts.
  - unfold get_usage_stats. rewrite Hrec. exact Hts.
  - intros k. unfold remove_key. rewrite Hrec. unfold bind.
    rewrite (reconciled_dict_mem now m m1 k Hr).
    destruct (dict_mem k (keys (data m))); simpl.
    + rewrite save_timestamps. simpl. rewrite Hts. reflexivity.
    + exact Hts.
  - intros a. unfold record_usage.
    destruct (nonempty_str a) as [k|]; [|reflexivity].
    rewrite Hrec. unfold bind.
    rewrite <- (reconciled_dict_mem now m m1 k Hr). unfold dict_mem.
    destruct (dict_get k (keys (data m1))); simpl; [|exact Hts].
    rewrite save_timestamps, <- Hat.
    destruct (requests_per_minute (attrs m1)); simpl; [|exact Hts].
    unfold append_timestamp. rewrite Hts. reflexivity.
Qed.

(** ** The stored reset time stays readable *)

Section TimeInvariant.

Implicit Types (m : manager) (now mono : Z).

Lemma reconciled_time_ok now m m1 :
  reconciled now m m1 -> time_ok m -> time_ok m1.
Proof.
  intros [] H; try exact H; try apply time_ok_with_isoformat;
    eexists; apply do_reset_time.
Qed.

Lemma with_keys_time_ok ks m : time_ok m -> time_ok (with_keys ks m).
Proof. intros [d H]. exists d. exact H. Qed.

Lemma with_timestamps_time_ok ts m : time_ok m -> time_ok (with_timestamps ts m).
Proof. intros [d H]. exists d. exact H. Qed.

Lemma cleanup_time_ok mono m :
  time_ok m -> time_ok (cleanup_timestamps_internal mono m).
Proof. intros [d H]. exists d. rewrite cleanup_data. exact H. Qed.

(** Every method ends, returning or raising, in an instance whose stored
    time is readable when it was so at the start. *)
Ltac after_check now m :=
  let Hc := fresh "Hc" in
  pose proof (check_and_reset_cases now m) as Hc;
  destruct (check_and_reset_internal now m) as [[] ?m1|? ?m1]; simpl in *;
  [|eapply reconciled_time_ok; eassumption].

Lemma add_key_time_ok a now m : time_ok m -> time_ok (final (add_key a now m)).
Proof.
  intros H. unfold add_key. destruct (nonempty_str a) as [k|]; [|exact H].
  after_check now m.
  pose proof (reconciled_time_ok _ _ _ Hc H) as H1.
  destruct (dict_mem k (keys (data m1))); simpl; [exact H1|].
  apply save_time_ok, with_keys_time_ok, H1.
Qed.

Lemma remove_key_time_ok k now m :
  time_ok m -> time_ok (final (remove_key k now m)).
Proof.
  intros H. unfold remove_key. after_check now m.
  pose proof (reconciled_time_ok _ _ _ Hc H) as H1.
  destruct (dict_mem k (keys (data m1))); simpl; [|exact H1].
  apply save_time_ok, with_timestamps_time_ok, with_keys_time_ok, H1.
Qed.

Lemma get_key_time_ok now mono m :
  time_ok m -> time_ok (final (get_key now mono m)).
Proof.
  intros H. unfold get_key. after_check now m.
  pose proof (cleanup_time_ok mono _ (reconciled_time_ok _ _ _ Hc H)) as H1.
  destruct (keys (data (cleanup_timestamps_internal mono m1))); [exact H1|].
  destruct (first_available _ _); exact H1.
Qed.

Lemma record_usage_time_ok a now mono m :
  time_ok m -> time_ok (final (record_usage a now mono m)).
Proof.
  intros H. unfold record_usage. destruct (nonempty_str a) as [k|]; [|exact H].
  after_check now m.
  pose proof (reconciled_time_ok _ _ _ Hc H) as H1.
  destruct (dict_get k (keys (data m1))); simpl; [|exact H1].
  apply save_time_ok.
  destruct (requests_per_minute _);
    [apply with_timestamps_time_ok|]; apply with_keys_time_ok, H1.
Qed.

Lemma get_usage_stats_time_ok now m :
  time_ok m -> time_ok (final (get_usage_stats now m)).
Proof.
  intros H. unfold get_usage_stats. after_check now m.
  exact (reconciled_time_ok _ _ _ Hc H).
Qed.

Lemma init_time_ok file init_args now mono m :
  init file init_args now mono = Built m -> time_ok m.
Proof.
  intros (m0 & m1 & _ & Hc & _ & _ & _ & Hd & _)%init_built.
  destruct (check_ok_time now m0 m1 Hc) as [d H].
  exists d. rewrite Hd. exact H.
Qed.

(** The datetime the scheduler works with is timezone-aware. *)
Lemma assume_utc_aware d : utcoffset (assume_utc d) <> None.
Proof. unfold assume_utc. destruct (utcoffset d) eqn:E; simpl; congruence. Qed.

End TimeInvariant.

(** ** Idempotence of reconciliation *)

Section Idempotence.

Implicit Types (m : manager) (c : config) (now : Z).

Lemma next_reset_after h now :
  0 <= h -> now < next_reset_instant h (utc now).
Proof.
  intros Hh. unfold next_reset_instant, date. rewrite instant_utc. simpl.
  assert (HD : 0 < us_per_day) by (unfold us_per_day, us_per_hour; lia).
  assert (HH : 0 < us_per_hour) by (unfold us_per_hour; lia).
  pose proof (Z.div_mod now us_per_day ltac:(lia)) as Hdm.
  pose proof (Z.mod_pos_bound now us_per_day HD) as Hm.
  destruct (Z.ltb_spec now (now / us_per_day * us_per_day + h * us_per_hour));
    nia.
Qed.

(** Right after a reset, or a repair, nothing is due: the interval is
    positive and the next occurrence of the hour lies ahead. *)
Lemma reset_decision_at_now c now :
  schedule_valid c -> reset_decision c (utc now) now = inr None.
Proof.
  intros [Hh Hi]. unfold reset_decision.
  assert (Hint : interval_reason c (utc now) now = None).
  { apply interval_reason_not_due. intros n Hn.
    unfold interval_invalid in Hi. rewrite Hn in Hi.
    apply Z.leb_gt in Hi. rewrite instant_utc.
    unfold us_per_day, us_per_hour. lia. }
  rewrite Hint. unfold hour_reason, hour_invalid in *.
  destruct (reset_hour_utc c) as [h|]; [|reflexivity].
  apply negb_false_iff in Hh. rewrite Hh.
  unfold hour_in_range in Hh. apply andb_true_iff in Hh as [H0 _].
  apply Z.leb_le in H0. unfold dt_le.
  rewrite instant_next_reset, instant_utc.
  pose proof (next_reset_after h now H0).
  destruct (Z.leb_spec (next_reset_instant h (utc now)) now); [lia|reflexivity].
Qed.

Lemma check_at_now now m :
  schedule_valid (attrs m) ->
  last_reset_time (data m) = Some (isoformat now) ->
  check_and_reset_internal now m = Ok tt m.
Proof.
  intros Hv Ht. rewrite (check_and_reset_iso m now (utc now) Ht).
  change (assume_utc (utc now)) with (utc now).
  rewrite (reset_decision_at_now _ now Hv). reflexivity.
Qed.

Lemma reset_keys_zero d k kd :
  dict_get k (reset_keys d) = Some kd -> usage kd = 0.
Proof.
  rewrite dict_get_reset_keys. destruct (dict_get k d); [|discriminate].
  intros [= <-]. apply usage_zero_usage.
Qed.

End Idempotence.

Lemma repair_missing_attrs now m : attrs (fst (repair_missing now m)) = attrs m.
Proof.
  unfold repair_missing.
  destruct (last_reset_time (data m)) as [v|]; [destruct (truthy v)|]; reflexivity.
Qed.

Lemma do_reset_attrs now m : attrs (do_reset now m) = attrs m.
Proof. unfold do_reset. rewrite save_attrs. reflexivity. Qed.

Lemma do_reset_keys now m : keys (data (do_reset now m)) = reset_keys (keys (data m)).
Proof. unfold do_reset. rewrite save_keys. reflexivity. Qed.

(** A second reconciliation at the same instant finds nothing to do,
    whatever the first one did. *)
Lemma check_twice now m m1 :
  schedule_valid (attrs m) ->
  check_and_reset_internal now m = Ok tt m1 ->
  check_and_reset_internal now m1 = Ok tt m1.
Proof.
  intros Hv. unfold check_and_reset_internal at 1.
  pose proof (repair_missing_attrs now m) as Ha.
  destruct (repair_missing now m) as [m0 v] eqn:Hrm. simpl in Ha.
  assert (Hm0 : forall d, v = JIso d ->
                  last_reset_time (data m0) = Some (JIso d)).
  { intros d ->. unfold repair_missing in Hrm.
    destruct (last_reset_time (data m)) as [v0|] eqn:Hl;
      [destruct (truthy v0)|]; injection Hrm as <- <-;
      try reflexivity; exact Hl. }
  destruct v as [| | | |d]; simpl; try discriminate.
  - intros [= <-]. apply check_at_now; [rewrite <- Ha in Hv; exact Hv | reflexivity].
  - intros [= <-]. apply check_at_now; [rewrite <- Ha in Hv; exact Hv | reflexivity].
  - destruct (reset_decision (attrs m0) (assume_utc d) now) as [e|[r|]] eqn:Hd;
      try discriminate; intros [= <-].
    + apply check_at_now; [|apply do_reset_time].
      rewrite do_reset_attrs, Ha. exact Hv.
    + rewrite (check_and_reset_iso m0 now d (Hm0 d eq_refl)), Hd. reflexivity.
Qed.

(** C7.  With a positive reset interval and a valid hour setting, when a
    reconciliation at [now] resets (every usage counter is then zero and
    the stored time is [now]), a second reconciliation at the same instant
    returns the instance untouched: no reset, no call of the save, the
    same file. *)
Theorem reset_then_reconcile_is_noop m now n :
  reset_interval_days (attrs m) = Some n -> 0 < n ->
  hour_invalid (attrs m) = false ->
  let m1 := do_reset now (fst (repair_missing now m)) in
  check_and_reset_internal now m = Ok tt m1 ->
  (forall k kd, dict_get k (keys (data m1)) = Some kd -> usage kd = 0) /\
  last_reset_time (data m1) = Some (isoformat now) /\
  check_and_reset_internal now m1 = Ok tt m1 /\
  save_calls (final (check_and_reset_internal now m1)) = save_calls m1 /\
  disk (final (check_and_reset_internal now m1)) = disk m1.
Proof.
  intros Hn Hpos Hh m1 Hc.
  assert (Hv : schedule_valid (attrs m)).
  { split; [exact Hh|]. unfold interval_invalid. rewrite Hn.
    apply Z.leb_gt. exact Hpos. }
  pose proof (check_twice now m m1 Hv Hc) as H2.
  split; [|split; [|split; [exact H2 | rewrite H2; split; reflexivity]]].
  - intros k kd. unfold m1. rewrite do_reset_keys. apply reset_keys_zero.
  - apply do_reset_time.
Qed.

Lemma check_missing_time now m m1 :
  last_reset_time (data m) = None ->
  check_and_reset_internal now m = Ok tt m1 ->
  last_reset_time (data m1) = Some (isoformat now).
Proof.
  intros Hn. unfold check_and_reset_internal, repair_missing. rewrite Hn; simpl.
  destruct (reset_decision _ _ _) as [e|[r|]]; try discriminate;
    intros [= <-]; [apply do_reset_time | reflexivity].
Qed.

(** What the code does keep of the stored reset time, for entries that
    are strings or missing.  A readable time is read as a
    timezone-aware instant: every method keeps it readable, returning or
    raising, and a constructed instance has it readable.  Loading repairs
    a missing entry or an unreadable string to the current time.  Saving
    repairs a present entry that cannot be read to the current time before
    it writes, so every file it writes holds a readable time; a missing
    entry makes the save write nothing, and the reconciliation that every
    saving method runs first sets a missing entry to the current time.
    Reconciliation that meets an unreadable string sets the entry to the
    current time and returns without a reset decision: the key records are
    as before and nothing is saved.  A missing, empty or null entry takes
    the other repair path, which sets it to the current time and then
    finds nothing due under a valid schedule, with the same outcome. *)
Theorem last_reset_time_stays_readable :
  (forall m now mono a k, time_ok m ->
     time_ok (final (add_key a now m)) /\
     time_ok (final (remove_key k now m)) /\
     time_ok (final (get_key now mono m)) /\
     time_ok (final (record_usage a now mono m)) /\
     time_ok (final (get_usage_stats now m))) /\
  (forall file init_args now mono m,
     init file init_args now mono = Built m -> time_ok m) /\
  (forall d, utcoffset (assume_utc d) <> None) /\
  (forall o init_args now,
     j_last_reset_time o = None \/ j_last_reset_time o = Some JEmpty \/
     j_last_reset_time o = Some JGarbage ->
     exists m, load_data (Some (JsonObject o)) init_args now = inr m /\
               last_reset_time (data m) = Some (isoformat now)) /\
  (forall m now v,
     last_reset_time (data m) = Some v -> (forall d, v <> JIso d) ->
     last_reset_time (data (save_data_internal now m)) = Some (isoformat now) /\
     exists o, disk (save_data_internal now m) = Some (JsonObject o) /\
               j_last_reset_time o = Some (isoformat now)) /\
  (forall m now,
     (last_reset_time (data m) = None /\
      disk (save_data_internal now m) = disk m) \/
     (time_ok (save_data_internal now m) /\
      exists o, disk (save_data_internal now m) = Some (JsonObject o) /\
                j_last_reset_time o =
                  last_reset_time (data (save_data_internal now m)))) /\
  (forall m now m1,
     check_and_reset_internal now m = Ok tt m1 ->
     time_ok m1 /\
     (last_reset_time (data m) = None ->
      last_reset_time (data m1) = Some (isoformat now))) /\
  (forall m now,
     last_reset_time (data m) = Some JGarbage ->
     check_and_reset_internal now m =
       Ok tt (with_last_reset_time (isoformat now) m) /\
     keys (data (with_last_reset_time (isoformat now) m)) = keys (data m) /\
     save_calls (with_last_reset_time (isoformat now) m) = save_calls m /\
     disk (with_last_reset_time (isoformat now) m) = disk m) /\
  (forall m now,
     schedule_valid (attrs m) ->
     last_reset_time (data m) = None \/
     last_reset_time (data m) = Some JEmpty \/
     last_reset_time (data m) = Some JFalsy ->
     check_and_reset_internal now m =
       Ok tt (with_last_reset_time (isoformat now) m)).
Proof.
  split; [|split; [|split; [|split; [|split; [|split; [|split; [|split]]]]]]].
  - intros m now mono a k H.
    split; [apply add_key_time_ok, H|].
    split; [apply remove_key_time_ok, H|].
    split; [apply get_key_time_ok, H|].
    split; [apply record_usage_time_ok, H | apply get_usage_stats_time_ok, H].
  - exact init_time_ok.
  - exact assume_utc_aware.
  - intros o init_args now H.
    destruct (load_data_object o init_args now) as (m & Hl & _ & _ & _ & Ht & _).
    { destruct H as [-> | [-> | ->]]; split; discriminate. }
    exists m. split; [exact Hl|]. rewrite Ht.
    destruct H as [-> | [-> | ->]]; reflexivity.
  - intros m now v Hv Hbad. unfold save_data_internal. simpl. rewrite Hv.
    destruct v as [| | | |d]; simpl;
      try (split; [reflexivity | eexists; split; reflexivity]).
    exfalso. exact (Hbad d eq_refl).
  - intros m now. unfold save_data_internal, time_ok. simpl.
    destruct (last_reset_time (data m)) as [v|] eqn:Hv.
    + right. destruct v as [| | | |d]; simpl;
        try (split; [exists (utc now); reflexivity
                    | eexists; split; reflexivity]).
      split; [exists d; exact Hv|].
      eexists. split; [reflexivity|]. simpl. rewrite Hv. reflexivity.
    + left. split; reflexivity.
  - intros m now m1 Hc. split.
    + exact (check_ok_time now m m1 Hc).
    + intros Hn. exact (check_missing_time now m m1 Hn Hc).
  - intros m now Hg. unfold check_and_reset_internal, repair_missing.
    rewrite Hg. simpl. repeat split.
  - intros m now Hv H. unfold check_and_reset_internal, repair_missing.
    destruct H as [-> | [-> | ->]]; simpl;
      change (assume_utc (utc now)) with (utc now);
      rewrite (reset_decision_at_now _ now Hv); reflexivity.
Qed.

(** C6.  The repair the claim describes is missing for a stored time that
    is not a string.  A state file with [null] or a number under
    ['last_reset_time'] is not repaired at load: [.replace] raises
    [AttributeError], the load catches [ValueError] only, and the
    constructor fails with [ApiKeyManagerError], the file left as it was.
    On an instance holding a number there, reconciliation raises
    [AttributeError] and repairs nothing, so [add_key], [get_key] and
    [record_usage] raise it too.  The save routine is the one place that
    catches [AttributeError]: it does repair both values to the current
    time before it writes.  And on an instance whose entry is missing the
    save routine repairs nothing and writes nothing. *)
Theorem non_string_reset_time_is_not_repaired :
  (forall init_args now mono,
     init (Some (JsonObject Run.null_time_file)) init_args now mono =
       Failed (ApiKeyManagerError "Error loading data from {json_file}: {e}")
              (Some (JsonObject Run.null_time_file)) /\
     init (Some (JsonObject Run.number_time_file)) init_args now mono =
       Failed (ApiKeyManagerError "Error loading data from {json_file}: {e}")
              (Some (JsonObject Run.number_time_file))) /\
  (forall now mono,
     check_and_reset_internal now Run.pool_number_time =
       Raise AttributeError Run.pool_number_time /\
     add_key (PyStr "c") now Run.pool_number_time =
       Raise AttributeError Run.pool_number_time /\
     get_key now mono Run.pool_number_time =
       Raise AttributeError Run.pool_number_time /\
     record_usage (PyStr "a") now mono Run.pool_number_time =
       Raise AttributeError Run.pool_number_time) /\
  (forall now,
     last_reset_time
       (data (save_data_internal now Run.pool_number_time)) =
       Some (isoformat now) /\
     last_reset_time
       (data (save_data_internal now
                (with_last_reset_time JFalsy Sample.pool))) =
       Some (isoformat now)) /\
  (forall now,
     last_reset_time (data (save_data_internal now Run.pool_no_time)) = None /\
     disk (save_data_internal now Run.pool_no_time) = disk Run.pool_no_time).
Proof.
  split; [|split; [|split]].
  - intros init_args now mono. split; reflexivity.
  - intros now mono. repeat split.
  - intros now. split; reflexivity.
  - intros now. split; reflexivity.
Qed.

(** ** Reachable instances *)

Section Reachable.

Implicit Types (m : manager) (now mono : Z).

Ltac frame_after_check now m lem :=
  let Hc := fresh "Hc" in
  pose proof (lem now m _ (check_and_reset_cases now m)) as Hc;
  destruct (check_and_reset_internal now m) as [[] ?m1|? ?m1]; simpl in *;
  [|exact Hc].

Lemma add_key_attrs a now m : attrs (final (add_key a now m)) = attrs m.
Proof.
  unfold add_key. destruct (nonempty_str a) as [k|]; [|reflexivity].
  frame_after_check now m reconciled_attrs.
  destruct (dict_mem k (keys (data m1))); simpl; rewrite ?save_attrs; exact Hc.
Qed.

Lemma remove_key_attrs k now m : attrs (final (remove_key k now m)) = attrs m.
Proof.
  unfold remove_key. frame_after_check now m reconciled_attrs.
  destruct (dict_mem k (keys (data m1))); simpl; rewrite ?save_attrs; exact Hc.
Qed.

Lemma get_key_attrs now mono m : attrs (final (get_key now mono m)) = attrs m.
Proof.
  unfold get_key. frame_after_check now m reconciled_attrs.
  rewrite <- Hc, <- (cleanup_attrs mono m1).
  destruct (keys (data (cleanup_timestamps_internal mono m1))); [reflexivity|].
  destruct (first_available _ _); reflexivity.
Qed.

Lemma record_usage_attrs a now mono m :
  attrs (final (record_usage a now mono m)) = attrs m.
Proof.
  unfold record_usage. destruct (nonempty_str a) as [k|]; [|reflexivity].
  frame_after_check now m reconciled_attrs.
  destruct (dict_get k (keys (data m1))); simpl; [|exact Hc].
  rewrite save_attrs. destruct (requests_per_minute (attrs m1)); exact Hc.
Qed.

Lemma get_usage_stats_attrs now m :
  attrs (final (get_usage_stats now m)) = attrs m.
Proof. unfold get_usage_stats. frame_after_check now m reconciled_attrs. exact Hc. Qed.

Lemma reachable_invariant m :
  reachable m -> time_ok m /\ schedule_valid (attrs m).
Proof.
  induction 1 as [file init_args now mono m Hi
                 | a now m _ [Ht Hv] | k now m _ [Ht Hv]
                 | now mono m _ [Ht Hv] | a now mono m _ [Ht Hv]
                 | now m _ [Ht Hv]].
  - split; [exact (init_time_ok _ _ _ _ _ Hi)|].
    apply init_built in Hi as (m0 & m1 & _ & _ & Hh & Hn & Ha & _).
    rewrite Ha. split; assumption.
  - split; [apply add_key_time_ok, Ht | rewrite add_key_attrs; exact Hv].
  - split; [apply remove_key_time_ok, Ht | rewrite remove_key_attrs; exact Hv].
  - split; [apply get_key_time_ok, Ht | rewrite get_key_attrs; exact Hv].
  - split; [apply record_usage_time_ok, Ht | rewrite record_usage_attrs; exact Hv].
  - split; [apply get_usage_stats_time_ok, Ht
           | rewrite get_usage_stats_attrs; exact Hv].
Qed.

(** On a reachable instance reconciliation always returns. *)
Lemma reachable_reconciles now m :
  reachable m -> exists m1, check_and_reset_internal now m = Ok tt m1.
Proof.
  intros [[d Hd] [Hh _]]%reachable_invariant.
  apply check_returns; [rewrite Hd; discriminate | exact Hh].
Qed.

End Reachable.

(** ** Round trip through the file *)

Lemma merge_config_no_args c : merge_config no_config c = c.
Proof.
  destruct c as [[a|] [b|] [h|] [n|]]; reflexivity.
Qed.

Lemma option_map_usage_ensure k d :
  option_map usage (dict_get k (ensure_usage_all d)) =
  option_map usage (dict_get k d).
Proof.
  rewrite dict_get_ensure_usage_all.
  destruct (dict_get k d) as [kd|]; simpl; [|reflexivity].
  rewrite usage_ensure_usage. reflexivity.
Qed.

(** C8.  Take any instance a program can reach, save it, and construct a
    new instance from the written file without constructor arguments.  If
    no reset is due at that moment, construction returns an instance with
    the same keys in the same order, the same usage for every key, and the
    same resolved config. *)
Theorem save_then_load_round_trip m now now2 mono2 :
  reachable m ->
  (forall d, last_reset_time (data m) = Some (JIso d) ->
     reset_decision (attrs m) (assume_utc d) now2 = inr None) ->
  exists m2,
    init (disk (save_data_internal now m)) no_config now2 mono2 = Built m2 /\
    attrs m2 = attrs m /\
    saved_config (data m2) = attrs m /\
    dict_keys (keys (data m2)) = dict_keys (keys (data m)) /\
    (forall k, option_map usage (dict_get k (keys (data m2))) =
               option_map usage (dict_get k (keys (data m)))).
Proof.
  intros [[d Hd] [Hh Hi]]%reachable_invariant Hquiet.
  specialize (Hquiet d Hd).
  rewrite (save_iso now m d Hd). simpl. unfold dump. simpl.
  set (o := {| j_keys := Some (keys (data m)); j_config := Some (attrs m);
               j_last_reset_time := Some (JIso d) |}).
  destruct (load_data_object o no_config now2)
    as (m0 & Hl & Ha & Hs & Hk & Ht & _).
  { split; discriminate. }
  simpl in Ha, Hk, Ht. rewrite merge_config_no_args in Ha.
  assert (Hc : check_and_reset_internal now2 m0 = Ok tt m0).
  { rewrite (check_and_reset_iso m0 now2 d Ht), Ha, Hquiet. reflexivity. }
  unfold init, load_or_initialize_data. rewrite Hl, Hc, cleanup_attrs, Ha, Hh, Hi.
  eexists. split; [reflexivity|]. simpl. rewrite cleanup_data.
  split; [reflexivity|]. split; [rewrite Hs; exact Ha|].
  rewrite Hk. split; [apply dict_keys_ensure_usage_all|].
  intros k. apply option_map_usage_ensure.
Qed.

(** ** The [api_keys] attribute *)

Section ApiKeys.

Implicit Types (m : manager) (now mono : Z).

Ltac api_after_check now m :=
  let Hc := fresh "Hc" in
  pose proof (reconciled_api_keys now m _ (check_and_reset_cases now m)) as Hc;
  destruct (check_and_reset_internal now m) as [[] ?m1|? ?m1]; simpl in *;
  [|exact Hc].

Lemma add_key_api_keys a now m : api_keys (final (add_key a now m)) = api_keys m.
Proof.
  unfold add_key. destruct (nonempty_str a) as [k|]; [|reflexivity].
  api_after_check now m.
  destruct (dict_mem k (keys (data m1))); simpl; rewrite ?save_api_keys; exact Hc.
Qed.

Lemma remove_key_api_keys k now m :
  api_keys (final (remove_key k now m)) = api_keys m.
Proof.
  unfold remove_key. api_after_check now m.
  destruct (dict_mem k (keys (data m1))); simpl; rewrite ?save_api_keys; exact Hc.
Qed.

Lemma get_key_api_keys now mono m :
  api_keys (final (get_key now mono m)) = api_keys m.
Proof.
  unfold get_key. api_after_check now m.
  rewrite <- Hc, <- (cleanup_api_keys mono m1).
  destruct (keys (data (cleanup_timestamps_internal mono m1))); [reflexivity|].
  destruct (first_available _ _); reflexivity.
Qed.

Lemma record_usage_api_keys a now mono m :
  api_keys (final (record_usage a now mono m)) = api_keys m.
Proof.
  unfold record_usage. destruct (nonempty_str a) as [k|]; [|reflexivity].
  api_after_check now m.
  destruct (dict_get k (keys (data m1))); simpl; [|exact Hc].
  rewrite save_api_keys. destruct (requests_per_minute (attrs m1)); exact Hc.
Qed.

Lemma get_usage_stats_api_keys now m :
  api_keys (final (get_usage_stats now m)) = api_keys m.
Proof. unfold get_usage_stats. api_after_check now m. exact Hc. Qed.

End ApiKeys.

(** C9.  [api_keys] is the list of the keys of the data as the constructor
    finds them, and no method writes it afterwards: [add_key] and
    [remove_key], like the other methods, leave it as it is whether they
    return or raise.  So it can disagree with the keys selection works on:
    after constructing on no file and adding ["k"], [api_keys] is still
    empty while [get_key] returns ["k"]. *)
Theorem api_keys_fixed_at_construction :
  (forall file init_args now mono m,
     init file init_args now mono = Built m ->
     api_keys m = dict_keys (keys (data m))) /\
  (forall m a k now mono,
     api_keys (final (add_key a now m)) = api_keys m /\
     api_keys (final (remove_key k now m)) = api_keys m /\
     api_keys (final (get_key now mono m)) = api_keys m /\
     api_keys (final (record_usage a now mono m)) = api_keys m /\
     api_keys (final (get_usage_stats now m)) = api_keys m) /\
  (exists m0 m1,
     init None no_config 0 0 = Built m0 /\
     add_key (PyStr "k") 0 m0 = Ok tt m1 /\
     api_keys m1 = [] /\
     dict_keys (keys (data m1)) = ["k"] /\
     get_key 0 0 m1 = Ok "k" m1).
Proof.
  split; [|split].
  - intros file init_args now mono m
      (m0 & m1 & _ & _ & _ & _ & _ & Hd & _ & _ & _ & Hk)%init_built.
    rewrite Hk, Hd. reflexivity.
  - intros m a k now mono.
    split; [apply add_key_api_keys|].
    split; [apply remove_key_api_keys|].
    split; [apply get_key_api_keys|].
    split; [apply record_usage_api_keys | apply get_usage_stats_api_keys].
  - do 2 eexists. repeat split.
Qed.

(** ** The error paths *)

Section ErrorPaths.

Implicit Types (m : manager) (k : string) (now mono : Z).

Lemma check_due now m d r :
  last_reset_time (data m) = Some (JIso d) ->
  reset_decision (attrs m) (assume_utc d) now = inr (Some r) ->
  check_and_reset_internal now m = Ok tt (do_reset now m).
Proof.
  intros Ht Hr. rewrite (check_and_reset_iso m now d Ht), Hr. reflexivity.
Qed.

Lemma do_reset_dict_mem now m k :
  dict_mem k (keys (data (do_reset now m))) = dict_mem k (keys (data m)).
Proof. rewrite do_reset_keys. apply dict_mem_reset_keys. Qed.

Lemma do_reset_disk now m :
  disk (do_reset now m) =
    Some (JsonObject {| j_keys := Some (reset_keys (keys (data m)));
                        j_config := Some (attrs m);
                        j_last_reset_time := Some (isoformat now) |}).
Proof. unfold do_reset. rewrite (save_iso now _ (utc now)); reflexivity. Qed.

Lemma raised_add_key a now m e :
  raised (add_key a now m) = Some e ->
  final (add_key a now m) = m \/
  final (add_key a now m) = final (check_and_reset_internal now m).
Proof.
  unfold add_key. destruct (nonempty_str a) as [k|]; [|left; reflexivity].
  destruct (check_and_reset_internal now m) as [[] m1|e1 m1]; simpl;
    [|right; reflexivity].
  destruct (dict_mem k (keys (data m1))); simpl;
    [right; reflexivity | discriminate].
Qed.

Lemma raised_remove_key k now m e :
  raised (remove_key k now m) = Some e ->
  final (remove_key k now m) = final (check_and_reset_internal now m).
Proof.
  unfold remove_key.
  destruct (check_and_reset_internal now m) as [[] m1|e1 m1]; simpl;
    [|reflexivity].
  destruct (dict_mem k (keys (data m1))); simpl; [discriminate | reflexivity].
Qed.

Lemma raised_record_usage a now mono m e :
  raised (record_usage a now mono m) = Some e ->
  final (record_usage a now mono m) = final (check_and_reset_internal now m).
Proof.
  unfold record_usage. destruct (nonempty_str a) as [k|]; [|discriminate].
  destruct (check_and_reset_internal now m) as [[] m1|e1 m1]; simpl;
    [|reflexivity].
  destruct (dict_get k (keys (data m1))); simpl; [discriminate | reflexivity].
Qed.

End ErrorPaths.

(** C10.  When [add_key], [remove_key] or [record_usage] raises, the
    instance holds the same keys in the same order as before the call, and
    is exactly what reconciliation left.  Reconciliation runs before the
    check that raises: when a reset is due, the duplicate [add_key], the
    [remove_key] of an absent key and the [record_usage] of an unknown
    non-empty key still raise their [ApiKeyManagerError], yet every usage
    counter has been set to zero, the stored time is [now], the save ran
    once and the file holds the zeroed counters. *)
Theorem errors_raised_after_reconciliation m now mono :
  (forall a e, raised (add_key a now m) = Some e ->
     dict_keys (keys (data (final (add_key a now m)))) =
       dict_keys (keys (data m))) /\
  (forall k e, raised (remove_key k now m) = Some e ->
     final (remove_key k now m) = final (check_and_reset_internal now m) /\
     dict_keys (keys (data (final (remove_key k now m)))) =
       dict_keys (keys (data m))) /\
  (forall a e, raised (record_usage a now mono m) = Some e ->
     final (record_usage a now mono m) =
       final (check_and_reset_internal now m) /\
     dict_keys (keys (data (final (record_usage a now mono m)))) =
       dict_keys (keys (data m))) /\
  (forall d r,
     last_reset_time (data m) = Some (JIso d) ->
     reset_decision (attrs m) (assume_utc d) now = inr (Some r) ->
     (forall k, k <> "" -> dict_mem k (keys (data m)) = true ->
        add_key (PyStr k) now m =
          Raise (ApiKeyManagerError
                   ("API key '" ++ k ++ "' already exists.")%string)
                (do_reset now m)) /\
     (forall k, dict_mem k (keys (data m)) = false ->
        remove_key k now m =
          Raise (ApiKeyManagerError ("API key '" ++ k ++ "' not found.")%string)
                (do_reset now m)) /\
     (forall k, k <> "" -> dict_mem k (keys (data m)) = false ->
        record_usage (PyStr k) now mono m =
          Raise (ApiKeyManagerError
                   ("Attempted to record usage for unknown key: " ++ k)%string)
                (do_reset now m)) /\
     (forall k kd, dict_get k (keys (data (do_reset now m))) = Some kd ->
        usage kd = 0) /\
     last_reset_time (data (do_reset now m)) = Some (isoformat now) /\
     save_calls (do_reset now m) = S (save_calls m) /\
     disk (do_reset now m) =
       Some (JsonObject {| j_keys := Some (reset_keys (keys (data m)));
                           j_config := Some (attrs m);
                           j_last_reset_time := Some (isoformat now) |})).
Proof.
  pose proof (reconciled_dict_keys now m _ (check_and_reset_cases now m)) as Hk.
  split; [|split; [|split]].
  - intros a e [-> | ->]%raised_add_key; [reflexivity | exact Hk].
  - intros k e ->%raised_remove_key. split; [reflexivity | exact Hk].
  - intros a e ->%raised_record_usage. split; [reflexivity | exact Hk].
  - intros d r Ht Hr. pose proof (check_due now m d r Ht Hr) as Hc.
    split; [|split; [|split; [|split; [|split; [|split]]]]].
    + intros k Hne Hmem. unfold add_key.
      rewrite (nonempty_str_PyStr k Hne), Hc. unfold bind.
      rewrite do_reset_dict_mem, Hmem. reflexivity.
    + intros k Hmem. unfold remove_key. rewrite Hc. unfold bind.
      rewrite do_reset_dict_mem, Hmem. reflexivity.
    + intros k Hne Hmem. unfold record_usage.
      rewrite (nonempty_str_PyStr k Hne), Hc. unfold bind.
      rewrite <- (do_reset_dict_mem now) in Hmem. unfold dict_mem in Hmem.
      destruct (dict_get k (keys (data (do_reset now m))));
        [discriminate | reflexivity].
    + intros k kd. rewrite do_reset_keys. apply reset_keys_zero.
    + apply do_reset_time.
    + unfold do_reset. rewrite save_counts. reflexivity.
    + apply do_reset_disk.
Qed.

(** * Further properties of the methods *)

(** ** More on the dict *)

Section DictMore.

Implicit Types (k : string) (d : keys_dict) (v : key_data).

Lemma dict_mem_In k d : dict_mem k d = true <-> In k (dict_keys d).
Proof.
  unfold dict_mem, dict_keys. induction d as [|[k' v'] r IH]; simpl.
  - split; [discriminate | contradiction].
  - destruct (String.eqb_spec k k') as [->|Hne].
    + split; [intros _; left; reflexivity | reflexivity].
    + rewrite IH. split; [intros H; right; exact H|].
      intros [H|H]; [congruence | exact H].
Qed.

Lemma dict_mem_false_In k d : dict_mem k d = false <-> ~ In k (dict_keys d).
Proof.
  rewrite <- dict_mem_In. destruct (dict_mem k d); split; congruence.
Qed.

Lemma dict_set_absent k v d :
  dict_mem k d = false -> dict_set k v d = d ++ [(k, v)].
Proof.
  unfold dict_mem. induction d as [|[k' v'] r IH]; simpl; [reflexivity|].
  destruct (String.eqb k k'); [discriminate|].
  intros H. rewrite (IH H). reflexivity.
Qed.

Lemma dict_get_del_other k k' d :
  k' <> k -> dict_get k' (dict_del k d) = dict_get k' d.
Proof.
  intros Hne. induction d as [|[k0 v0] r IH]; simpl; [reflexivity|].
  destruct (String.eqb_spec k k0) as [<-|Hk]; simpl.
  - destruct (String.eqb_spec k' k); [contradiction | reflexivity].
  - destruct (String.eqb k' k0); [reflexivity | exact IH].
Qed.

Lemma dict_get_not_In k d : ~ In k (dict_keys d) -> dict_get k d = None.
Proof.
  intros H. apply dict_mem_false_In in H. unfold dict_mem in H.
  destruct (dict_get k d); [discriminate | reflexivity].
Qed.

Lemma dict_get_del_same k d :
  List.NoDup (dict_keys d) -> dict_get k (dict_del k d) = None.
Proof.
  induction d as [|[k0 v0] r IH]; simpl; [reflexivity|].
  intros Hnd. apply NoDup_cons_iff in Hnd as [Hin Hnd].
  destruct (String.eqb_spec k k0) as [->|Hk]; simpl.
  - apply dict_get_not_In. exact Hin.
  - destruct (String.eqb_spec k k0); [contradiction | exact (IH Hnd)].
Qed.

Lemma filter_other_id k (l : list string) :
  ~ In k l -> List.filter (fun x => negb (String.eqb k x)) l = l.
Proof.
  induction l as [|x l IH]; simpl; [reflexivity|].
  intros H. destruct (String.eqb_spec k x) as [->|Hne]; simpl.
  - exfalso. apply H. left. reflexivity.
  - rewrite IH; [reflexivity|]. intros Hin. apply H. right. exact Hin.
Qed.

Lemma dict_keys_del k d :
  List.NoDup (dict_keys d) ->
  dict_keys (dict_del k d) =
    List.filter (fun x => negb (String.eqb k x)) (dict_keys d).
Proof.
  induction d as [|[k0 v0] r IH]; simpl; [reflexivity|].
  intros Hnd. apply NoDup_cons_iff in Hnd as [Hin Hnd].
  destruct (String.eqb_spec k k0) as [->|Hk]; simpl.
  - symmetry. apply filter_other_id. exact Hin.
  - f_equal. exact (IH Hnd).
Qed.

End DictMore.

(** ** Saving mirrors the data *)

Section Mirror.

Implicit Types (m : manager) (now : Z).

Lemma save_mirrored now m : time_ok m -> mirrored (save_data_internal now m).
Proof.
  intros [d Hd]. rewrite (save_iso now m d Hd). unfold mirrored. simpl.
  rewrite Hd. split; reflexivity.
Qed.

Lemma save_last_reset_time now m :
  time_ok m ->
  last_reset_time (data (save_data_internal now m)) = last_reset_time (data m).
Proof. intros [d Hd]. rewrite (save_iso now m d Hd). reflexivity. Qed.

End Mirror.

(** ** Adding and removing keys *)

Section AddRemove.

Implicit Types (m : manager) (k : string) (now mono : Z).

(** X1.  After a reconciliation that returns, [add_key] with a non-empty
    string that is not yet a key returns: the new record, with usage 0,
    is the last entry of the dict, every record that was there is as
    reconciliation left it, the rate windows are untouched and the file
    written is the data of the instance. *)
Theorem add_key_appends_fresh_record m now m1 k :
  check_and_reset_internal now m = Ok tt m1 ->
  k <> "" ->
  dict_mem k (keys (data m)) = false ->
  exists m2,
    add_key (PyStr k) now m = Ok tt m2 /\
    keys (data m2) = keys (data m1) ++ [(k, {| usage_today := Some 0 |})] /\
    usage_of m2 k = Some 0 /\
    (forall k', k' <> k ->
       dict_get k' (keys (data m2)) = dict_get k' (keys (data m1))) /\
    key_timestamps m2 = key_timestamps m /\
    save_calls m2 = S (save_calls m1) /\
    mirrored m2.
Proof.
  intros Hc Hk Hmem.
  pose proof (check_ok_reconciled now m m1 Hc) as Hr.
  pose proof (check_ok_time now m m1 Hc) as Ht.
  rewrite <- (reconciled_dict_mem now m m1 k Hr) in Hmem.
  unfold add_key. rewrite (nonempty_str_PyStr k Hk), Hc. unfold bind.
  rewrite Hmem. eexists. split; [reflexivity|].
  unfold usage_of. rewrite save_keys, save_timestamps, save_counts. simpl.
  split; [apply dict_set_absent; exact Hmem|].
  split; [rewrite dict_get_set_same; reflexivity|].
  split; [intros k' Hne; apply dict_get_set_other; exact Hne|].
  split; [exact (reconciled_timestamps now m m1 Hr)|].
  split; [reflexivity|].
  apply save_mirrored, with_keys_time_ok, Ht.
Qed.

(** X2.  [add_key] raises [ValueError] for the empty string and for any
    argument that is not a string, before it reconciles: the instance is
    exactly as it was.  After a reconciliation that returns it raises
    nothing else than the already-exists error, and that exactly when the
    string is a key of the pool. *)
Theorem add_key_rejections m now :
  (forall a, nonempty_str a = None ->
     add_key a now m =
       Raise (ValueError "API key must be a non-empty string.") m) /\
  (forall m1 k, check_and_reset_internal now m = Ok tt m1 -> k <> "" ->
     (dict_mem k (keys (data m)) = true <->
      add_key (PyStr k) now m =
        Raise (ApiKeyManagerError ("API key '" ++ k ++ "' already exists.")%string)
              m1) /\
     (dict_mem k (keys (data m)) = false <->
      raised (add_key (PyStr k) now m) = None)).
Proof.
  split.
  - intros a Ha. unfold add_key. rewrite Ha. reflexivity.
  - intros m1 k Hc Hk.
    pose proof (check_ok_reconciled now m m1 Hc) as Hr.
    rewrite <- (reconciled_dict_mem now m m1 k Hr).
    unfold add_key. rewrite (nonempty_str_PyStr k Hk), Hc. unfold bind.
    destruct (dict_mem k (keys (data m1))); simpl; split; split;
      congruence.
Qed.

(** X3.  After a reconciliation that returns, [remove_key] of a key of the
    pool returns: the key is gone from the dict and from the rate
    windows, the other keys keep their order and their records, and the
    file written is the data of the instance.  For a string that is not a
    key it raises the not-found error and the instance is what
    reconciliation left. *)
Theorem remove_key_deletes_record m now m1 k :
  check_and_reset_internal now m = Ok tt m1 ->
  unique_keys m ->
  (dict_mem k (keys (data m)) = true ->
   exists m2,
     remove_key k now m = Ok tt m2 /\
     dict_get k (keys (data m2)) = None /\
     (forall k', k' <> k ->
        dict_get k' (keys (data m2)) = dict_get k' (keys (data m1))) /\
     dict_keys (keys (data m2)) =
       List.filter (fun x => negb (String.eqb k x)) (dict_keys (keys (data m))) /\
     key_timestamps m2 !! k = None /\
     (forall k', k' <> k -> key_timestamps m2 !! k' = key_timestamps m !! k') /\
     mirrored m2) /\
  (dict_mem k (keys (data m)) = false ->
   remove_key k now m =
     Raise (ApiKeyManagerError ("API key '" ++ k ++ "' not found.")%string) m1).
Proof.
  intros Hc Hu.
  pose proof (check_ok_reconciled now m m1 Hc) as Hr.
  pose proof (check_ok_time now m m1 Hc) as Ht.
  pose proof (reconciled_dict_keys now m m1 Hr) as Hk.
  assert (Hu1 : List.NoDup (dict_keys (keys (data m1))))
    by (rewrite Hk; exact Hu).
  split; intros Hmem;
    rewrite <- (reconciled_dict_mem now m m1 k Hr) in Hmem;
    unfold remove_key; rewrite Hc; unfold bind; rewrite Hmem;
    [|reflexivity].
  eexists. split; [reflexivity|].
  rewrite save_keys, save_timestamps. simpl.
  split; [apply dict_get_del_same; exact Hu1|].
  split; [intros k' Hne; apply dict_get_del_other; exact Hne|].
  split; [rewrite <- Hk; apply dict_keys_del; exact Hu1|].
  rewrite (reconciled_timestamps now m m1 Hr).
  split; [apply lookup_delete_eq|].
  split; [intros k' Hne; apply lookup_delete_ne; congruence|].
  apply save_mirrored, with_timestamps_time_ok, with_keys_time_ok, Ht.
Qed.

End AddRemove.

(** ** What selection returns and what it leaves alone *)

Section SelectionMore.

Implicit Types (m : manager) (k : string) (now mono : Z).

Lemma first_available_some m d k :
  first_available m d = Some k ->
  exists pre kd post,
    d = pre ++ (k, kd) :: post /\
    Forall (ineligible m) pre /\ eligible m k kd.
Proof.
  induction d as [|[k0 kd0] r IH]; simpl; [discriminate|].
  destruct (daily_exhausted m kd0) eqn:Hd;
    [|destruct (rate_exhausted m k0) eqn:Hr].
  - intros (pre & kd & post & -> & Hpre & He)%IH.
    exists ((k0, kd0) :: pre), kd, post. split; [reflexivity|].
    split; [|exact He]. constructor; [|exact Hpre].
    unfold ineligible. simpl. rewrite eligible_tests. intros [H _]. congruence.
  - intros (pre & kd & post & -> & Hpre & He)%IH.
    exists ((k0, kd0) :: pre), kd, post. split; [reflexivity|].
    split; [|exact He]. constructor; [|exact Hpre].
    unfold ineligible. simpl. rewrite eligible_tests. intros [_ H]. congruence.
  - intros [= <-]. exists [], kd0, r. split; [reflexivity|].
    split; [constructor|]. apply eligible_tests. split; assumption.
Qed.

Lemma first_available_none_all m d :
  first_available m d = None -> Forall (ineligible m) d.
Proof.
  induction d as [|[k0 kd0] r IH]; simpl; [constructor|].
  destruct (daily_exhausted m kd0) eqn:Hd;
    [|destruct (rate_exhausted m k0) eqn:Hr]; [| |discriminate];
    intros H; (constructor; [|exact (IH H)]);
    unfold ineligible; simpl; rewrite eligible_tests; intros [H1 H2];
    congruence.
Qed.

Lemma reset_decision_raise c last now e :
  reset_decision c last now = inl e -> e = ValueError "hour must be in 0..23".
Proof.
  unfold reset_decision, hour_reason.
  destruct (interval_reason c last now); [discriminate|].
  destruct (reset_hour_utc c) as [h|]; [|discriminate].
  destruct (hour_in_range h); [|congruence].
  destruct (dt_le _ _); discriminate.
Qed.

(** Reconciliation raises nothing but the [AttributeError] of a stored
    time without [.replace] and the [ValueError] of an hour out of
    range. *)
Lemma check_raise_kinds now m e m1 :
  check_and_reset_internal now m = Raise e m1 ->
  e = AttributeError \/ e = ValueError "hour must be in 0..23".
Proof.
  unfold check_and_reset_internal.
  destruct (repair_missing now m) as [m0 v].
  destruct (fromisoformat v) as [| |d]; try discriminate.
  - intros [= <- _]. left. reflexivity.
  - destruct (reset_decision (attrs m0) (assume_utc d) now) as [e0|[r|]] eqn:Hd;
      try discriminate.
    intros [= <- _]. right. exact (reset_decision_raise _ _ _ _ Hd).
Qed.

Lemma get_key_unfold now mono m m1 :
  check_and_reset_internal now m = Ok tt m1 ->
  get_key now mono m =
    let m2 := cleanup_timestamps_internal mono m1 in
    match keys (data m1) with
    | [] => Raise (NoAvailableKeyError "No API keys configured.") m2
    | _ :: _ =>
        match first_available m2 (keys (data m1)) with
        | Some k => Ok k m2
        | None =>
            Raise (NoAvailableKeyError
                     "All API keys have reached their usage limits.") m2
        end
    end.
Proof.
  intros Hc. unfold get_key. rewrite Hc. unfold bind.
  rewrite cleanup_data. reflexivity.
Qed.

Lemma get_key_ok_inv now mono m k m2 :
  get_key now mono m = Ok k m2 ->
  dict_mem k (keys (data m)) = true /\
  exists pre kd post,
    keys (data m2) = pre ++ (k, kd) :: post /\
    Forall (ineligible m2) pre /\
    eligible m2 k kd.
Proof.
  destruct (check_and_reset_internal now m) as [[] m1|e m1] eqn:Hc;
    [|unfold get_key; rewrite Hc; discriminate].
  pose proof (check_ok_reconciled now m m1 Hc) as Hr.
  rewrite (get_key_unfold now mono m m1 Hc). simpl.
  pose proof (cleanup_data mono m1) as Hd.
  destruct (keys (data m1)) as [|e0 r] eqn:Hk; [discriminate|].
  destruct (first_available (cleanup_timestamps_internal mono m1) (e0 :: r))
    as [k0|] eqn:Hf; [|discriminate].
  intros [= <- <-]. rewrite Hd, Hk.
  destruct (first_available_some _ _ _ Hf) as (pre & kd & post & He & Hp & Hel).
  split; [|exists pre, kd, post; split; [exact He | split; [exact Hp | exact Hel]]].
  rewrite <- (reconciled_dict_mem now m m1 k0 Hr). apply dict_mem_In.
  rewrite Hk, He. unfold dict_keys. rewrite map_app. apply in_or_app.
  right. left. reflexivity.
Qed.

Lemma get_key_exhausted_inv now mono m m2 :
  get_key now mono m =
    Raise (NoAvailableKeyError
             "All API keys have reached their usage limits.") m2 ->
  keys (data m2) <> [] /\ Forall (ineligible m2) (keys (data m2)).
Proof.
  destruct (check_and_reset_internal now m) as [[] m1|e m1] eqn:Hc.
  2:{ unfold get_key. rewrite Hc. simpl. intros [= -> _].
      destruct (check_raise_kinds now m _ m1 Hc); discriminate. }
  rewrite (get_key_unfold now mono m m1 Hc). simpl.
  pose proof (cleanup_data mono m1) as Hd.
  destruct (keys (data m1)) as [|e0 r] eqn:Hk; [discriminate|].
  destruct (first_available (cleanup_timestamps_internal mono m1) (e0 :: r))
    as [k0|] eqn:Hf; [discriminate|].
  intros [= <-]. rewrite Hd, Hk. split; [discriminate|].
  exact (first_available_none_all _ _ Hf).
Qed.

Lemma remove_key_ok_gone m k now m2 :
  unique_keys m ->
  remove_key k now m = Ok tt m2 ->
  dict_mem k (keys (data m2)) = false.
Proof.
  intros Hu. unfold remove_key.
  destruct (check_and_reset_internal now m) as [[] m1|e m1] eqn:Hc;
    [|discriminate].
  unfold bind. destruct (dict_mem k (keys (data m1))); [|discriminate].
  intros [= <-]. rewrite save_keys. simpl. unfold dict_mem.
  rewrite dict_get_del_same; [reflexivity|].
  rewrite (reconciled_dict_keys now m m1 (check_ok_reconciled _ _ _ Hc)).
  exact Hu.
Qed.

(** X4.  Whatever [get_key] returns is a key of the pool that is within
    both limits, and every key before it in the dict is over one of them:
    a key at its daily limit or with a full rate window is never handed
    out.  When [get_key] raises the exhausted-pool error, the pool is not
    empty and every key is over a limit. *)
Theorem get_key_returns_only_eligible now mono m :
  (forall k m2, get_key now mono m = Ok k m2 ->
     dict_mem k (keys (data m)) = true /\
     exists pre kd post,
       keys (data m2) = pre ++ (k, kd) :: post /\
       Forall (ineligible m2) pre /\
       eligible m2 k kd) /\
  (forall m2,
     get_key now mono m =
       Raise (NoAvailableKeyError
                "All API keys have reached their usage limits.") m2 ->
     keys (data m2) <> [] /\ Forall (ineligible m2) (keys (data m2))).
Proof.
  split.
  - intros k m2. apply get_key_ok_inv.
  - intros m2. apply get_key_exhausted_inv.
Qed.

(** X5.  Once [remove_key] has returned for a key, the next [get_key] does
    not return that key, whatever the instants of the two calls. *)
Theorem removed_key_is_not_selected m k now now' mono m2 :
  unique_keys m ->
  remove_key k now m = Ok tt m2 ->
  forall m3, get_key now' mono m2 <> Ok k m3.
Proof.
  intros Hu Hrm m3 Hget.
  pose proof (remove_key_ok_gone m k now m2 Hu Hrm) as Hgone.
  destruct (get_key_ok_inv now' mono m2 k m3 Hget) as [Hin _].
  congruence.
Qed.

(** X6.  Selecting and reading statistics count nothing: after a
    reconciliation that returns, [get_key] leaves the data, the file and
    the number of saves as reconciliation left them, and
    [get_usage_stats] returns the records as reconciliation left them
    without changing the instance any further.  On an instance where
    nothing is due both leave the data as it was. *)
Theorem selection_and_stats_are_read_only m now mono m1 :
  check_and_reset_internal now m = Ok tt m1 ->
  data (final (get_key now mono m)) = data m1 /\
  disk (final (get_key now mono m)) = disk m1 /\
  save_calls (final (get_key now mono m)) = save_calls m1 /\
  get_usage_stats now m = Ok (keys (data m1)) m1 /\
  (quiet now m ->
   data (final (get_key now mono m)) = data m /\
   get_usage_stats now m = Ok (keys (data m)) m).
Proof.
  intros Hc. rewrite (get_key_final now mono m m1 Hc).
  rewrite cleanup_data, cleanup_disk.
  assert (Hs : save_calls (cleanup_timestamps_internal mono m1) = save_calls m1)
    by (unfold cleanup_timestamps_internal;
        destruct (rpm_falsy (attrs m1)); reflexivity).
  assert (Hg : get_usage_stats now m = Ok (keys (data m1)) m1)
    by (unfold get_usage_stats; rewrite Hc; reflexivity).
  repeat split; try assumption.
  - unfold quiet in H. rewrite H in Hc. injection Hc as <-. reflexivity.
  - unfold quiet in H. rewrite H in Hc. injection Hc as <-. exact Hg.
Qed.

End SelectionMore.

(** ** The file mirrors the data *)

Section Persisted.

Implicit Types (m : manager) (k : string) (now mono : Z).

Lemma check_final_time_ok now m :
  time_ok m ->
  final (check_and_reset_internal now m) = m \/
  final (check_and_reset_internal now m) = do_reset now m.
Proof.
  intros [d Hd]. rewrite (check_and_reset_iso m now d Hd).
  destruct (reset_decision (attrs m) (assume_utc d) now) as [e|[r|]];
    [left | right | left]; reflexivity.
Qed.

Lemma do_reset_mirrored now m : mirrored (do_reset now m).
Proof.
  unfold do_reset. apply save_mirrored. apply time_ok_with_isoformat.
Qed.

Lemma check_final_mirrored now m :
  time_ok m -> mirrored m -> mirrored (final (check_and_reset_internal now m)).
Proof.
  intros Ht Hm. destruct (check_final_time_ok now m Ht) as [-> | ->];
    [exact Hm | apply do_reset_mirrored].
Qed.

Lemma cleanup_mirrored mono m :
  mirrored m -> mirrored (cleanup_timestamps_internal mono m).
Proof.
  unfold mirrored. rewrite cleanup_disk, cleanup_data, cleanup_attrs. tauto.
Qed.

Ltac split_check now m :=
  let Hc := fresh "Hc" in
  destruct (check_and_reset_internal now m) as [[] ?m1|? ?m1] eqn:Hc;
  unfold bind, final in *.

(** X7.  The file always holds what the instance holds once it has been
    written: [add_key], [remove_key] and [record_usage] of a key, when
    they return, leave a file equal to the data, with the current limits
    as its config; the same holds after a reset and for an instance built
    where no file existed.  From then on every method keeps file and data
    equal, whether it returns or raises. *)
Theorem file_mirrors_data :
  (forall a now m m2, add_key a now m = Ok tt m2 -> mirrored m2) /\
  (forall k now m m2, remove_key k now m = Ok tt m2 -> mirrored m2) /\
  (forall a now mono m m2,
     nonempty_str a <> None ->
     record_usage a now mono m = Ok tt m2 -> mirrored m2) /\
  (forall now m, mirrored (do_reset now m)) /\
  (forall init_args now mono m,
     init None init_args now mono = Built m -> mirrored m) /\
  (forall m, time_ok m -> mirrored m ->
     forall a k now mono,
       mirrored (final (add_key a now m)) /\
       mirrored (final (remove_key k now m)) /\
       mirrored (final (get_key now mono m)) /\
       mirrored (final (record_usage a now mono m)) /\
       mirrored (final (get_usage_stats now m))).
Proof.
  split; [|split; [|split; [|split; [|split]]]].
  - intros a now m m2. unfold add_key.
    destruct (nonempty_str a) as [k|]; [|discriminate].
    split_check now m; [|discriminate].
    destruct (dict_mem k (keys (data m1))); [discriminate|].
    intros [= <-].
    apply save_mirrored, with_keys_time_ok, (check_ok_time now m m1 Hc).
  - intros k now m m2. unfold remove_key.
    split_check now m; [|discriminate].
    destruct (dict_mem k (keys (data m1))); [|discriminate].
    intros [= <-].
    apply save_mirrored, with_timestamps_time_ok, with_keys_time_ok,
      (check_ok_time now m m1 Hc).
  - intros a now mono m m2 Ha. unfold record_usage.
    destruct (nonempty_str a) as [k|]; [|congruence].
    split_check now m; [|discriminate].
    destruct (dict_get k (keys (data m1))); [|discriminate].
    intros [= <-]. apply save_mirrored.
    pose proof (check_ok_time now m m1 Hc) as Ht.
    destruct (requests_per_minute _);
      [apply with_timestamps_time_ok|]; apply with_keys_time_ok, Ht.
  - exact do_reset_mirrored.
  - intros init_args now mono m
      (m0 & m1 & Hl & Hc & _ & _ & Ha & Hd & Hk & _)%init_built.
    injection Hl as <-.
    match type of Hc with
    | check_and_reset_internal _ (save_data_internal _ ?x) = _ =>
        assert (Ht0 : time_ok x) by (exists (utc now); reflexivity);
        pose proof (check_final_mirrored now _ (save_time_ok now x Ht0)
                      (save_mirrored now x Ht0)) as Hm
    end.
    rewrite Hc in Hm. simpl in Hm. unfold mirrored in *.
    rewrite Hk, Hd, Ha. exact Hm.
  - intros m Ht Hm a k now mono.
    pose proof (check_final_mirrored now m Ht Hm) as H1.
    pose proof (check_and_reset_cases now m) as Hr.
    assert (Ht1 : time_ok (final (check_and_reset_internal now m)))
      by (eapply reconciled_time_ok; eassumption).
    split; [|split; [|split; [|split]]].
    + unfold add_key. destruct (nonempty_str a) as [k0|]; [|exact Hm].
      split_check now m; [|exact H1].
      destruct (dict_mem k0 (keys (data m1))); [exact H1|].
      apply save_mirrored, with_keys_time_ok, Ht1.
    + unfold remove_key. split_check now m; [|exact H1].
      destruct (dict_mem k (keys (data m1))); [|exact H1].
      apply save_mirrored, with_timestamps_time_ok, with_keys_time_ok, Ht1.
    + unfold get_key. split_check now m; [|exact H1].
      apply (cleanup_mirrored mono) in H1.
      destruct (keys (data (cleanup_timestamps_internal mono m1))); [exact H1|].
      destruct (first_available _ _); exact H1.
    + unfold record_usage. destruct (nonempty_str a) as [k0|]; [|exact Hm].
      split_check now m; [|exact H1].
      destruct (dict_get k0 (keys (data m1))); [|exact H1].
      apply save_mirrored.
      destruct (requests_per_minute _);
        [apply with_timestamps_time_ok|]; apply with_keys_time_ok, Ht1.
    + unfold get_usage_stats. split_check now m; exact H1.
Qed.

End Persisted.

(** ** Recording again and again *)

Section Repeated.

Implicit Types (m : manager) (k : string) (now mono : Z).

Lemma repaired_differs now m :
  last_reset_time (data m) <> Some (isoformat now) ->
  with_last_reset_time (isoformat now) m <> m.
Proof.
  intros Hne H. apply Hne. rewrite <- H at 1. reflexivity.
Qed.

Lemma do_reset_differs now m0 m :
  save_calls m0 = save_calls m -> do_reset now m0 <> m.
Proof.
  intros Hs H. apply (f_equal save_calls) in H.
  unfold do_reset in H. rewrite save_counts in H. simpl in H. lia.
Qed.

Lemma quiet_iff now m :
  quiet now m <->
  exists d, last_reset_time (data m) = Some (JIso d) /\
            reset_decision (attrs m) (assume_utc d) now = inr None.
Proof.
  split.
  - unfold quiet, check_and_reset_internal, repair_missing.
    destruct (last_reset_time (data m)) as [[| | | |d]|] eqn:Hl; simpl;
      try discriminate.
    1,2,5:
      destruct (reset_decision _ _ _) as [e|[r|]]; try discriminate;
      intros [= H]; exfalso;
      [ exact (do_reset_differs now _ m eq_refl H)
      | apply (repaired_differs now m); [rewrite Hl; discriminate | exact H] ].
    + intros [= H]. exfalso.
      apply (repaired_differs now m); [rewrite Hl; discriminate | exact H].
    + destruct (reset_decision (attrs m) (assume_utc d) now) as [e|[r|]] eqn:Hd;
        try discriminate.
      * intros [= H]. exfalso. exact (do_reset_differs now m m eq_refl H).
      * intros _. exists d. split; [reflexivity | exact Hd].
  - intros (d & Hl & Hd). unfold quiet.
    rewrite (check_and_reset_iso m now d Hl), Hd. reflexivity.
Qed.

(** Whether an instant is quiet depends on the limits and the stored time
    alone. *)
Lemma quiet_transfer now m m' :
  attrs m' = attrs m ->
  last_reset_time (data m') = last_reset_time (data m) ->
  quiet now m -> quiet now m'.
Proof.
  intros Ha Hl. rewrite !quiet_iff, Ha, Hl. tauto.
Qed.

Lemma record_usage_quiet now mono m k u :
  quiet now m -> k <> "" -> usage_of m k = Some u ->
  exists m',
    record_usage (PyStr k) now mono m = Ok tt m' /\
    usage_of m' k = Some (u + 1) /\
    (forall k', k' <> k -> usage_of m' k' = usage_of m k') /\
    attrs m' = attrs m /\
    last_reset_time (data m') = last_reset_time (data m) /\
    save_calls m' = S (save_calls m) /\
    key_timestamps m' =
      match requests_per_minute (attrs m) with
      | Some _ => append_timestamp k mono (key_timestamps m)
      | None => key_timestamps m
      end.
Proof.
  intros Hq Hk Hu. unfold usage_of in Hu.
  destruct (dict_get k (keys (data m))) as [kd|] eqn:Hg; [|discriminate].
  injection Hu as <-.
  assert (Ht : time_ok m) by (apply quiet_iff in Hq as (d & Hd & _); exists d; exact Hd).
  unfold record_usage. rewrite (nonempty_str_PyStr k Hk).
  unfold quiet in Hq. rewrite Hq. unfold bind. rewrite Hg.
  eexists. split; [reflexivity|].
  unfold usage_of.
  rewrite save_keys, save_attrs, save_counts, save_timestamps.
  cbn [attrs with_keys with_data].
  destruct (requests_per_minute (attrs m)) eqn:Hr;
    rewrite save_last_reset_time
      by (try apply with_timestamps_time_ok; apply with_keys_time_ok, Ht);
    cbn [keys data with_keys with_timestamps with_data key_timestamps attrs
         save_calls last_reset_time];
    (split; [rewrite dict_get_set_same; reflexivity|]);
    (split; [intros k' Hne; rewrite dict_get_set_other by exact Hne; reflexivity|]);
    repeat split.
Qed.

(** X8.  Usage adds up: [record_usage] of a key of the pool, called at
    any number of instants at which nothing is due, raises the usage of
    that key by the number of calls and leaves every other counter alone;
    each call saves once, and with [requests_per_minute] set the window of
    the key grows by the monotonic readings of the calls, in order. *)
Theorem repeated_recording_adds_up k times : forall m u,
  k <> "" ->
  usage_of m k = Some u ->
  Forall (fun t => quiet (fst t) m) times ->
  let m' := record_all k times m in
  usage_of m' k = Some (u + Z.of_nat (length times)) /\
  (forall k', k' <> k -> usage_of m' k' = usage_of m k') /\
  save_calls m' = (save_calls m + length times)%nat /\
  (requests_per_minute (attrs m) <> None ->
   default [] (key_timestamps m' !! k) =
     default [] (key_timestamps m !! k) ++ map snd times) /\
  (requests_per_minute (attrs m) = None ->
   key_timestamps m' = key_timestamps m).
Proof.
  induction times as [|[now mono] rest IH]; intros m u Hk Hu Hq; simpl.
  - rewrite Z.add_0_r, Nat.add_0_r, app_nil_r. repeat split; try reflexivity.
    exact Hu.
  - pose proof (Forall_inv Hq) as Hq1. pose proof (Forall_inv_tail Hq) as Hq2.
    simpl in Hq1.
    destruct (record_usage_quiet now mono m k u Hq1 Hk Hu)
      as (m1 & Hrec & Hu1 & Hoth & Ha & Hl & Hs & Hts).
    rewrite Hrec. simpl.
    assert (Hq' : Forall (fun t => quiet (fst t) m1) rest).
    { eapply Stdlib.Lists.List.Forall_impl; [|exact Hq2]. intros t Ht.
      exact (quiet_transfer (fst t) m m1 Ha Hl Ht). }
    destruct (IH m1 (u + 1) Hk Hu1 Hq') as (I1 & I2 & I3 & I4 & I5).
    split; [rewrite I1; f_equal; lia|].
    split; [intros k' Hne; rewrite (I2 k' Hne); exact (Hoth k' Hne)|].
    split; [rewrite I3, Hs; lia|].
    rewrite Ha in I4, I5. split.
    + intros Hr. rewrite (I4 Hr), Hts.
      destruct (requests_per_minute (attrs m)); [|congruence].
      unfold append_timestamp. rewrite lookup_insert_eq. simpl.
      rewrite <- app_assoc. reflexivity.
    + intros Hr. rewrite (I5 Hr), Hts, Hr. reflexivity.
Qed.

End Repeated.

(** ** How a counter can move *)

Section Counters.

Implicit Types (m : manager) (k : string) (now mono : Z).

Lemma reconciled_usage now m m1 k u :
  reconciled now m m1 ->
  usage_of m k = Some u ->
  usage_of m1 k = Some u \/ usage_of m1 k = Some 0.
Proof.
  unfold usage_of.
  intros [] Hu; try (left; exact Hu); right;
    rewrite do_reset_keys; simpl; rewrite dict_get_reset_keys;
    destruct (dict_get k (keys (data m))) as [kd|]; try discriminate;
    simpl; rewrite usage_zero_usage; reflexivity.
Qed.

Lemma usage_of_in_pool m k u :
  usage_of m k = Some u -> dict_mem k (keys (data m)) = true.
Proof.
  unfold usage_of, dict_mem.
  destruct (dict_get k (keys (data m))); [reflexivity | discriminate].
Qed.

Lemma reconciled_unique now m m1 :
  reconciled now m m1 -> unique_keys m -> unique_keys m1.
Proof.
  intros Hr Hu. unfold unique_keys.
  rewrite (reconciled_dict_keys now m m1 Hr). exact Hu.
Qed.

(** X9.  A counter is never lowered except to zero by a reset, and only
    [record_usage] raises one, by one.  For a key of the pool with usage
    [u], whatever a method leaves as the usage of that key is [u] or [0],
    and after [record_usage] also possibly [u + 1], or [1] when the call
    reset first. *)
Theorem counters_only_step_or_reset m k u :
  unique_keys m ->
  usage_of m k = Some u ->
  forall a k0 now mono u',
    (usage_of (final (add_key a now m)) k = Some u' -> u' = u \/ u' = 0) /\
    (usage_of (final (remove_key k0 now m)) k = Some u' -> u' = u \/ u' = 0) /\
    (usage_of (final (get_key now mono m)) k = Some u' -> u' = u \/ u' = 0) /\
    (usage_of (final (get_usage_stats now m)) k = Some u' ->
     u' = u \/ u' = 0) /\
    (usage_of (final (record_usage a now mono m)) k = Some u' ->
     u' = u \/ u' = 0 \/ u' = u + 1 \/ u' = 1).
Proof.
  intros Hun Hu a k0 now mono u'.
  pose proof (check_and_reset_cases now m) as Hr.
  pose proof (reconciled_usage now m _ k u Hr Hu) as H1.
  pose proof (reconciled_unique now m _ Hr Hun) as Hun1.
  assert (Hstep : forall v, usage_of (final (check_and_reset_internal now m)) k
                            = Some v -> v = u \/ v = 0)
    by (intros v Hv; destruct H1 as [H1|H1]; rewrite H1 in Hv;
        injection Hv as <-; [left | right]; reflexivity).
  assert (Hsame : usage_of m k = Some u' -> u' = u \/ u' = 0)
    by (intros Hv; rewrite Hu in Hv; injection Hv as <-; left; reflexivity).
  split; [|split; [|split; [|split]]].
  - unfold add_key. destruct (nonempty_str a) as [kn|]; [|exact Hsame].
    destruct (check_and_reset_internal now m) as [[] m1|e m1];
      unfold bind, final in *; [|apply Hstep].
    destruct (dict_mem kn (keys (data m1))) eqn:Hmem; [apply Hstep|].
    unfold usage_of. rewrite save_keys. simpl.
    destruct (String.eqb_spec k kn) as [->|Hne].
    + exfalso. destruct H1 as [H1|H1];
        apply usage_of_in_pool in H1; congruence.
    + rewrite dict_get_set_other by exact Hne. apply Hstep.
  - unfold remove_key.
    destruct (check_and_reset_internal now m) as [[] m1|e m1];
      unfold bind, final in *; [|apply Hstep].
    destruct (dict_mem k0 (keys (data m1))); [|apply Hstep].
    unfold usage_of. rewrite save_keys. simpl.
    destruct (String.eqb_spec k k0) as [->|Hne].
    + rewrite dict_get_del_same by exact Hun1. discriminate.
    + rewrite dict_get_del_other by exact Hne. apply Hstep.
  - unfold get_key.
    destruct (check_and_reset_internal now m) as [[] m1|e m1];
      unfold bind, final in *; [|apply Hstep].
    assert (Hd : forall r : result string,
               r = Raise (NoAvailableKeyError "No API keys configured.")
                     (cleanup_timestamps_internal mono m1) \/
               (exists x, r = Ok x (cleanup_timestamps_internal mono m1)) \/
               r = Raise (NoAvailableKeyError
                            "All API keys have reached their usage limits.")
                     (cleanup_timestamps_internal mono m1) ->
               usage_of match r with Ok _ x => x | Raise _ x => x end k = Some u' ->
               u' = u \/ u' = 0).
    { intros r [-> | [[x ->] | ->]]; unfold usage_of;
        rewrite cleanup_data; apply Hstep. }
    apply Hd.
    destruct (keys (data (cleanup_timestamps_internal mono m1)));
      [left; reflexivity|].
    destruct (first_available _ _); [right; left; eexists|right; right];
      reflexivity.
  - unfold get_usage_stats.
    destruct (check_and_reset_internal now m) as [[] m1|e m1];
      unfold bind, final in *; apply Hstep.
  - unfold record_usage. destruct (nonempty_str a) as [kn|];
      [|intros Hv; destruct (Hsame Hv); tauto].
    destruct (check_and_reset_internal now m) as [[] m1|e m1];
      unfold bind, final in *; [|intros Hv; destruct (Hstep _ Hv); tauto].
    destruct (dict_get kn (keys (data m1))) as [kd|] eqn:Hg;
      [|intros Hv; destruct (Hstep _ Hv); tauto].
    unfold usage_of. rewrite save_keys.
    assert (Hk : forall ks,
               keys (data match requests_per_minute (attrs (with_keys ks m1)) with
                          | Some _ =>
                              with_timestamps
                                (append_timestamp kn mono
                                   (key_timestamps (with_keys ks m1)))
                                (with_keys ks m1)
                          | None => with_keys ks m1
                          end) = ks)
      by (intros ks; destruct (requests_per_minute _); reflexivity).
    rewrite Hk.
    destruct (String.eqb_spec k kn) as [->|Hne].
    + rewrite dict_get_set_same. simpl. intros [= <-].
      assert (Hv : usage_of m1 kn = Some (usage kd))
        by (unfold usage_of; rewrite Hg; reflexivity).
      destruct (Hstep _ Hv) as [-> | ->]; [right; right; left | right; right; right];
        reflexivity.
    + rewrite dict_get_set_other by exact Hne.
      intros Hv. destruct (Hstep _ Hv); tauto.
Qed.

End Counters.

(** ** What the constructor accepts *)

Section Validation.

Implicit Types (m : manager) (now mono : Z).

Lemma fresh_saved_facts init_args now :
  let m0 := save_data_internal now
              (fresh None init_args
                 {| keys := []; saved_config := init_args;
                    last_reset_time := Some (isoformat now) |}) in
  attrs m0 = init_args /\
  keys (data m0) = [] /\
  last_reset_time (data m0) = Some (isoformat now) /\
  key_timestamps m0 = ∅ /\
  save_calls m0 = 1%nat /\
  disk m0 = Some (JsonObject {| j_keys := Some [];
                                j_config := Some init_args;
                                j_last_reset_time := Some (isoformat now) |}).
Proof. repeat split. Qed.

(** X10.  Every instance the constructor returns has a valid schedule:
    the reset hour is absent or within 0..23 and the reset interval is
    absent or positive.  With arguments that break this and no file,
    the constructor raises [ValueError]; by then it has already created
    the file. *)
Theorem constructor_checks_schedule :
  (forall file init_args now mono m,
     init file init_args now mono = Built m -> schedule_valid (attrs m)) /\
  (forall init_args now mono,
     hour_invalid init_args = true \/ interval_invalid init_args = true ->
     exists msg f, init None init_args now mono = Failed (ValueError msg) (Some f)).
Proof.
  split.
  - intros file init_args now mono m
      (m0 & m1 & _ & _ & Hh & Hi & Ha & _)%init_built.
    rewrite Ha. split; assumption.
  - intros init_args now mono Hbad.
    destruct (fresh_saved_facts init_args now) as (Ha & _ & Ht & _ & _ & Hd).
    unfold init, load_or_initialize_data, load_data.
    set (m0 := save_data_internal now _) in *.
    rewrite (check_and_reset_iso m0 now (utc now) Ht).
    destruct (reset_decision (attrs m0) (assume_utc (utc now)) now)
      as [e|[r|]] eqn:Hdec.
    + rewrite (reset_decision_raise _ _ _ _ Hdec), Hd.
      do 2 eexists. reflexivity.
    + rewrite cleanup_attrs, do_reset_attrs, Ha, cleanup_disk, do_reset_disk.
      destruct (hour_invalid init_args); [do 2 eexists; reflexivity|].
      destruct (interval_invalid init_args); [do 2 eexists; reflexivity|].
      destruct Hbad; discriminate.
    + rewrite cleanup_attrs, Ha, cleanup_disk, Hd.
      destruct (hour_invalid init_args); [do 2 eexists; reflexivity|].
      destruct (interval_invalid init_args); [do 2 eexists; reflexivity|].
      destruct Hbad; discriminate.
Qed.

(** X11.  Constructed where no file exists, with a valid schedule, the
    instance starts empty: no keys, no tracked windows, an empty
    [api_keys], the arguments as its limits and the current time as its
    last reset; the file has been created once and holds exactly that. *)
Theorem constructor_starts_empty init_args now mono :
  schedule_valid init_args ->
  exists m,
    init None init_args now mono = Built m /\
    attrs m = init_args /\
    keys (data m) = [] /\
    api_keys m = [] /\
    key_timestamps m = ∅ /\
    last_reset_time (data m) = Some (isoformat now) /\
    save_calls m = 1%nat /\
    mirrored m.
Proof.
  intros Hv. pose proof Hv as [Hh Hi].
  destruct (fresh_saved_facts init_args now) as (Ha & Hk & Ht & Hts & Hs & Hd).
  unfold init, load_or_initialize_data, load_data.
  set (m0 := save_data_internal now _) in *.
  assert (Hq : check_and_reset_internal now m0 = Ok tt m0)
    by (apply check_at_now; [rewrite Ha; exact Hv | exact Ht]).
  rewrite Hq, cleanup_attrs, Ha, Hh, Hi.
  eexists. split; [reflexivity|]. simpl.
  rewrite cleanup_data, cleanup_disk.
  assert (Hc : key_timestamps (cleanup_timestamps_internal mono m0) = ∅).
  { unfold cleanup_timestamps_internal.
    destruct (rpm_falsy (attrs m0)); [exact Hts|].
    cbn [key_timestamps with_timestamps]. rewrite Hts. apply omap_empty. }
  repeat split; try assumption.
  unfold cleanup_timestamps_internal.
  destruct (rpm_falsy (attrs m0)); exact Hs.
Qed.

End Validation.

(** ** When counters and windows free a key again *)

Section Recovery.

Implicit Types (m : manager) (k : string) (now mono : Z).

(** X12.  After a last reset stored in UTC at [t], the next reset by hour
    [h] falls strictly after [t], at most one day later, and exactly on
    hour [h] of a UTC day. *)
Theorem next_reset_within_a_day h t :
  0 <= h <= 23 ->
  let n := instant (next_reset h (utc t)) in
  t < n /\ n <= t + us_per_day /\ n mod us_per_day = h * us_per_hour.
Proof.
  intros Hh n. unfold n. rewrite instant_next_reset.
  split; [apply next_reset_after; lia|].
  unfold next_reset_instant, date. rewrite instant_utc. simpl.
  assert (HD : us_per_day = 24 * us_per_hour) by reflexivity.
  assert (HH : 0 < us_per_hour) by (unfold us_per_hour; lia).
  pose proof (Z.div_mod t us_per_day ltac:(lia)) as Hdm.
  pose proof (Z.mod_pos_bound t us_per_day ltac:(lia)) as Hm.
  assert (Hmod : (t / us_per_day * us_per_day + h * us_per_hour) mod us_per_day
                 = h * us_per_hour).
  { rewrite Z.add_comm, Z.mod_add by lia. apply Z.mod_small. nia. }
  destruct (Z.ltb_spec t (t / us_per_day * us_per_day + h * us_per_hour)).
  - split; [nia | exact Hmod].
  - split; [nia|].
    replace (t / us_per_day * us_per_day + h * us_per_hour + us_per_day)
      with (h * us_per_hour + (t / us_per_day + 1) * us_per_day) by lia.
    rewrite Z.mod_add by lia. apply Z.mod_small. nia.
Qed.

Lemma do_reset_not_daily_exhausted now m kd limit :
  daily_limit (attrs m) = Some limit -> 0 < limit ->
  daily_exhausted (do_reset now m) (zero_usage kd) = false.
Proof.
  intros Hl Hpos. unfold daily_exhausted. rewrite do_reset_attrs, Hl.
  rewrite usage_zero_usage. apply Z.leb_gt. exact Hpos.
Qed.

(** X13.  A reset frees the pool: when a reset is due and the daily limit
    is absent or positive, [get_key] returns the first key of the dict,
    however high its counter was, unless the rate window of that key is
    still full after eviction. *)
Theorem reset_frees_the_first_key m now mono d r k kd rest :
  last_reset_time (data m) = Some (JIso d) ->
  reset_decision (attrs m) (assume_utc d) now = inr (Some r) ->
  keys (data m) = (k, kd) :: rest ->
  (forall limit, daily_limit (attrs m) = Some limit -> 0 < limit) ->
  rate_exhausted (cleanup_timestamps_internal mono (do_reset now m)) k = false ->
  get_key now mono m =
    Ok k (cleanup_timestamps_internal mono (do_reset now m)) /\
  usage_of (cleanup_timestamps_internal mono (do_reset now m)) k = Some 0.
Proof.
  intros Ht Hd Hk Hlim Hrate.
  rewrite (get_key_unfold now mono m _ (check_due now m d r Ht Hd)).
  rewrite do_reset_keys, Hk. simpl. rewrite Hrate.
  assert (Hde : daily_exhausted
                  (cleanup_timestamps_internal mono (do_reset now m))
                  (zero_usage kd) = false).
  { unfold daily_exhausted. rewrite cleanup_attrs, do_reset_attrs.
    destruct (daily_limit (attrs m)) as [limit|] eqn:Hl; [|reflexivity].
    rewrite usage_zero_usage. apply Z.leb_gt. exact (Hlim limit eq_refl). }
  rewrite Hde. split; [reflexivity|].
  unfold usage_of. rewrite cleanup_data, do_reset_keys, Hk. simpl.
  rewrite String.eqb_refl. simpl. rewrite usage_zero_usage. reflexivity.
Qed.

Lemma evict_all_stale cutoff w :
  Forall (fun ts => ts < cutoff) w -> evict cutoff w = None.
Proof.
  intros H. unfold evict.
  assert (Hf : List.filter (fun ts => cutoff <=? ts) w = []).
  { induction H as [|x l Hx _ IH]; simpl; [reflexivity|].
    destruct (Z.leb_spec cutoff x); [lia | exact IH]. }
  rewrite Hf. reflexivity.
Qed.

(** X14.  Readings older than sixty seconds do not count: when every
    tracked reading is that old and [requests_per_minute] is positive,
    [get_key] drops the whole tracker and skips no key for its rate, so it
    returns the first key that is under its daily limit. *)
Theorem stale_readings_do_not_count m now mono m1 rpm :
  check_and_reset_internal now m = Ok tt m1 ->
  requests_per_minute (attrs m) = Some rpm -> 0 < rpm ->
  (forall k w, key_timestamps m !! k = Some w ->
     Forall (fun ts => ts < mono - sixty_seconds) w) ->
  key_timestamps (final (get_key now mono m)) = ∅ /\
  (forall pre k kd post,
     keys (data m1) = pre ++ (k, kd) :: post ->
     Forall (fun e => daily_exhausted m (snd e) = true) pre ->
     daily_exhausted m kd = false ->
     get_key now mono m = Ok k (cleanup_timestamps_internal mono m1)).
Proof.
  intros Hc Hr Hpos Hold.
  pose proof (check_ok_reconciled now m m1 Hc) as Hrec.
  pose proof (reconciled_attrs now m m1 Hrec) as Ha.
  pose proof (reconciled_timestamps now m m1 Hrec) as Hts.
  assert (Hrpm : rpm_falsy (attrs m1) = false)
    by (unfold rpm_falsy; rewrite Ha, Hr; apply Z.eqb_neq; lia).
  assert (Hempty : key_timestamps (cleanup_timestamps_internal mono m1) = ∅).
  { apply map_eq. intros k. rewrite (cleanup_lookup mono m1 k Hrpm), Hts.
    rewrite lookup_empty.
    destruct (key_timestamps m !! k) as [w|] eqn:Hw; [|reflexivity].
    apply evict_all_stale. exact (Hold k w Hw). }
  split; [rewrite (get_key_final now mono m m1 Hc); exact Hempty|].
  intros pre k kd post Hk Hpre Hkd.
  set (m2 := cleanup_timestamps_internal mono m1) in *.
  assert (Hrate : forall k', rate_exhausted m2 k' = false).
  { intros k'. unfold rate_exhausted, count_in_window.
    unfold m2 at 1. rewrite cleanup_attrs, Ha, Hr, Hempty, lookup_empty. simpl.
    apply Z.leb_gt. exact Hpos. }
  assert (Hdaily : forall x, daily_exhausted m2 x = daily_exhausted m x)
    by (intros x; unfold daily_exhausted, m2; rewrite cleanup_attrs, Ha;
        reflexivity).
  assert (Hcl : keys (data m2) = pre ++ (k, kd) :: post)
    by (unfold m2; rewrite cleanup_data; exact Hk).
  assert (Hskip : Forall (ineligible m2) pre).
  { eapply Stdlib.Lists.List.Forall_impl; [|exact Hpre].
    intros [k0 kd0] He. unfold ineligible. simpl in *.
    rewrite eligible_tests, Hdaily. intros [H _]. congruence. }
  assert (Hhit : eligible m2 k kd)
    by (apply eligible_tests; rewrite Hdaily; split; [exact Hkd | apply Hrate]).
  rewrite (get_key_unfold now mono m m1 Hc). fold m2. simpl. rewrite Hk.
  rewrite (first_available_skips m2 pre _ Hskip).
  rewrite (first_available_hit m2 k kd post Hhit).
  destruct pre; reflexivity.
Qed.

End Recovery.

(** ** The [with] block *)

Section WithBlock.

Implicit Types (m : manager) (s : session) (k : string).

Lemma exit_returns now mono s :
  forall b s', __exit__ now mono s = Returned b s' ->
    b = false /\ active_key s' = None.
Proof.
  intros b s'. unfold __exit__.
  destruct (active_key s) as [k|]; [destruct (String.eqb k "")|];
    try (intros [= <- <-]; split; reflexivity).
  destruct (record_usage (PyStr k) now mono (instance s)) as [[] m|e m];
    [|destruct (is_ApiKeyManagerError e)];
    try discriminate; intros [= <- <-]; split; reflexivity.
Qed.

Lemma exit_raises now mono s e s' :
  __exit__ now mono s = Raised e s' ->
  is_ApiKeyManagerError e = false /\ active_key s' = None /\
  exists k, active_key s = Some k /\
            raised (record_usage (PyStr k) now mono (instance s)) = Some e.
Proof.
  unfold __exit__.
  destruct (active_key s) as [k|]; [destruct (String.eqb k "")|];
    try discriminate.
  destruct (record_usage (PyStr k) now mono (instance s)) as [[] m|e0 m] eqn:Hr;
    [discriminate|].
  destruct (is_ApiKeyManagerError e0) eqn:He; [discriminate|].
  intros [= <- <-]. split; [exact He|]. split; [reflexivity|].
  exists k. split; [reflexivity|]. rewrite Hr. reflexivity.
Qed.

(** X15.  The [with] block never swallows an exception.  When [get_key]
    fails on entry the block raises that exception and the body does not
    run.  When the body raises, the block raises as well, and it never
    completes without a value; when the body returns, the block returns
    the same value or raises.  The only exception that can replace the
    outcome of the body comes out of the usage recording on exit and is
    not an [ApiKeyManagerError].  After a block that was entered,
    [_active_key] is cleared. *)
Theorem with_block_never_swallows A (body : string -> manager -> result A)
    enter_now enter_mono exit_now exit_mono s :
  let outcome_of := with_block enter_now enter_mono exit_now exit_mono body s in
  (forall e m1,
     get_key enter_now enter_mono (instance s) = Raise e m1 ->
     outcome_of = Raised e {| instance := m1; active_key := active_key s |}) /\
  (forall s3, outcome_of <> Returned None s3) /\
  (forall k m1,
     get_key enter_now enter_mono (instance s) = Ok k m1 ->
     (forall e m2, body k m1 = Raise e m2 ->
        exists e' s3, outcome_of = Raised e' s3 /\ active_key s3 = None /\
                      (e' = e \/ is_ApiKeyManagerError e' = false)) /\
     (forall a m2, body k m1 = Ok a m2 ->
        (exists s3, outcome_of = Returned (Some a) s3 /\ active_key s3 = None) \/
        (exists e' s3, outcome_of = Raised e' s3 /\ active_key s3 = None /\
                       is_ApiKeyManagerError e' = false))).
Proof.
  intros outcome_of. unfold outcome_of, with_block, __enter__.
  destruct (get_key enter_now enter_mono (instance s)) as [k m1|e m1].
  2:{ split; [intros e0 m0 [= <- <-]; reflexivity|].
      split; [discriminate | intros; discriminate]. }
  split; [intros; discriminate|]. simpl.
  split.
  - intros s3. destruct (body k m1) as [a m2|e m2].
    + destruct (__exit__ _ _ _); discriminate.
    + destruct (__exit__ exit_now exit_mono _) as [b s'|e' s'] eqn:Hx;
        [|discriminate].
      destruct (exit_returns _ _ _ _ _ Hx) as [-> _]. discriminate.
  - intros k0 m0 [= <- <-]. split.
    + intros e m2 ->.
      destruct (__exit__ exit_now exit_mono _) as [b s'|e' s'] eqn:Hx.
      * destruct (exit_returns _ _ _ _ _ Hx) as [-> Hn].
        exists e, s'. split; [reflexivity|]. split; [exact Hn | left; reflexivity].
      * destruct (exit_raises _ _ _ _ _ Hx) as (He & Hn & _).
        exists e', s'. split; [reflexivity|]. split; [exact Hn | right; exact He].
    + intros a m2 ->.
      destruct (__exit__ exit_now exit_mono _) as [b s'|e' s'] eqn:Hx.
      * destruct (exit_returns _ _ _ _ _ Hx) as [_ Hn].
        left. exists s'. split; [reflexivity | exact Hn].
      * destruct (exit_raises _ _ _ _ _ Hx) as (He & Hn & _).
        right. exists e', s'. split; [reflexivity|]. split; assumption.
Qed.

End WithBlock.

Section WithBlockUsage.

Implicit Types (m : manager) (s : session) (k : string).

(** X16.  Inside a [with] block the use of the key is recorded exactly
    once, on every exit path.  When the body has run, returned or raised,
    and at exit nothing is due: if the selected key is still in the pool
    its usage is one more than the body left it, every other counter is as
    the body left it, one save has run, and the block ends as the body
    did; if the body removed the key, or the key is the empty string,
    nothing is recorded, no error surfaces, and the block still ends as
    the body did. *)
Theorem with_block_records_once A (body : string -> manager -> result A)
    enter_now enter_mono exit_now exit_mono s k m1 :
  get_key enter_now enter_mono (instance s) = Ok k m1 ->
  let m2 := final (body k m1) in
  quiet exit_now m2 ->
  (k <> "" -> forall u, usage_of m2 k = Some u ->
     exists m3,
       with_block enter_now enter_mono exit_now exit_mono body s =
         body_outcome (body k m1) {| instance := m3; active_key := None |} /\
       usage_of m3 k = Some (u + 1) /\
       (forall k', k' <> k -> usage_of m3 k' = usage_of m2 k') /\
       save_calls m3 = S (save_calls m2)) /\
  (k = "" \/ usage_of m2 k = None ->
   with_block enter_now enter_mono exit_now exit_mono body s =
     body_outcome (body k m1) {| instance := m2; active_key := None |}).
Proof.
  intros Hget m2 Hq. unfold with_block, __enter__. rewrite Hget. simpl.
  assert (Hm2 : forall (a : option string),
             (match body k m1 with
              | Ok x m => {| instance := m; active_key := a |}
              | Raise x m => {| instance := m; active_key := a |}
              end) = {| instance := m2; active_key := a |})
    by (intros a; unfold m2; destruct (body k m1); reflexivity).
  split.
  - intros Hk u Hu.
    destruct (record_usage_quiet exit_now exit_mono m2 k u Hq Hk Hu)
      as (m3 & Hrec & Hu3 & Hoth & _ & _ & Hs & _).
    exists m3. split; [|split; [exact Hu3 | split; [exact Hoth | exact Hs]]].
    assert (Hx : __exit__ exit_now exit_mono
                   {| instance := m2; active_key := Some k |} =
                 Returned false {| instance := m3; active_key := None |}).
    { unfold __exit__. simpl.
      destruct (String.eqb_spec k ""); [contradiction|]. rewrite Hrec. reflexivity. }
    unfold m2 in Hx. destruct (body k m1); simpl in *; rewrite Hx; reflexivity.
  - intros Hnone.
    assert (Hx : __exit__ exit_now exit_mono
                   {| instance := m2; active_key := Some k |} =
                 Returned false {| instance := m2; active_key := None |}).
    { unfold __exit__. simpl.
      destruct (String.eqb_spec k "") as [->|Hk]; [reflexivity|].
      destruct Hnone as [->|Hnone]; [contradiction|].
      unfold record_usage. rewrite (nonempty_str_PyStr k Hk).
      unfold quiet in Hq. rewrite Hq. unfold bind.
      unfold usage_of in Hnone.
      destruct (dict_get k (keys (data m2))); [discriminate | reflexivity]. }
    unfold m2 in Hx. destruct (body k m1); simpl in *; rewrite Hx; reflexivity.
Qed.

End WithBlockUsage.

(** ** Reading the reset time *)

Section LastReset.

Implicit Types (m : manager) (now : Z).

Lemma get_last_reset_time_iso m d :
  last_reset_time (data m) = Some (JIso d) ->
  get_last_reset_time m = inr (Some (assume_utc d)).
Proof. intros H. unfold get_last_reset_time. rewrite H. reflexivity. Qed.

(** X17.  [get_last_reset_time] reports the time the scheduler works
    with.  On every instance a program can reach it returns a
    timezone-aware time; right after a reset it is the instant of the
    reset; the reconciliation decision is taken on exactly the time it
    reports; and when it reports [None], the next reconciliation that
    returns leaves the current time behind. *)
Theorem get_last_reset_time_agrees :
  (forall m, reachable m ->
     exists d, get_last_reset_time m = inr (Some d) /\ utcoffset d <> None) /\
  (forall now m, get_last_reset_time (do_reset now m) = inr (Some (utc now))) /\
  (forall m d now,
     get_last_reset_time m = inr (Some d) ->
     check_and_reset_internal now m =
       match reset_decision (attrs m) d now with
       | inl e => Raise e m
       | inr None => Ok tt m
       | inr (Some _) => Ok tt (do_reset now m)
       end) /\
  (forall m now m1,
     get_last_reset_time m = inr None ->
     check_and_reset_internal now m = Ok tt m1 ->
     get_last_reset_time m1 = inr (Some (utc now))).
Proof.
  split; [|split; [|split]].
  - intros m [[d Hd] _]%reachable_invariant.
    exists (assume_utc d). split; [exact (get_last_reset_time_iso m d Hd)|].
    apply assume_utc_aware.
  - intros now m.
    exact (get_last_reset_time_iso _ (utc now) (do_reset_time now m)).
  - intros m d now. unfold get_last_reset_time.
    destruct (last_reset_time (data m)) as [[| | | |d0]|] eqn:Hl; simpl;
      try discriminate.
    intros [= <-]. exact (check_and_reset_iso m now d0 Hl).
  - intros m now m1. unfold get_last_reset_time, check_and_reset_internal,
      repair_missing.
    destruct (last_reset_time (data m)) as [[| | | |d0]|] eqn:Hl; simpl;
      try discriminate; intros _;
      try (intros [= <-]; reflexivity);
      destruct (reset_decision _ _ _) as [e|[r|]]; try discriminate;
      intros [= <-];
      first [ exact (get_last_reset_time_iso _ (utc now) (do_reset_time now _))
            | reflexivity ].
Qed.

End LastReset.

(** ** What reconciliation leaves alone *)

(** X18.  Reconciliation, returning or raising, never adds, removes or
    reorders keys and never touches the limits, the rate windows or
    [api_keys]; every counter is as before or zero; it saves at most
    once, and when it has not saved every record is as before. *)
Theorem reconciliation_touches_counters_only now m :
  let m1 := final (check_and_reset_internal now m) in
  dict_keys (keys (data m1)) = dict_keys (keys (data m)) /\
  attrs m1 = attrs m /\
  key_timestamps m1 = key_timestamps m /\
  api_keys m1 = api_keys m /\
  (forall k u, usage_of m k = Some u ->
     usage_of m1 k = Some u \/ usage_of m1 k = Some 0) /\
  (save_calls m1 = save_calls m \/ save_calls m1 = S (save_calls m)) /\
  (save_calls m1 = save_calls m -> keys (data m1) = keys (data m)).
Proof.
  intros m1. pose proof (check_and_reset_cases now m) as Hr. fold m1 in Hr.
  split; [exact (reconciled_dict_keys now m m1 Hr)|].
  split; [exact (reconciled_attrs now m m1 Hr)|].
  split; [exact (reconciled_timestamps now m m1 Hr)|].
  split; [exact (reconciled_api_keys now m m1 Hr)|].
  split; [intros k u; exact (reconciled_usage now m m1 k u Hr)|].
  destruct Hr; unfold do_reset; rewrite ?save_counts; simpl;
    (split; [auto | try reflexivity; intros; lia]).
Qed.

(** ** Eviction and the limits, in terms of counters and readings *)

Section Limits.

Implicit Types (m : manager) (k : string) (now mono : Z).

Lemma filter_fresh_twice cutoff (w : list Z) :
  List.filter (fun ts => cutoff <=? ts)
    (List.filter (fun ts => cutoff <=? ts) w) =
  List.filter (fun ts => cutoff <=? ts) w.
Proof.
  induction w as [|x w IH]; simpl; [reflexivity|].
  destruct (cutoff <=? x) eqn:E; simpl; rewrite ?E, IH; reflexivity.
Qed.

Lemma evict_twice cutoff w v :
  evict cutoff w = Some v -> evict cutoff v = Some v.
Proof.
  intros (-> & Hne & _)%evict_some. unfold evict.
  rewrite filter_fresh_twice.
  destruct (List.filter (fun ts => cutoff <=? ts) w); [contradiction | reflexivity].
Qed.

Lemma filter_length_le (cutoff : Z) (w : list Z) :
  (length (List.filter (fun ts => (cutoff <=? ts)%Z) w) <= length w)%nat.
Proof.
  induction w as [|x w IH]; simpl; [lia|].
  destruct (cutoff <=? x); simpl; lia.
Qed.

(** X19.  Eviction only shrinks windows and settles at once: after
    [_cleanup_timestamps_internal] no window counts more readings than
    before, and running it again at the same monotonic reading changes
    nothing. *)
Theorem eviction_shrinks_and_settles mono m :
  (forall k,
     count_in_window (cleanup_timestamps_internal mono m) k
     <= count_in_window m k) /\
  cleanup_timestamps_internal mono (cleanup_timestamps_internal mono m) =
    cleanup_timestamps_internal mono m.
Proof.
  unfold cleanup_timestamps_internal.
  destruct (rpm_falsy (attrs m)) eqn:Hr.
  - rewrite Hr. split; [intros; lia | reflexivity].
  - simpl. rewrite Hr. split.
    + intros k. unfold count_in_window. simpl. rewrite lookup_omap.
      destruct (key_timestamps m !! k) as [w|]; simpl; [|lia].
      destruct (evict (mono - sixty_seconds) w) as [v|] eqn:He; simpl; [|lia].
      apply evict_some in He as (-> & _).
      pose proof (filter_length_le (mono - sixty_seconds) w). lia.
    + unfold with_timestamps. simpl. f_equal.
      apply map_eq. intros k. rewrite !lookup_omap.
      destruct (key_timestamps m !! k) as [w|]; simpl; [|reflexivity].
      destruct (evict (mono - sixty_seconds) w) as [v|] eqn:He; simpl;
        [exact (evict_twice _ _ _ He) | reflexivity].
Qed.

Lemma dict_get_app_unique k kd (pre post : keys_dict) :
  List.NoDup (dict_keys (pre ++ (k, kd) :: post)) ->
  dict_get k (pre ++ (k, kd) :: post) = Some kd.
Proof.
  induction pre as [|[k0 kd0] pre IH]; simpl.
  - intros _. rewrite String.eqb_refl. reflexivity.
  - intros Hnd. apply NoDup_cons_iff in Hnd as [Hin Hnd].
    destruct (String.eqb_spec k k0) as [->|Hne]; [|exact (IH Hnd)].
    exfalso. apply Hin. unfold dict_keys. rewrite map_app. apply in_or_app.
    right. left. reflexivity.
Qed.

(** X20.  A key over a limit is not handed out.  When nothing is due, a
    key whose usage has reached the daily limit is not returned by
    [get_key]; and, reset or not, neither is a key whose window holds at
    least [requests_per_minute] readings from the last sixty seconds. *)
Theorem get_key_respects_limits m now mono k :
  (forall limit u,
     unique_keys m -> quiet now m ->
     daily_limit (attrs m) = Some limit ->
     usage_of m k = Some u -> limit <= u ->
     forall m2, get_key now mono m <> Ok k m2) /\
  (forall rpm w,
     requests_per_minute (attrs m) = Some rpm ->
     key_timestamps m !! k = Some w ->
     rpm <= Z.of_nat (length (List.filter
                                (fun ts => mono - sixty_seconds <=? ts) w)) ->
     forall m2, get_key now mono m <> Ok k m2).
Proof.
  split.
  - intros limit u Hun Hq Hl Hu Hle m2 Hget.
    destruct (get_key_ok_inv now mono m k m2 Hget)
      as (_ & pre & kd & post & Hk & _ & [Hd _]).
    unfold quiet in Hq.
    pose proof (get_key_final now mono m m Hq) as Hf.
    rewrite Hget in Hf. simpl in Hf. subst m2.
    rewrite cleanup_data in Hk. rewrite cleanup_attrs, Hl in Hd.
    unfold usage_of in Hu. unfold unique_keys in Hun. rewrite Hk in Hu, Hun.
    rewrite (dict_get_app_unique k kd pre post Hun) in Hu.
    injection Hu as <-. lia.
  - intros rpm w Hr Hw Hle m2 Hget.
    destruct (get_key_ok_inv now mono m k m2 Hget)
      as (_ & pre & kd & post & _ & _ & [_ Hrate]).
    destruct (check_and_reset_internal now m) as [[] m1|e m1] eqn:Hc;
      [|unfold get_key in Hget; rewrite Hc in Hget; discriminate].
    pose proof (get_key_final now mono m m1 Hc) as Hf.
    rewrite Hget in Hf. simpl in Hf. subst m2.
    pose proof (check_ok_reconciled now m m1 Hc) as Hrec.
    rewrite cleanup_attrs, (reconciled_attrs now m m1 Hrec), Hr in Hrate.
    unfold count_in_window, cleanup_timestamps_internal, rpm_falsy in Hrate.
    rewrite (reconciled_attrs now m m1 Hrec), Hr in Hrate.
    rewrite <- (reconciled_timestamps now m m1 Hrec) in Hw.
    destruct (Z.eqb_spec rpm 0) as [->|Hne].
    + rewrite Hw in Hrate. simpl in Hrate. lia.
    + simpl in Hrate. rewrite lookup_omap, Hw in Hrate. simpl in Hrate.
      unfold evict in Hrate.
      destruct (List.filter (fun ts => mono - sixty_seconds <=? ts) w);
        simpl in *; lia.
Qed.

End Limits.

(** ** The keys stay pairwise different *)

Section Unique.

Implicit Types (m : manager) (k : string) (now mono : Z).

Lemma nodup_snoc (l : list string) k :
  List.NoDup l -> ~ In k l -> List.NoDup (l ++ [k]).
Proof.
  induction 1 as [|x l Hx Hnd IH]; simpl; intros Hk.
  - constructor; [intros [] | constructor].
  - constructor.
    + intros [H|[H|[]]]%in_app_or; [contradiction|].
      apply Hk. left. symmetry. exact H.
    + apply IH. intros H. apply Hk. right. exact H.
Qed.

(** Every method keeps the keys of the dict pairwise different, as the
    Python dict does by itself. *)
Lemma methods_keep_keys_unique m :
  unique_keys m ->
  forall a k now mono,
    unique_keys (final (add_key a now m)) /\
    unique_keys (final (remove_key k now m)) /\
    unique_keys (final (get_key now mono m)) /\
    unique_keys (final (record_usage a now mono m)) /\
    unique_keys (final (get_usage_stats now m)).
Proof.
  intros Hu a k now mono.
  pose proof (reconciled_unique now m _ (check_and_reset_cases now m) Hu) as H1.
  split; [|split; [|split; [|split]]].
  - unfold add_key. destruct (nonempty_str a) as [kn|]; [|exact Hu].
    destruct (check_and_reset_internal now m) as [[] m1|e m1];
      unfold bind, final in *; [|exact H1].
    destruct (dict_mem kn (keys (data m1))) eqn:Hmem; [exact H1|].
    unfold unique_keys. rewrite save_keys. simpl.
    rewrite (dict_keys_set_absent kn _ _ Hmem).
    apply nodup_snoc; [exact H1 | apply dict_mem_false_In; exact Hmem].
  - unfold remove_key.
    destruct (check_and_reset_internal now m) as [[] m1|e m1];
      unfold bind, final in *; [|exact H1].
    destruct (dict_mem k (keys (data m1))); [|exact H1].
    unfold unique_keys. rewrite save_keys. simpl.
    rewrite (dict_keys_del k _ H1).
    apply Stdlib.Lists.List.NoDup_filter. exact H1.
  - unfold get_key.
    destruct (check_and_reset_internal now m) as [[] m1|e m1];
      unfold bind, final in *; [|exact H1].
    assert (H2 : unique_keys (cleanup_timestamps_internal mono m1))
      by (unfold unique_keys; rewrite cleanup_data; exact H1).
    destruct (keys (data (cleanup_timestamps_internal mono m1))) eqn:E;
      [exact H2|].
    destruct (first_available _ _); exact H2.
  - unfold record_usage. destruct (nonempty_str a) as [kn|]; [|exact Hu].
    destruct (check_and_reset_internal now m) as [[] m1|e m1];
      unfold bind, final in *; [|exact H1].
    destruct (dict_get kn (keys (data m1))) as [kd|] eqn:Hg; [|exact H1].
    unfold unique_keys. rewrite save_keys.
    assert (Hmem : dict_mem kn (keys (data m1)) = true)
      by (unfold dict_mem; rewrite Hg; reflexivity).
    destruct (requests_per_minute _); simpl;
      rewrite (dict_keys_set_present kn _ _ Hmem); exact H1.
  - unfold get_usage_stats.
    destruct (check_and_reset_internal now m) as [[] m1|e m1];
      unfold bind, final in *; exact H1.
Qed.

End Unique.

(** ** The theorems at sample instances *)

(** The instance used for the round trip is one a program can reach. *)
Lemma used_once_reachable : reachable Run.used_once.
Proof.
  apply reach_record_usage, reach_add_key.
  apply (reach_init None Sample.limits 0 0). reflexivity.
Qed.

(** The sample pool: ["a"] is at its daily limit, so ["b"] is selected. *)
Lemma get_key_first_eligible_witness :
  check_and_reset_internal Sample.hour Sample.pool = Ok tt Sample.pool /\
  get_key Sample.hour (10 * Sample.second) Sample.pool =
    Ok "b" (cleanup_timestamps_internal (10 * Sample.second) Sample.pool).
Proof.
  split; [reflexivity|].
  refine (proj1 (proj2 (get_key_first_eligible Sample.pool Sample.hour
                          (10 * Sample.second) Sample.pool eq_refl))
            [("a", {| usage_today := Some 2 |})] "b"
            {| usage_today := Some 0 |} [] eq_refl _ _).
  - constructor; [|constructor].
    intros [Hd _]. vm_compute in Hd. discriminate.
  - split; vm_compute; reflexivity.
Defined.

(** Reset hour 3, last reset at 04:00 of day zero: nothing at 02:00 of day
    one; at 03:01 a reset, after which the counter of ["a"] is zero and
    the stored time is that instant. *)
Lemma reset_interval_then_hour_witness :
  check_and_reset_internal (1 * us_per_day + 2 * us_per_hour) Run.pool_at_four =
    Ok tt Run.pool_at_four /\
  check_and_reset_internal (1 * us_per_day + 3 * us_per_hour + 60000000)
    Run.pool_at_four =
    Ok tt (do_reset (1 * us_per_day + 3 * us_per_hour + 60000000)
             Run.pool_at_four) /\
  reset_happened (1 * us_per_day + 3 * us_per_hour + 60000000)
    Run.pool_at_four
    (do_reset (1 * us_per_day + 3 * us_per_hour + 60000000) Run.pool_at_four) /\
  usage_of Run.pool_at_four "a" = Some 2 /\
  usage_of (do_reset (1 * us_per_day + 3 * us_per_hour + 60000000)
              Run.pool_at_four) "a" = Some 0.
Proof.
  destruct (proj1 (proj2 reset_interval_then_hour) Run.pool_at_four 1
              eq_refl eq_refl eq_refl) as [H2 H3].
  split; [exact H2|]. split; [exact H3|].
  split; [|split; reflexivity].
  exact (proj1 (proj2 (proj2 reset_interval_then_hour) Run.pool_at_four
                  (1 * us_per_day + 3 * us_per_hour + 60000000))).
Defined.

(** Recording a use of ["b"] in the sample pool takes its usage from 0 to 1. *)
Lemma record_usage_contract_witness :
  check_and_reset_internal Sample.hour Sample.pool = Ok tt Sample.pool /\
  exists m2,
    record_usage (PyStr "b") Sample.hour Sample.second Sample.pool = Ok tt m2 /\
    dict_get "b" (keys (data m2)) = Some {| usage_today := Some 1 |}.
Proof.
  split; [reflexivity|].
  destruct (proj2 (proj2 (proj2 (proj2
              (record_usage_contract Sample.pool Sample.hour Sample.second))
              Sample.pool eq_refl))
              "b" {| usage_today := Some 0 |}
              ltac:(discriminate) eq_refl)
    as (m2 & Hok & Hget & _).
  exists m2. split; [exact Hok | exact Hget].
Defined.

(** The explicit rate limit 20 replaces the persisted 5 and the persisted
    daily limit 50 is kept. *)
Lemma config_resolution_witness :
  exists m,
    init (Some (JsonObject Run.stored)) Run.override_rpm Sample.hour 0 = Built m /\
    requests_per_minute (attrs m) = Some 20 /\
    daily_limit (attrs m) = Some 50.
Proof.
  pose proof (config_resolution Run.stored Run.override_rpm Sample.hour 0)
    as (Hattrs & Hbuilt & _).
  destruct Hbuilt as [m Hm].
  - split; discriminate.
  - reflexivity.
  - reflexivity.
  - exists m. split; [exact Hm|].
    destruct (Hattrs m Hm) as [-> _]. split; reflexivity.
Defined.

(** A selection one hundred seconds after the only reading leaves no stale
    reading behind; and with one request a minute allowed, the key whose
    window holds one stale reading is handed out, because the window is
    emptied before the scan. *)
Lemma get_key_evicts_stale_readings_witness :
  check_and_reset_internal Sample.hour Sample.pool = Ok tt Sample.pool /\
  stale_free (100 * Sample.second)
    (final (get_key Sample.hour (100 * Sample.second) Sample.pool)) /\
  count_in_window Run.pool_rate "a" = 1 /\
  get_key Sample.hour (100 * Sample.second) Run.pool_rate =
    Ok "a" (cleanup_timestamps_internal (100 * Sample.second) Run.pool_rate) /\
  key_timestamps
    (cleanup_timestamps_internal (100 * Sample.second) Run.pool_rate) !! "a"
  = None.
Proof.
  split; [reflexivity|].
  split.
  - refine (proj2 (proj1 (get_key_evicts_stale_readings Sample.pool Sample.hour
                            (100 * Sample.second) Sample.pool eq_refl)
                     5 eq_refl _)).
    discriminate.
  - split; [reflexivity|]. split; [|reflexivity].
    refine (proj1 (proj2 (proj2
              (get_key_evicts_stale_readings Run.pool_rate Sample.hour
                 (100 * Sample.second) Run.pool_rate eq_refl)))
              [] "a" {| usage_today := Some 1 |} [] eq_refl _ _).
    + constructor.
    + split; [exact I|]. vm_compute. reflexivity.
Defined.

(** Adding a key to the sample pool keeps the stored time readable. *)
Lemma last_reset_time_stays_readable_witness :
  time_ok Sample.pool /\
  time_ok (final (add_key (PyStr "c") Sample.hour Sample.pool)).
Proof.
  assert (H : time_ok Sample.pool) by (exists (utc 0); reflexivity).
  split; [exact H|].
  exact (proj1 (proj1 last_reset_time_stays_readable
                  Sample.pool Sample.hour 0 (PyStr "c") "c" H)).
Defined.

(** A daily interval, two days after the last reset: the first
    reconciliation resets, the second does nothing. *)
Lemma reset_then_reconcile_is_noop_witness :
  let m1 := do_reset (2 * us_per_day) Run.pool_daily in
  check_and_reset_internal (2 * us_per_day) Run.pool_daily = Ok tt m1 /\
  check_and_reset_internal (2 * us_per_day) m1 = Ok tt m1.
Proof.
  split; [reflexivity|].
  refine (proj1 (proj2 (proj2
            (reset_then_reconcile_is_noop Run.pool_daily (2 * us_per_day) 1
               eq_refl _ eq_refl eq_refl)))).
  lia.
Defined.

(** One key added and used once, saved, and loaded again an hour later. *)
Lemma save_then_load_round_trip_witness :
  exists m2,
    init (disk (save_data_internal Sample.hour Run.used_once)) no_config
      (2 * Sample.hour) 0 = Built m2 /\
    attrs m2 = Sample.limits /\
    option_map usage (dict_get "k" (keys (data m2))) = Some 1.
Proof.
  destruct (save_then_load_round_trip Run.used_once Sample.hour
              (2 * Sample.hour) 0 used_once_reachable)
    as (m2 & Hb & Ha & _ & _ & Hu).
  - intros d [= <-]. reflexivity.
  - exists m2. split; [exact Hb|]. split; [exact Ha|]. exact (Hu "k").
Defined.

(** The instance built on no file lists exactly the keys of its data. *)
Lemma api_keys_fixed_at_construction_witness :
  init None Sample.limits 0 0 = Built Run.started /\
  api_keys Run.started = dict_keys (keys (data Run.started)).
Proof.
  split; [reflexivity|].
  exact (proj1 api_keys_fixed_at_construction None Sample.limits 0 0
           Run.started eq_refl).
Defined.

(** At 05:00 the reset of hour 3 is due: adding the existing key ["a"]
    raises, and its usage is zero afterwards. *)
Lemma errors_raised_after_reconciliation_witness :
  add_key (PyStr "a") (5 * Sample.hour) Sample.pool =
    Raise (ApiKeyManagerError "API key 'a' already exists.")
          (do_reset (5 * Sample.hour) Sample.pool) /\
  option_map usage
    (dict_get "a" (keys (data (do_reset (5 * Sample.hour) Sample.pool)))) =
    Some 0.
Proof.
  split; [|reflexivity].
  refine (proj1 (proj2 (proj2 (proj2
            (errors_raised_after_reconciliation Sample.pool (5 * Sample.hour) 0)))
            (utc 0) (DailyHour 3) eq_refl eq_refl) "a" _ eq_refl).
  discriminate.
Defined.

(** ** The further properties at sample instances *)

Lemma sample_pool_unique : unique_keys Sample.pool.
Proof.
  unfold unique_keys. simpl.
  constructor; [intros [H|[]]; discriminate|].
  constructor; [intros []|constructor].
Qed.

(** Adding ["c"] to the sample pool gives it a record with usage 0. *)
Lemma add_key_appends_fresh_record_witness :
  exists m2,
    add_key (PyStr "c") Sample.hour Sample.pool = Ok tt m2 /\
    usage_of m2 "c" = Some 0.
Proof.
  destruct (add_key_appends_fresh_record Sample.pool Sample.hour Sample.pool "c"
              eq_refl ltac:(discriminate) eq_refl)
    as (m2 & Hok & _ & Hu & _).
  exists m2. split; [exact Hok | exact Hu].
Defined.

(** Adding ["a"] again is refused. *)
Lemma add_key_rejections_witness :
  add_key (PyStr "a") Sample.hour Sample.pool =
    Raise (ApiKeyManagerError "API key 'a' already exists.") Sample.pool.
Proof.
  exact (proj1 (proj1 (proj2 (add_key_rejections Sample.pool Sample.hour)
                         Sample.pool "a" eq_refl ltac:(discriminate)))
           eq_refl).
Defined.

(** Removing ["a"] from the sample pool. *)
Lemma remove_key_deletes_record_witness :
  exists m2,
    remove_key "a" Sample.hour Sample.pool = Ok tt m2 /\
    dict_get "a" (keys (data m2)) = None /\
    key_timestamps m2 !! "a" = None.
Proof.
  destruct (proj1 (remove_key_deletes_record Sample.pool Sample.hour Sample.pool
                     "a" eq_refl sample_pool_unique) eq_refl)
    as (m2 & Hok & Hgone & _ & _ & Hts & _).
  exists m2. split; [exact Hok|]. split; [exact Hgone | exact Hts].
Defined.

(** The key the sample pool hands out is one of its keys. *)
Lemma get_key_returns_only_eligible_witness :
  dict_mem "b" (keys (data Sample.pool)) = true.
Proof.
  exact (proj1 (proj1 (get_key_returns_only_eligible Sample.hour
                         (10 * Sample.second) Sample.pool)
                  "b" _ eq_refl)).
Defined.

(** With ["b"] removed, selection does not return ["b"]. *)
Lemma removed_key_is_not_selected_witness :
  get_key Sample.hour 0 (final (remove_key "b" Sample.hour Sample.pool))
  <> Ok "b" Sample.pool.
Proof.
  exact (removed_key_is_not_selected Sample.pool "b" Sample.hour Sample.hour 0
           _ sample_pool_unique eq_refl Sample.pool).
Defined.

(** Selection on the sample pool leaves its data alone. *)
Lemma selection_and_stats_are_read_only_witness :
  data (final (get_key Sample.hour (10 * Sample.second) Sample.pool)) =
  data Sample.pool.
Proof.
  exact (proj1 (selection_and_stats_are_read_only Sample.pool Sample.hour
                  (10 * Sample.second) Sample.pool eq_refl)).
Defined.

(** After adding ["c"] the file holds the data. *)
Lemma file_mirrors_data_witness :
  mirrored (final (add_key (PyStr "c") Sample.hour Sample.pool)).
Proof.
  exact (proj1 file_mirrors_data (PyStr "c") Sample.hour Sample.pool _ eq_refl).
Defined.

(** Two recordings for ["b"] in the first hour. *)
Lemma repeated_recording_adds_up_witness :
  usage_of (record_all "b" [(Sample.hour, Sample.second);
                            (Sample.hour, 2 * Sample.second)] Sample.pool) "b"
  = Some 2.
Proof.
  refine (proj1 (repeated_recording_adds_up "b"
                   [(Sample.hour, Sample.second);
                    (Sample.hour, 2 * Sample.second)]
                   Sample.pool 0 _ eq_refl _)).
  - discriminate.
  - constructor; [reflexivity|]. constructor; [reflexivity | constructor].
Defined.

(** Recording for ["b"] leaves the counter of ["a"] at 2. *)
Lemma counters_only_step_or_reset_witness :
  usage_of Sample.pool "a" = Some 2 /\ (2 = 2 \/ 2 = 0).
Proof.
  split; [reflexivity|].
  exact (proj1 (proj2 (proj2 (counters_only_step_or_reset Sample.pool "a" 2
                                sample_pool_unique eq_refl
                                (PyStr "b") "b" Sample.hour Sample.second 2)))
           eq_refl).
Defined.

(** A reset hour of 24 is refused, after the file was created. *)
Lemma constructor_checks_schedule_witness :
  exists msg f,
    init None {| daily_limit := None; requests_per_minute := None;
                 reset_hour_utc := Some 24; reset_interval_days := None |} 0 0
    = Failed (ValueError msg) (Some f).
Proof.
  exact (proj2 constructor_checks_schedule
           {| daily_limit := None; requests_per_minute := None;
              reset_hour_utc := Some 24; reset_interval_days := None |} 0 0
           (or_introl eq_refl)).
Defined.

(** The sample limits on no file. *)
Lemma constructor_starts_empty_witness :
  exists m, init None Sample.limits 0 0 = Built m /\ keys (data m) = [].
Proof.
  destruct (constructor_starts_empty Sample.limits 0 0 (conj eq_refl eq_refl))
    as (m & Hb & _ & Hk & _).
  exists m. split; [exact Hb | exact Hk].
Defined.

(** Hour 3 after a reset at midnight of day zero. *)
Lemma next_reset_within_a_day_witness :
  0 < instant (next_reset 3 (utc 0)) <= 0 + us_per_day.
Proof.
  destruct (next_reset_within_a_day 3 0 ltac:(lia)) as (H1 & H2 & _).
  split; [exact H1 | exact H2].
Defined.

(** At 05:00 the sample pool resets and hands out ["a"], which was at its
    daily limit. *)
Lemma reset_frees_the_first_key_witness :
  get_key (5 * Sample.hour) (100 * Sample.second) Sample.pool =
    Ok "a" (cleanup_timestamps_internal (100 * Sample.second)
              (do_reset (5 * Sample.hour) Sample.pool)).
Proof.
  refine (proj1 (reset_frees_the_first_key Sample.pool (5 * Sample.hour)
                   (100 * Sample.second) (utc 0) (DailyHour 3) "a" _ _
                   eq_refl eq_refl eq_refl _ eq_refl)).
  intros limit [= <-]. lia.
Defined.

(** One hundred seconds after its only reading the tracker of the sample
    pool is dropped. *)
Lemma stale_readings_do_not_count_witness :
  key_timestamps
    (final (get_key Sample.hour (100 * Sample.second) Sample.pool)) = ∅.
Proof.
  refine (proj1 (stale_readings_do_not_count Sample.pool Sample.hour
                   (100 * Sample.second) Sample.pool 5 eq_refl eq_refl _ _)).
  - lia.
  - intros k w H. unfold Sample.pool in H. simpl in H.
    apply lookup_singleton_Some in H as [_ <-].
    constructor; [|constructor]. vm_compute. reflexivity.
Defined.

(** A body that raises inside a block on the sample pool. *)
Lemma with_block_never_swallows_witness :
  exists e' s3,
    with_block Sample.hour (10 * Sample.second) Sample.hour (11 * Sample.second)
      (fun _ m => Raise (A := unit) (ValueError "boom") m)
      {| instance := Sample.pool; active_key := None |} = Raised e' s3 /\
    active_key s3 = None.
Proof.
  destruct (proj1 (proj2 (proj2
              (with_block_never_swallows unit
                 (fun _ m => Raise (ValueError "boom") m)
                 Sample.hour (10 * Sample.second) Sample.hour (11 * Sample.second)
                 {| instance := Sample.pool; active_key := None |}))
              "b" _ eq_refl) (ValueError "boom") _ eq_refl)
    as (e' & s3 & Ho & Hn & _).
  exists e', s3. split; [exact Ho | exact Hn].
Defined.

(** A block on the sample pool with a body that does nothing records one
    use of ["b"]. *)
Lemma with_block_records_once_witness :
  exists m3,
    with_block Sample.hour (10 * Sample.second) Sample.hour (11 * Sample.second)
      (fun _ m => Ok tt m)
      {| instance := Sample.pool; active_key := None |} =
      Returned (Some tt) {| instance := m3; active_key := None |} /\
    usage_of m3 "b" = Some 1.
Proof.
  destruct (proj1 (with_block_records_once unit (fun _ m => Ok tt m)
                     Sample.hour (10 * Sample.second)
                     Sample.hour (11 * Sample.second)
                     {| instance := Sample.pool; active_key := None |}
                     "b" _ eq_refl eq_refl)
              ltac:(discriminate) 0 eq_refl)
    as (m3 & Ho & Hu & _).
  exists m3. split; [exact Ho | exact Hu].
Defined.

(** The instance used once reports an aware reset time. *)
Lemma get_last_reset_time_agrees_witness :
  exists d, get_last_reset_time Run.used_once = inr (Some d) /\
            utcoffset d <> None.
Proof.
  exact (proj1 get_last_reset_time_agrees Run.used_once used_once_reachable).
Defined.

(** ["a"] is at its daily limit in the sample pool and is not handed
    out. *)
Lemma get_key_respects_limits_witness :
  get_key Sample.hour (10 * Sample.second) Sample.pool <> Ok "a" Sample.pool.
Proof.
  refine (proj1 (get_key_respects_limits Sample.pool Sample.hour
                   (10 * Sample.second) "a")
            2 2 sample_pool_unique eq_refl eq_refl eq_refl _ Sample.pool).
  lia.
Defined.
